(** * Report Writer: a shallow embedding of ReportWriter.py

    The development follows the program's own structure:
    - [Text]: the string helpers the program takes from Python
      ([str.strip], [" ".join], [os.path.basename], [os.path.splitext],
      [os.path.join]);
    - [Numeric]: [TestResultsSection.extract_numeric_value],
      [get_vibration_classification] and the fixed-threshold checks of
      [get_test_data];
    - later modules: the image store, the widget state of a section, the
      equipment tabs, persistence and report assembly.

    Python's [float] is IEEE binary64 and is modelled by Rocq's primitive
    floats; text is modelled by byte strings (ASCII). *)

From Stdlib Require Import ZArith List String Ascii Bool Lia.
From Stdlib Require Import PrimFloat SpecFloat FloatOps FloatAxioms.
From stdpp Require Import base option list gmap strings pretty.

Local Open Scope string_scope.
Local Open Scope list_scope.
Local Open Scope nat_scope.

(* ===================================================================== *)
(** * Text helpers *)
(* ===================================================================== *)

Module Text.

Definition chars (s : string) : list ascii := list_ascii_of_string s.
Definition text (l : list ascii) : string := string_of_list_ascii l.

(** [str.isspace] on ASCII: tab, line feed, vertical tab, form feed,
    carriage return, the four separators 28..31 and the space. *)
Definition is_space (c : ascii) : bool :=
  let n := nat_of_ascii c in
  ((9 <=? n) && (n <=? 13)) || ((28 <=? n) && (n <=? 32)).

Fixpoint lstrip (l : list ascii) : list ascii :=
  match l with
  | c :: l' => if is_space c then lstrip l' else l
  | [] => []
  end.

Definition rstrip (l : list ascii) : list ascii := rev (lstrip (rev l)).

(** [s.strip()] *)
Definition strip (s : string) : string := text (rstrip (lstrip (chars s))).

(** [sep.join(items)] *)
Fixpoint join (sep : string) (items : list string) : string :=
  match items with
  | [] => ""
  | [x] => x
  | x :: rest => x +:+ sep +:+ join sep rest
  end.

(** The longest prefix of [l] inside the class [p], and what follows it. *)
Fixpoint take_while (p : ascii -> bool) (l : list ascii) : list ascii :=
  match l with
  | c :: l' => if p c then c :: take_while p l' else []
  | [] => []
  end.

Fixpoint drop_while (p : ascii -> bool) (l : list ascii) : list ascii :=
  match l with
  | c :: l' => if p c then drop_while p l' else l
  | [] => []
  end.

Definition is_digit (c : ascii) : bool :=
  let n := nat_of_ascii c in (48 <=? n) && (n <=? 57).

Definition is_sign (c : ascii) : bool :=
  if ascii_dec c "+" then true else if ascii_dec c "-" then true else false.

Definition is_dot (c : ascii) : bool :=
  if ascii_dec c "." then true else false.

Definition is_slash (c : ascii) : bool :=
  if ascii_dec c "/" then true else false.

End Text.

(* ===================================================================== *)
(** * A backtracking matcher for the patterns the program uses *)
(* ===================================================================== *)

Module Regex.

Section Matcher.

(** The characters: bytes of an ASCII text, or the code points of a
    Python [str]. *)
Context {A : Type}.

(** The pattern of [extract_numeric_value] is a sequence of character
    classes under [?], [*] and [+], all greedy. *)
Inductive atom : Type :=
| Opt (p : A -> bool)
| Star (p : A -> bool)
| Plus (p : A -> bool).

(** [star p k s]: [p*] followed by the continuation [k]; the longest run is
    tried first and shortened on failure, as Python's matcher does. *)
Fixpoint star (p : A -> bool) (k : list A -> option (list A))
  (s : list A) : option (list A) :=
  match s with
  | c :: s' =>
      if p c then
        match star p k s' with
        | Some m => Some (c :: m)
        | None => k s
        end
      else k s
  | [] => k s
  end.

(** [match_here pat s]: the text matched by [pat] at the start of [s], for
    the first alternative that succeeds in backtracking order. *)
Fixpoint match_here (pat : list atom) (s : list A) : option (list A) :=
  match pat with
  | [] => Some []
  | Opt p :: pat' =>
      match s with
      | c :: s' =>
          if p c then
            match match_here pat' s' with
            | Some m => Some (c :: m)
            | None => match_here pat' s
            end
          else match_here pat' s
      | [] => match_here pat' s
      end
  | Star p :: pat' => star p (match_here pat') s
  | Plus p :: pat' =>
      match s with
      | c :: s' =>
          if p c then
            match star p (match_here pat') s' with
            | Some m => Some (c :: m)
            | None => None
            end
          else None
      | [] => None
      end
  end.

(** [re.search(pat, s)]: the match at the leftmost position that has one. *)
Fixpoint search (pat : list atom) (s : list A) : option (list A) :=
  match match_here pat s with
  | Some m => Some m
  | None =>
      match s with
      | [] => None
      | _ :: s' => search pat s'
      end
  end.

End Matcher.

Arguments atom A : clear implicits.

End Regex.

(* ===================================================================== *)
(** * Numeric extraction and classification (TestResultsSection) *)
(* ===================================================================== *)

Module Numeric.
Import Text Regex.

(** [r'[-+]?\d*\.?\d+'] *)
Definition number_re : list (atom ascii) :=
  [Opt is_sign; Star is_digit; Opt is_dot; Plus is_digit].

Definition digit_value (c : ascii) : Z := Z.of_nat (nat_of_ascii c - 48).

(** The integer written by a run of decimal digits. *)
Definition digits_value (ds : list ascii) : Z :=
  fold_left (fun acc c => (10 * acc + digit_value c)%Z) ds 0%Z.

(** A plain decimal literal: sign, integer digits, fraction digits. *)
Definition split_sign (t : list ascii) : bool * list ascii :=
  match t with
  | c :: r => if ascii_dec c "-" then (true, r)
              else if ascii_dec c "+" then (false, r) else (false, t)
  | [] => (false, t)
  end.

Definition parse_unsigned (body : list ascii) : option (list ascii * list ascii) :=
  let ip := take_while is_digit body in
  match drop_while is_digit body with
  | [] => if bool_decide (ip = []) then None else Some (ip, [])
  | c :: fr =>
      if is_dot c && forallb is_digit fr && negb (bool_decide (ip ++ fr = []))
      then Some (ip, fr) else None
  end.

Definition parse_decimal (t : list ascii) : option (bool * list ascii * list ascii) :=
  let '(neg, body) := split_sign t in
  match parse_unsigned body with
  | Some (ip, fr) => Some (neg, ip, fr)
  | None => None
  end.

(** The binary64 value nearest to [(-1)^neg * n / 10^k] (ties to even):
    what Python's [float] returns for a decimal literal. *)
Definition decimal_to_float (neg : bool) (n : Z) (k : nat) : float :=
  match n with
  | Zpos p =>
      SF2Prim (SFdiv prec emax (S754_finite neg p 0)
                 (S754_finite false (Z.to_pos (10 ^ Z.of_nat k)) 0))
  | _ => if neg then neg_zero else zero
  end.

(** [float(token)] for the plain decimal literals the pattern can match;
    [None] stands for [ValueError]. *)
Definition py_float (t : list ascii) : option float :=
  match parse_decimal t with
  | Some (neg, ip, fr) =>
      Some (decimal_to_float neg (digits_value (ip ++ fr)) (length fr))
  | None => None
  end.

(** [TestResultsSection.extract_numeric_value] *)
Definition extract_numeric_value (text : string) : option float :=
  if bool_decide (text = "") then None
  else
    match search number_re (chars (strip text)) with
    | Some m => py_float m
    | None => None
    end.

(** ** What the specification calls a signed decimal token *)






Definition unable : string * bool := ("Unable to classify", false).

Section Platform.

(** [math.pow(x, 0.5)] is computed by the C library of the platform, which
    is not part of the program: it is a parameter here. [None] stands for
    the [ValueError] Python raises. *)
Variable pow_half : float -> option float.

(** [TestResultsSection.get_vibration_classification]; the [try] block
    catches the [ValueError] of [math.pow]. *)
Definition get_vibration_classification_with (rpm vibration_value : option float)
  : string * bool :=
  match rpm, vibration_value with
  | Some rpm, Some vibration_value =>
      match pow_half (PrimFloat.div rpm 1000%float) with
      | None => unable
      | Some rpm_factor =>
          let extremely_smooth_threshold := PrimFloat.mul 0.28%float rpm_factor in
          let very_smooth_threshold := PrimFloat.mul 0.45%float rpm_factor in
          let smooth_threshold := PrimFloat.mul 0.71%float rpm_factor in
          let good_threshold := PrimFloat.mul 1.12%float rpm_factor in
          let fair_threshold := PrimFloat.mul 1.8%float rpm_factor in
          let slightly_rough_threshold := PrimFloat.mul 2.8%float rpm_factor in
          let rough_threshold := PrimFloat.mul 4.5%float rpm_factor in
          let very_rough_threshold := PrimFloat.mul 7.1%float rpm_factor in
          if PrimFloat.leb vibration_value extremely_smooth_threshold
          then ("Extremely Smooth", true)
          else if PrimFloat.leb vibration_value very_smooth_threshold
          then ("Very Smooth", true)
          else if PrimFloat.leb vibration_value smooth_threshold
          then ("Smooth", true)
          else if PrimFloat.leb vibration_value good_threshold
          then ("Good", true)
          else if PrimFloat.leb vibration_value fair_threshold
          then ("Fair", false)
          else if PrimFloat.leb vibration_value slightly_rough_threshold
          then ("Slightly Rough", false)
          else if PrimFloat.leb vibration_value rough_threshold
          then ("Rough", false)
          else if PrimFloat.leb vibration_value very_rough_threshold
          then ("Very Rough", false)
          else ("Extremely Rough", false)
      end
  | _, _ => unable
  end.

End Platform.

(** [r] is [x] or one of its two neighbours among the floats. *)
Definition within_one_ulp (r x : float) : Prop :=
  r = x \/ r = next_up x \/ r = next_down x.

(** What is fixed of [math.pow(x, 0.5)] on a finite base: Python raises
    [ValueError] on a negative one; on a positive one the C library gives
    the square root with an error below one unit in the last place, so the
    correctly rounded root or a neighbour of it. *)
Definition pow_contract (pow_half : float -> option float) : Prop :=
  forall x, is_nan x = false -> is_infinity x = false ->
    (PrimFloat.ltb x 0%float = true -> pow_half x = None) /\
    (PrimFloat.ltb 0%float x = true ->
       exists r, pow_half x = Some r /\ within_one_ulp r (PrimFloat.sqrt x)).

(** The power function of a platform whose C library rounds correctly at
    the exponent 0.5, with C99's results at the special values. *)
Definition math_pow_half (x : float) : option float :=
  if is_nan x then Some nan
  else if PrimFloat.ltb x 0%float then
    if is_infinity x then Some infinity else None
  else if PrimFloat.eqb x 0%float then Some zero
  else Some (PrimFloat.sqrt x).

(** The classifier on that platform. *)
Definition get_vibration_classification : option float -> option float -> string * bool :=
  get_vibration_classification_with math_pow_half.

(** ** The severity chart as the specification words it *)






(** ** Fixed-threshold checks of [get_test_data] *)

(** [audio_numeric is not None and audio_numeric <= 72] *)
Definition audio_ok (audio_numeric : option float) : bool :=
  match audio_numeric with
  | Some v => PrimFloat.leb v 72%float
  | None => false
  end.

(** [temp_numeric is not None and temp_numeric <= 95] *)
Definition temp_ok (temp_numeric : option float) : bool :=
  match temp_numeric with
  | Some v => PrimFloat.leb v 95%float
  | None => false
  end.

(** Truth value of an optional float in a Python condition: [None] and
    zero are false. *)
Definition truthy (x : option float) : bool :=
  match x with
  | Some v => negb (PrimFloat.eqb v 0%float)
  | None => false
  end.

End Numeric.

(* ===================================================================== *)
(** * Properties of the text helpers and of the matcher *)
(* ===================================================================== *)

Module TextFacts.
Import Text.

Lemma take_drop_while p l : take_while p l ++ drop_while p l = l.
Proof.
  induction l as [|c l IH]; simpl; [reflexivity|].
  destruct (p c); simpl; [now rewrite IH | reflexivity].
Qed.

Lemma take_while_all p l : forallb p (take_while p l) = true.
Proof.
  induction l as [|c l IH]; simpl; [reflexivity|].
  destruct (p c) eqn:E; simpl; [now rewrite E | reflexivity].
Qed.

Lemma drop_while_head p l c r : drop_while p l = c :: r -> p c = false.
Proof.
  induction l as [|a l IH]; simpl; [discriminate|].
  destruct (p a) eqn:E; [exact IH|].
  intros H; injection H as -> _. exact E.
Qed.





(** Classes that hold no white space see through a white tail. *)
Lemma take_while_white_tail p y ws :
  (forall c, is_space c = true -> p c = false) ->
  forallb is_space ws = true ->
  take_while p (y ++ ws) = take_while p y.
Proof.
  intros Hp Hws. induction y as [|c y IH]; simpl.
  - destruct ws as [|w ws]; simpl; [reflexivity|].
    simpl in Hws. apply andb_true_iff in Hws as [Hw _].
    now rewrite (Hp w Hw).
  - destruct (p c); [now rewrite IH | reflexivity].
Qed.

Lemma drop_while_white_tail p y ws :
  (forall c, is_space c = true -> p c = false) ->
  forallb is_space ws = true ->
  drop_while p (y ++ ws) = drop_while p y ++ ws.
Proof.
  intros Hp Hws. induction y as [|c y IH]; simpl.
  - destruct ws as [|w ws]; simpl; [reflexivity|].
    simpl in Hws. apply andb_true_iff in Hws as [Hw _].
    now rewrite (Hp w Hw).
  - destruct (p c); [exact IH | reflexivity].
Qed.










(** [lstrip] and [rstrip] cut white space only. *)
Lemma lstrip_split l :
  exists ws, l = ws ++ lstrip l /\ forallb is_space ws = true.
Proof.
  induction l as [|c l [ws [E H]]]; simpl.
  - exists []. split; reflexivity.
  - destruct (is_space c) eqn:Ec.
    + exists (c :: ws). simpl. rewrite Ec, H. split; [now f_equal | reflexivity].
    + exists []. split; reflexivity.
Qed.

Lemma rstrip_split l :
  exists ws, l = rstrip l ++ ws /\ forallb is_space ws = true.
Proof.
  unfold rstrip. destruct (lstrip_split (rev l)) as [ws [E H]].
  exists (rev ws). split.
  - rewrite <- rev_app_distr, <- E. now rewrite rev_involutive.
  - rewrite forallb_forall in *. intros x Hx. apply H. now apply in_rev.
Qed.

Lemma chars_text l : chars (text l) = l.
Proof. apply list_ascii_of_string_of_list_ascii. Qed.

Lemma text_chars s : text (chars s) = s.
Proof. apply string_of_list_ascii_of_string. Qed.

Lemma chars_strip s : chars (strip s) = rstrip (lstrip (chars s)).
Proof. unfold strip. apply chars_text. Qed.


End TextFacts.

Module NumericFacts.
Import Text Regex Numeric TextFacts.

(** ** Comparing floats *)

Lemma SFcompare_antisym x y :
  SFcompare y x = match SFcompare x y with Some c => Some (CompOpp c) | None => None end.
Proof.
  destruct x as [sx|sx| |sx mx ex], y as [sy|sy| |sy my ey]; simpl;
    try reflexivity; try (destruct sx; reflexivity); try (destruct sy; reflexivity);
    try (destruct sx, sy; reflexivity).
  change (Pos.compare_cont Eq my mx) with (Pos.compare my mx).
  change (Pos.compare_cont Eq mx my) with (Pos.compare mx my).
  destruct sx, sy; try reflexivity; f_equal;
    rewrite (Z.compare_antisym ex ey); destruct (ex ?= ey)%Z; simpl; try reflexivity;
    rewrite (Pos.compare_antisym mx my);
    destruct (Pos.compare mx my); reflexivity.
Qed.

(** [x < y] rules out [y <= x]. *)
Lemma ltb_leb_false x y : PrimFloat.ltb x y = true -> PrimFloat.leb y x = false.
Proof.
  rewrite FloatAxioms.ltb_spec, FloatAxioms.leb_spec. unfold SFltb, SFleb.
  rewrite (SFcompare_antisym (Prim2SF x) (Prim2SF y)).
  destruct (SFcompare (Prim2SF x) (Prim2SF y)) as [[| |]|]; simpl; congruence.
Qed.

(** ** The matcher on the number pattern *)








(** ** Soundness and maximality of the match at one position *)






(** ** The search *)






(** ** White space around the text holds no token *)











(** ** [float] accepts every token *)



(** ** [extract_numeric_value] finds the first token of the text *)




(** ** The classifier on every platform *)




(** The verdict at the calibration point does not depend on the platform:
    the three floats around the root of 1.4 all put 1.1 in the "Good"
    band. *)
Lemma calibration_point_on_every_platform (pow_half : float -> option float) :
  pow_contract pow_half ->
  get_vibration_classification_with pow_half (Some 1400%float) (Some 1.1%float)
  = ("Good", true).
Proof.
  intros H.
  destruct (H (PrimFloat.div 1400 1000)%float eq_refl eq_refl) as [_ Hpos].
  destruct (Hpos eq_refl) as (r & Hr & Hulp).
  unfold get_vibration_classification_with. rewrite Hr.
  destruct Hulp as [->|[->| ->]]; vm_compute; reflexivity.
Qed.

(** ** The claims about the numeric engine *)


(** C1: at the calibration point the source comment names (1400 RPM,
    1.1 mm/s, "Fair") the classifier answers "Good", acceptable: the
    "Good" threshold there is 1.12 * sqrt(1.4), about 1.325. *)
Theorem calibration_point_classified_good :
  get_vibration_classification (Some 1400%float) (Some 1.1%float)
  = ("Good", true).
Proof. vm_compute. reflexivity. Qed.




End NumericFacts.

(* ===================================================================== *)
(** * Paths ([os.path], POSIX flavour) *)
(* ===================================================================== *)

Module Paths.
Import Text.

Definition not_slash (c : ascii) : bool := negb (is_slash c).
Definition not_dot (c : ascii) : bool := negb (is_dot c).

(** [os.path.basename(p)]: what follows the last slash. *)
Definition basename (p : string) : string :=
  text (rev (take_while not_slash (rev (chars p)))).

(** [os.path.splitext(p)]: the extension starts at the last dot of the
    last component, unless only dots precede it there. *)
Definition splitext (p : string) : string * string :=
  let r := rev (chars p) in
  let e := take_while (fun c => not_slash c && not_dot c) r in
  match drop_while (fun c => not_slash c && not_dot c) r with
  | c :: stem =>
      if is_dot c && existsb not_dot (take_while not_slash stem)
      then (text (rev stem), text (rev (e ++ [c])))
      else (p, "")
  | [] => (p, "")
  end.

(** [os.path.join(a, b)] *)
Definition path_join (a b : string) : string :=
  match chars b with
  | c :: _ => if is_slash c then b else
      match rev (chars a) with
      | [] => b
      | l :: _ => if is_slash l then a +:+ b else a +:+ "/" +:+ b
      end
  | [] =>
      match rev (chars a) with
      | [] => b
      | l :: _ => if is_slash l then a +:+ b else a +:+ "/" +:+ b
      end
  end.

End Paths.

(* ===================================================================== *)
(** * The image store ([ReportGeneratorApp._copy_images]) *)
(* ===================================================================== *)

Module ImageStore.
Import Text Paths.

(** The file system: regular files by path, each with its bytes. *)
Abbreviation files := (gmap string string).

(** [filecmp.cmp(a, b, shallow=False)] on two existing files. *)
Definition same_bytes (a b : string) : bool := bool_decide (a = b).

(** The [while] loop that looks for a name: it ends on a free name (the
    [else] branch copies) or on a stored file with the same bytes (the
    [break] reuses it). The result says which name, and whether to copy.
    [fuel] bounds the iterations. *)
Fixpoint find_name (fuel : nat) (fs : files) (content : string)
  (dest_folder base ext new_filename : string) (counter : nat)
  : option (string * bool) :=
  match fuel with
  | 0 => None
  | S fuel' =>
      match fs !! path_join dest_folder new_filename with
      | Some existing =>
          if same_bytes content existing then Some (new_filename, false)
          else find_name fuel' fs content dest_folder base ext
                 (base +:+ "_" +:+ pretty counter +:+ ext) (S counter)
      | None => Some (new_filename, true)
      end
  end.

(** One turn of the [for] loop: a missing source is skipped. *)
Definition copy_image (fs : files) (img_path dest_folder : string)
  : option (files * option string) :=
  match fs !! img_path with
  | None => Some (fs, None)
  | Some content =>
      let filename := basename img_path in
      let dest_path := path_join dest_folder filename in
      if match fs !! dest_path with
         | Some existing => same_bytes content existing
         | None => false
         end
      then Some (fs, Some filename)
      else
        let '(base, ext) := splitext filename in
        match find_name (S (size fs)) fs content dest_folder base ext filename 1 with
        | Some (new_filename, true) =>
            Some (<[path_join dest_folder new_filename := content]> fs,
                  Some new_filename)
        | Some (new_filename, false) => Some (fs, Some new_filename)
        | None => None
        end
  end.

(** [_copy_images(image_paths, dest_folder)]: the file system afterwards
    and [copied_paths]. *)
Fixpoint copy_images (fs : files) (image_paths : list string)
  (dest_folder : string) : option (files * list string) :=
  match image_paths with
  | [] => Some (fs, [])
  | img_path :: rest =>
      match copy_image fs img_path dest_folder with
      | Some (fs1, copied) =>
          match copy_images fs1 rest dest_folder with
          | Some (fs2, names) =>
              Some (fs2, match copied with Some n => n :: names | None => names end)
          | None => None
          end
      | None => None
      end
  end.

(** The names the loop tries for a file name, in order. *)
Definition candidate (filename : string) (k : nat) : string :=
  match k with
  | 0 => filename
  | S _ => fst (splitext filename) +:+ "_" +:+ pretty k +:+ snd (splitext filename)
  end.

End ImageStore.


Module PathFacts.
Import Text TextFacts Paths.

Lemma chars_app a b : chars (a +:+ b) = chars a ++ chars b.
Proof. induction a as [|c a IH]; simpl; [reflexivity|]. now rewrite <- IH. Qed.

Lemma chars_inj a b : chars a = chars b -> a = b.
Proof. intros H. rewrite <- (text_chars a), <- (text_chars b). now f_equal. Qed.

Lemma app_inj_right a b e : a +:+ e = b +:+ e -> a = b.
Proof.
  intros H. apply chars_inj. apply (f_equal chars) in H.
  rewrite !chars_app in H. now apply app_inv_tail in H.
Qed.

Lemma app_length_ne a b x : x <> "" -> a +:+ b <> a +:+ x +:+ b.
Proof.
  intros Hx H. apply (f_equal chars) in H. rewrite !chars_app in H.
  apply app_inv_head in H. apply (f_equal (@length ascii)) in H.
  rewrite length_app in H. destruct (chars x) eqn:E; [|simpl in H; lia].
  apply Hx. apply chars_inj. exact E.
Qed.

(** [splitext] cuts the name in two. *)
Lemma splitext_app p : fst (splitext p) +:+ snd (splitext p) = p.
Proof.
  unfold splitext.
  pose proof (take_drop_while (fun c => not_slash c && not_dot c) (rev (chars p))) as H.
  destruct (drop_while _ (rev (chars p))) as [|c stem].
  - simpl. apply chars_inj. rewrite chars_app. simpl. now rewrite app_nil_r.
  - destruct (is_dot c && existsb not_dot (take_while not_slash stem)); simpl.
    + apply chars_inj. rewrite chars_app, !chars_text.
      rewrite <- rev_app_distr, <- app_assoc. simpl. rewrite H.
      apply rev_involutive.
    + apply chars_inj. rewrite chars_app. simpl. now rewrite app_nil_r.
Qed.

(** A name is relative when it does not begin with a slash. *)
Definition relative (n : string) : Prop :=
  match chars n with
  | c :: _ => is_slash c = false
  | [] => True
  end.

(** What [os.path.join] puts before a relative name. *)
Definition folder_prefix (a : string) : string :=
  match rev (chars a) with
  | [] => ""
  | l :: _ => if is_slash l then a else a +:+ "/"
  end.

Lemma path_join_relative a n : relative n -> path_join a n = folder_prefix a +:+ n.
Proof.
  unfold relative, path_join, folder_prefix. intros H.
  destruct (chars n) as [|c r]; [|rewrite H];
    destruct (rev (chars a)) as [|l t]; try reflexivity;
    destruct (is_slash l); try reflexivity;
    apply chars_inj; rewrite !chars_app; now rewrite <- app_assoc.
Qed.

Lemma path_join_inj a n m :
  relative n -> relative m -> path_join a n = path_join a m -> n = m.
Proof.
  intros Hn Hm. rewrite !path_join_relative by assumption.
  apply String.app_inj.
Qed.

Lemma basename_no_slash p : forallb not_slash (chars (basename p)) = true.
Proof.
  unfold basename. rewrite chars_text.
  pose proof (take_while_all not_slash (rev (chars p))) as H.
  rewrite forallb_forall in *. intros x Hx. apply H. now apply in_rev.
Qed.

Lemma basename_relative p : relative (basename p).
Proof.
  pose proof (basename_no_slash p) as H. unfold relative.
  destruct (chars (basename p)) as [|c r]; [exact I|].
  simpl in H. apply andb_true_iff in H as [H _].
  unfold not_slash in H. now apply negb_true_iff in H.
Qed.

End PathFacts.

Module ImageStoreFacts.
Import Text TextFacts Paths PathFacts ImageStore.

(** ** The candidate names *)

Lemma candidate_relative p k : relative (candidate (basename p) k).
Proof.
  destruct k as [|k]; [apply basename_relative|].
  unfold candidate, relative. rewrite chars_app.
  pose proof (splitext_app (basename p)) as E.
  pose proof (basename_relative p) as R. unfold relative in R.
  apply (f_equal chars) in E. rewrite chars_app in E.
  destruct (chars (fst (splitext (basename p)))) as [|c r]; simpl.
  - reflexivity.
  - rewrite <- E in R. exact R.
Qed.

Lemma candidate_inj f i j : candidate f i = candidate f j -> i = j.
Proof.
  pose proof (splitext_app f) as E.
  assert (Hne : forall k, f <> candidate f (S k)).
  { intros k H. unfold candidate in H. rewrite <- E in H at 1.
    revert H. apply (app_length_ne _ _ ("_" +:+ pretty (S k))). discriminate. }
  destruct i as [|i], j as [|j]; intros H.
  - reflexivity.
  - exfalso. exact (Hne _ H).
  - exfalso. symmetry in H. exact (Hne _ H).
  - unfold candidate in H. apply String.app_inj in H.
    apply String.app_inj in H. apply app_inj_right in H.
    now apply (inj pretty) in H.
Qed.

Definition slot (fs : files) (dest f : string) (k : nat) : option string :=
  fs !! path_join dest (candidate f k).

Lemma slot_inj p dest i j :
  path_join dest (candidate (basename p) i) = path_join dest (candidate (basename p) j) ->
  i = j.
Proof.
  intros H. apply path_join_inj in H; try apply candidate_relative.
  now apply candidate_inj in H.
Qed.

(** Occupied slots are distinct files, so there are no more of them than
    files. *)
Lemma occupied_bound (fs : files) p dest k :
  (forall j, j < k -> is_Some (slot fs dest (basename p) j)) -> k <= size fs.
Proof.
  intros H.
  set (g := fun j => path_join dest (candidate (basename p) j)).
  assert (Hinj : Inj (=) (=) g) by (intros i j; apply slot_inj).
  assert (Hnd : NoDup (g <$> seq 0 k)) by (apply NoDup_fmap_2; [exact Hinj | apply NoDup_seq]).
  assert (Hsub : (list_to_set (g <$> seq 0 k) : gset string) ⊆ dom fs).
  { intros q Hq. apply elem_of_list_to_set in Hq.
    apply list_elem_of_fmap in Hq as (j & -> & Hj).
    apply elem_of_seq in Hj. apply elem_of_dom. apply H. lia. }
  apply subseteq_size in Hsub.
  rewrite size_list_to_set in Hsub by exact Hnd.
  rewrite length_fmap, length_seq, size_dom in Hsub. exact Hsub.
Qed.

(** [k] is where the loop stops for bytes [c]: the earlier slots hold other
    bytes, and slot [k] is free or holds [c]. *)
Definition stops_at (fs : files) (c dest f : string) (k : nat) : Prop :=
  (forall j, j < k -> exists e, slot fs dest f j = Some e /\ e <> c) /\
  (slot fs dest f k = None \/ slot fs dest f k = Some c).

(** The stored file of bytes [c] for name [f] is in slot [k]. *)
Definition settled (fs : files) (c dest f : string) (k : nat) : Prop :=
  (forall j, j < k -> exists e, slot fs dest f j = Some e /\ e <> c) /\
  slot fs dest f k = Some c.

Lemma stops_at_unique fs c dest f k1 k2 :
  stops_at fs c dest f k1 -> stops_at fs c dest f k2 -> k1 = k2.
Proof.
  intros [P1 L1] [P2 L2].
  destruct (Nat.lt_trichotomy k1 k2) as [H|[H|H]]; [|exact H|].
  - destruct (P2 _ H) as (e & He & Hne). rewrite He in L1.
    destruct L1 as [L1|L1]; [discriminate|congruence].
  - destruct (P1 _ H) as (e & He & Hne). rewrite He in L2.
    destruct L2 as [L2|L2]; [discriminate|congruence].
Qed.

Lemma settled_stops fs c dest f k : settled fs c dest f k -> stops_at fs c dest f k.
Proof. intros [P L]. split; [exact P | now right]. Qed.

Lemma settled_mono (fs1 fs2 : files) c dest f k :
  fs1 ⊆ fs2 -> settled fs1 c dest f k -> settled fs2 c dest f k.
Proof.
  intros Hsub [P L]. split.
  - intros j Hj. destruct (P j Hj) as (e & He & Hne). exists e. split; [|exact Hne].
    unfold slot in *. eapply lookup_weaken; eassumption.
  - unfold slot in *. eapply lookup_weaken; eassumption.
Qed.

(** ** The loop *)

Lemma find_name_result fuel (fs : files) c dest f k n b :
  (forall j, j < k -> exists e, slot fs dest f j = Some e /\ e <> c) ->
  find_name fuel fs c dest (fst (splitext f)) (snd (splitext f)) (candidate f k) (S k)
    = Some (n, b) ->
  exists k', n = candidate f k' /\ stops_at fs c dest f k' /\
    (b = true <-> slot fs dest f k' = None).
Proof.
  revert k. induction fuel as [|fuel IH]; intros k Hprev; simpl; [discriminate|].
  fold (slot fs dest f k).
  destruct (slot fs dest f k) as [e|] eqn:Es.
  - unfold same_bytes. case_bool_decide as Hc.
    + intros H; injection H as <- <-. exists k. subst e.
      split; [reflexivity|]. split; [split; [exact Hprev | now right]|].
      rewrite Es. split; discriminate.
    + intros H. apply (IH (S k)); [|exact H].
      intros j Hj. destruct (decide (j = k)) as [->|Hne].
      * exists e. split; [exact Es | congruence].
      * apply Hprev. lia.
  - intros H; injection H as <- <-. exists k.
    split; [reflexivity|]. split; [split; [exact Hprev | now left]|].
    rewrite Es. split; reflexivity.
Qed.

Lemma find_name_enough fuel (fs : files) c dest p k :
  let f := basename p in
  size fs < k + fuel ->
  (forall j, j < k -> is_Some (slot fs dest f j)) ->
  is_Some (find_name fuel fs c dest (fst (splitext f)) (snd (splitext f))
             (candidate f k) (S k)).
Proof.
  intros f. revert k. induction fuel as [|fuel IH]; intros k Hfuel Hocc.
  - exfalso. apply occupied_bound in Hocc. lia.
  - simpl. fold (slot fs dest f k).
    destruct (slot fs dest f k) as [e|] eqn:Es; [|eauto].
    destruct (same_bytes c e); [eauto|].
    apply (IH (S k)); [lia|].
    intros j Hj. destruct (decide (j = k)) as [->|Hne]; [rewrite Es; eauto|].
    apply Hocc. lia.
Qed.

(** ** One image *)

Lemma copy_image_missing (fs : files) p dest :
  fs !! p = None -> copy_image fs p dest = Some (fs, None).
Proof. intros H. unfold copy_image. now rewrite H. Qed.

(** An existing source gets the name where the loop stops; the file is
    copied there exactly when the slot is free. *)
Lemma copy_image_stops (fs : files) p dest c :
  fs !! p = Some c ->
  exists k, stops_at fs c dest (basename p) k /\
    copy_image fs p dest =
      Some (match slot fs dest (basename p) k with
            | None => <[path_join dest (candidate (basename p) k) := c]> fs
            | Some _ => fs
            end, Some (candidate (basename p) k)).
Proof.
  intros Hp. unfold copy_image. rewrite Hp.
  set (f := basename p).
  change (fs !! path_join dest f) with (slot fs dest f 0).
  destruct (slot fs dest f 0) as [e|] eqn:E0.
  - unfold same_bytes at 1. case_bool_decide as Hc.
    + subst e. exists 0. rewrite E0. split; [|reflexivity].
      split; [intros j Hj; lia | now right].
    + destruct (splitext f) as [base ext] eqn:Esp.
      destruct (find_name_enough (S (size fs)) fs c dest p 0) as [[n b] Hf];
        [lia | intros j Hj; lia |].
      fold f in Hf. rewrite Esp in Hf. simpl fst in Hf. simpl snd in Hf.
      change (candidate f 0) with f in Hf. rewrite Hf.
      pose proof (find_name_result (S (size fs)) fs c dest f 0 n b) as Hr.
      rewrite Esp in Hr. simpl fst in Hr. simpl snd in Hr.
      destruct (Hr ltac:(intros j Hj; lia) Hf) as (k & -> & Hstop & Hb).
      exists k. split; [exact Hstop|].
      destruct (slot fs dest f k) as [e'|] eqn:Ek.
      * destruct b; [destruct Hb as [Hb _]; specialize (Hb eq_refl); discriminate|reflexivity].
      * destruct b; [reflexivity|destruct Hb as [_ Hb]; specialize (Hb eq_refl); discriminate].
  - destruct (splitext f) as [base ext] eqn:Esp.
    exists 0. rewrite E0. split; [split; [intros j Hj; lia | now left]|].
    simpl. change (fs !! path_join dest f) with (slot fs dest f 0). now rewrite E0.
Qed.

(** The same, told by what holds afterwards. *)
Lemma copy_image_settles (fs : files) p dest c :
  fs !! p = Some c ->
  exists k fs', copy_image fs p dest = Some (fs', Some (candidate (basename p) k)) /\
    fs ⊆ fs' /\ settled fs' c dest (basename p) k /\
    (forall q, fs !! q = None -> is_Some (fs' !! q) ->
       q = path_join dest (candidate (basename p) k)) /\
    (slot fs dest (basename p) k = Some c -> fs' = fs).
Proof.
  intros Hp. destruct (copy_image_stops fs p dest c Hp) as (k & [Hprev Hlast] & E).
  exists k. eexists. split; [exact E|].
  destruct (slot fs dest (basename p) k) as [e|] eqn:Ek.
  - destruct Hlast as [|Hlast]; [discriminate|]. injection Hlast as ->.
    split; [reflexivity|]. split; [split; assumption|].
    split; [|reflexivity]. intros q Hq [x Hx]. congruence.
  - split; [now apply insert_subseteq|]. split.
    + split.
      * intros j Hj. destruct (Hprev j Hj) as (e & He & Hne). exists e.
        split; [|exact Hne]. unfold slot in *.
        rewrite lookup_insert_ne; [exact He|]. intros Heq. rewrite <- Heq in He.
        unfold slot in Ek. congruence.
      * unfold slot. apply lookup_insert_eq.
    + split; [|discriminate]. intros q Hq [x Hx].
      destruct (decide (path_join dest (candidate (basename p) k) = q)) as [<-|Hne];
        [reflexivity|].
      rewrite lookup_insert_ne in Hx by exact Hne. congruence.
Qed.

(** Once the file is stored, every later save of the same bytes under the
    same base name reuses it and copies nothing. *)
Lemma copy_image_settled (fs : files) p dest c k :
  fs !! p = Some c -> settled fs c dest (basename p) k ->
  copy_image fs p dest = Some (fs, Some (candidate (basename p) k)).
Proof.
  intros Hp Hs. destruct (copy_image_stops fs p dest c Hp) as (k' & Hstop & E).
  assert (k' = k) as -> by (eapply stops_at_unique; [exact Hstop | now apply settled_stops]).
  destruct Hs as [_ Hk]. now rewrite Hk in E.
Qed.

(** ** A list of images *)

Lemma copy_images_settled (fs : files) paths names dest :
  Forall2 (fun p n => exists c k, fs !! p = Some c /\
             n = candidate (basename p) k /\ settled fs c dest (basename p) k)
          paths names ->
  copy_images fs paths dest = Some (fs, names).
Proof.
  induction 1 as [|p n rest names (c & k & Hp & -> & Hs) _ IH]; [reflexivity|].
  simpl. rewrite (copy_image_settled fs p dest c k Hp Hs). now rewrite IH.
Qed.

(** Without any assumption the save still ends, and keeps every file. *)
Lemma copy_images_total (fs : files) paths dest :
  exists fs' names, copy_images fs paths dest = Some (fs', names) /\ fs ⊆ fs'.
Proof.
  revert fs. induction paths as [|p rest IH]; intros fs.
  - exists fs, []. split; reflexivity.
  - destruct (fs !! p) as [c|] eqn:Hp.
    + destruct (copy_image_settles fs p dest c Hp) as (k & fs1 & E1 & Hsub1 & _).
      destruct (IH fs1) as (fs2 & names & E2 & Hsub2).
      exists fs2, (candidate (basename p) k :: names). simpl. rewrite E1, E2.
      split; [reflexivity | etransitivity; eassumption].
    + destruct (IH fs) as (fs2 & names & E2 & Hsub2).
      exists fs2, names. simpl. rewrite (copy_image_missing fs p dest Hp), E2.
      split; [reflexivity | assumption].
Qed.

(** ** Names without a slash *)

Definition slash_free (n : string) : Prop := forallb not_slash (chars n) = true.

Lemma slash_free_app a b : slash_free (a +:+ b) <-> slash_free a /\ slash_free b.
Proof. unfold slash_free. rewrite chars_app, forallb_app. apply andb_true_iff. Qed.

Lemma pretty_N_char_no_slash x : not_slash (pretty_N_char x) = true.
Proof. unfold pretty_N_char. repeat case_match; reflexivity. Qed.

Lemma pretty_N_go_slash_free x s : slash_free s -> slash_free (pretty_N_go x s).
Proof.
  revert s. induction (N.lt_wf_0 x) as [x _ IH]; intros s Hs.
  destruct (decide (x = 0)%N) as [->|Hx]; [now rewrite pretty_N_go_0|].
  rewrite pretty_N_go_step by lia. apply IH; [apply N.div_lt; lia|].
  unfold slash_free. simpl. now rewrite pretty_N_char_no_slash.
Qed.

Lemma pretty_slash_free (k : nat) : slash_free (pretty k).
Proof.
  unfold pretty, pretty_nat, pretty, pretty_N.
  destruct (decide _); [reflexivity|]. now apply pretty_N_go_slash_free.
Qed.

Lemma candidate_slash_free p k : slash_free (candidate (basename p) k).
Proof.
  pose proof (basename_no_slash p) as H. fold (slash_free (basename p)) in H.
  destruct k as [|k]; [exact H|]. unfold candidate.
  rewrite <- (splitext_app (basename p)) in H. apply slash_free_app in H as [H1 H2].
  apply slash_free_app. split; [exact H1|]. apply slash_free_app. split; [reflexivity|].
  apply slash_free_app. split; [apply pretty_slash_free | exact H2].
Qed.

Lemma take_while_app_all p l r :
  forallb p l = true -> match r with c :: _ => p c = false | [] => True end ->
  take_while p (l ++ r) = l.
Proof.
  intros Hl Hr. induction l as [|c l IH]; simpl in *.
  - destruct r as [|c r]; [reflexivity|]. simpl. now rewrite Hr.
  - apply andb_true_iff in Hl as [-> Hl]. now rewrite IH.
Qed.

(** The base name of a file of the store is its name. *)
Lemma basename_path_join dest n :
  slash_free n -> basename (path_join dest n) = n.
Proof.
  intros Hn.
  assert (Hrel : relative n).
  { unfold relative. unfold slash_free in Hn. destruct (chars n) as [|c r]; [exact I|].
    simpl in Hn. apply andb_true_iff in Hn as [Hc _]. unfold not_slash in Hc.
    now apply negb_true_iff in Hc. }
  rewrite path_join_relative by exact Hrel.
  unfold basename. rewrite chars_app, rev_app_distr.
  rewrite take_while_app_all.
  - rewrite rev_involutive. apply text_chars.
  - unfold slash_free in Hn. rewrite forallb_forall in *. intros x Hx. apply Hn.
    now apply in_rev.
  - unfold folder_prefix. destruct (rev (chars dest)) as [|l t] eqn:E; [exact I|].
    destruct (is_slash l) eqn:El.
    + rewrite E. unfold not_slash. now rewrite El.
    + rewrite chars_app, rev_app_distr. reflexivity.
Qed.


(** ** A save of any list of paths *)

Lemma filter_sublist_mono (P Q : string -> Prop) `{!forall x, Decision (P x)}
  `{!forall x, Decision (Q x)} (l : list string) :
  (forall x, P x -> Q x) -> filter P l `sublist_of` filter Q l.
Proof.
  intros HPQ. induction l as [|x l IH]; [constructor|].
  rewrite !filter_cons. destruct (decide (P x)) as [HP|HP].
  - rewrite decide_True by auto. now constructor.
  - destruct (decide (Q x)); [now constructor | exact IH].
Qed.

(** What one save does: [used] are the sources found when their turn came,
    each settled in the store under the name it got. *)
Lemma copy_images_run (fs : files) paths dest :
  exists fs' names used, copy_images fs paths dest = Some (fs', names) /\
    fs ⊆ fs' /\
    used `sublist_of` paths /\
    filter (fun p => is_Some (fs !! p)) paths `sublist_of` used /\
    Forall2 (fun p n => exists c k, fs' !! p = Some c /\
               n = candidate (basename p) k /\ settled fs' c dest (basename p) k)
            used names /\
    (forall q, fs !! q = None -> is_Some (fs' !! q) ->
       exists n, n ∈ names /\ q = path_join dest n).
Proof.
  revert fs. induction paths as [|p rest IH]; intros fs.
  - exists fs, [], []. split; [reflexivity|]. split; [reflexivity|].
    split; [constructor|]. split; [constructor|]. split; [constructor|].
    intros q Hq [x Hx]. congruence.
  - destruct (fs !! p) as [c|] eqn:Hp.
    + destruct (copy_image_settles fs p dest c Hp)
        as (k & fs1 & E1 & Hsub1 & Hset1 & Hnew1 & _).
      destruct (IH fs1) as (fs2 & names & used & E2 & Hsub2 & Hu & Hf & Hall2 & Hnew2).
      exists fs2, (candidate (basename p) k :: names), (p :: used).
      split; [simpl; now rewrite E1, E2|].
      split; [etransitivity; eassumption|].
      split; [now constructor|].
      split.
      { rewrite filter_cons, decide_True by eauto. constructor.
        etransitivity; [|exact Hf]. apply filter_sublist_mono.
        intros q [x Hx]. exists x. eapply lookup_weaken; eassumption. }
      split.
      { constructor; [|exact Hall2]. exists c, k. split.
        - eapply lookup_weaken; [exact Hp|]. etransitivity; eassumption.
        - split; [reflexivity|]. eapply settled_mono; eassumption. }
      intros q Hq Hsome. destruct (fs1 !! q) as [x|] eqn:E.
      * exists (candidate (basename p) k). split; [left|].
        apply Hnew1; [exact Hq | eauto].
      * destruct (Hnew2 q E Hsome) as (n & Hn & ->). exists n.
        split; [now right|reflexivity].
    + destruct (IH fs) as (fs2 & names & used & E2 & Hsub2 & Hu & Hf & Hall2 & Hnew2).
      exists fs2, names, used.
      split; [simpl; now rewrite (copy_image_missing fs p dest Hp), E2|].
      split; [exact Hsub2|]. split; [now constructor|].
      split.
      { rewrite filter_cons, decide_False; [exact Hf|]. rewrite Hp. now intros [? ?]. }
      split; [exact Hall2 | exact Hnew2].
Qed.

(** A store in which every source that exists is settled is left as it is. *)
Lemma copy_images_fixed (fs : files) paths dest :
  (forall p c, p ∈ paths -> fs !! p = Some c ->
     exists k, settled fs c dest (basename p) k) ->
  exists names, copy_images fs paths dest = Some (fs, names).
Proof.
  induction paths as [|p rest IH]; intros H; [now exists []|].
  destruct IH as [names E]; [intros q c Hq; apply H; now right|].
  destruct (fs !! p) as [c|] eqn:Hp.
  - destruct (H p c ltac:(left) Hp) as [k Hk].
    exists (candidate (basename p) k :: names). simpl.
    now rewrite (copy_image_settled fs p dest c k Hp Hk), E.
  - exists names. simpl. now rewrite (copy_image_missing fs p dest Hp), E.
Qed.

(** ** The claim about the image store *)

(** C2, as stated, fails: the same bytes under two different base names
    are stored twice, once under each name. *)
Lemma same_bytes_two_names_stored_twice :
  let fs : files := <["/a/x.png" := "IMG"]> (<["/b/y.png" := "IMG"]> ∅) in
  exists fs', copy_images fs ["/a/x.png"; "/b/y.png"] "/p/images"
              = Some (fs', ["x.png"; "y.png"]) /\
    fs !! "/a/x.png" = fs !! "/b/y.png" /\
    fs' !! "/p/images/x.png" = Some "IMG" /\
    fs' !! "/p/images/y.png" = Some "IMG".
Proof.
  eexists. split; [vm_compute; reflexivity|].
  split; [reflexivity|]. split; vm_compute; reflexivity.
Qed.

(** C2, amended: the save ends. A source whose file is missing is skipped.
    A source that exists gets the first of the names [base], [base_1],
    [base_2], ... of its base file name that is free or holds its bytes:
    every name before it holds other bytes; when that name holds its bytes
    the stored file is reused and the file system stays as it is, and when
    it is free the bytes are copied there. Over a list: the sources stored
    are, in order, those found at their turn, among them every source that
    existed before; each gets such a name and the stored file of that name
    holds its bytes; no file that existed is changed or removed, so one
    name never gets different bytes; every new file is one of the returned
    names inside the store; two sources with the same base file name and
    the same bytes share one stored file; a repeated save of the same list
    leaves the file system as it is, and the stored sources get the same
    names again. Dedup is by name: the same bytes under different base
    names are stored once per name. *)
Theorem copy_images_dedup_by_name (fs : files) (paths : list string) (dest : string) :
  (forall p, fs !! p = None -> copy_image fs p dest = Some (fs, None)) /\
  (forall p c, fs !! p = Some c ->
     exists k,
       (forall j, j < k ->
          exists e, fs !! path_join dest (candidate (basename p) j) = Some e /\ e <> c) /\
       match fs !! path_join dest (candidate (basename p) k) with
       | Some e =>
           e = c /\ copy_image fs p dest = Some (fs, Some (candidate (basename p) k))
       | None =>
           copy_image fs p dest =
             Some (<[path_join dest (candidate (basename p) k) := c]> fs,
                   Some (candidate (basename p) k))
       end) /\
  exists fs' names used,
    copy_images fs paths dest = Some (fs', names) /\
    used `sublist_of` paths /\
    filter (fun p => is_Some (fs !! p)) paths `sublist_of` used /\
    Forall2 (fun p n => (exists k, n = candidate (basename p) k) /\
               is_Some (fs' !! p) /\ fs' !! path_join dest n = fs' !! p) used names /\
    fs ⊆ fs' /\
    (forall q, fs !! q = None -> is_Some (fs' !! q) ->
       exists n, n ∈ names /\ q = path_join dest n) /\
    (forall i j p q n m,
       used !! i = Some p -> used !! j = Some q ->
       names !! i = Some n -> names !! j = Some m ->
       basename p = basename q -> fs' !! p = fs' !! q -> n = m) /\
    (exists names', copy_images fs' paths dest = Some (fs', names')) /\
    copy_images fs' used dest = Some (fs', names).
Proof.
  split; [intros p Hp; now apply copy_image_missing|].
  split.
  { intros p c Hp. destruct (copy_image_stops fs p dest c Hp) as (k & [Hprev Hlast] & E).
    exists k. split; [exact Hprev|]. unfold slot in *.
    destruct (fs !! path_join dest (candidate (basename p) k)) as [e|].
    - destruct Hlast as [|Hlast]; [discriminate|]. injection Hlast as ->. now split.
    - exact E. }
  destruct (copy_images_run fs paths dest)
    as (fs' & names & used & E & Hsub & Hu & Hf & H2 & Hnew).
  exists fs', names, used. split; [exact E|]. split; [exact Hu|]. split; [exact Hf|].
  split.
  { eapply Forall2_impl; [exact H2|].
    intros p n (c & k & Hp & -> & [_ Hk]). split; [eauto|]. split; [eauto|].
    unfold slot in Hk. now rewrite Hk, Hp. }
  split; [exact Hsub|]. split; [exact Hnew|]. split.
  { intros i j p q n m Hi Hj Hn Hm Hb Hc.
    destruct (Forall2_lookup_lr _ _ _ _ _ _ H2 Hi Hn) as (c & k & Hp & -> & Hs).
    destruct (Forall2_lookup_lr _ _ _ _ _ _ H2 Hj Hm) as (c' & k' & Hq & -> & Hs').
    assert (c = c') by congruence. subst c'. rewrite Hb in *.
    f_equal. eapply stops_at_unique; apply settled_stops; eassumption. }
  split; [|now apply copy_images_settled].
  apply copy_images_fixed. intros p c Hin Hp.
  destruct (decide (p ∈ used)) as [Hused|Hused].
  - apply list_elem_of_lookup in Hused as [i Hi].
    destruct (Forall2_lookup_l _ _ _ _ _ H2 Hi) as (n & _ & c' & k & Hp' & _ & Hs).
    exists k. congruence.
  - assert (Hold : fs !! p = None).
    { destruct (fs !! p) as [x|] eqn:Hx; [|reflexivity]. exfalso. apply Hused.
      eapply elem_of_sublist; [|exact Hf]. apply list_elem_of_filter. split; [|exact Hin].
      rewrite Hx. eauto. }
    destruct (Hnew p Hold ltac:(eauto)) as (n & Hn & ->).
    apply list_elem_of_lookup in Hn as [i Hi].
    destruct (Forall2_lookup_r _ _ _ _ _ H2 Hi) as (q & _ & c' & k & Hq & -> & Hs).
    rewrite basename_path_join by apply candidate_slash_free.
    exists 0. split; [intros j Hj; lia|]. exact Hp.
Qed.

End ImageStoreFacts.

(* ===================================================================== *)
(** * The catalogs *)
(* ===================================================================== *)

Module Catalog.

(** One entry of a pattern dictionary: the ["observations"] list and the
    optional ["sub_observations"] dictionary (keyed by a parent observation,
    or by the empty string for sub-observations of the pattern itself). *)
Record pattern_data : Type := {
  observations : list string;
  sub_observations : option (list (string * list string))
}.

(** A pattern dictionary, in the order it is written. *)
Abbreviation catalog := (list (string * pattern_data)).

Definition plain (obs : list string) : pattern_data :=
  {| observations := obs; sub_observations := None |}.

Definition issues (subs : list string) : pattern_data :=
  {| observations := []; sub_observations := Some [("", subs)] |}.

Definition BEARING_WEAR_PATTERNS : catalog :=
  [ ("No issues detected", plain
      [ "No significant wear patterns observed." ]);
    ("Electrical Fluting (Bearing Flare)", plain
      [ "Closely spaced corrugation patterns visible on raceway surfaces.";
        "Flute-like marks observed across bearing races.";
        "Gray frosted appearance present on raceway surfaces.";
        "Washboard-like texture evident on rolling surfaces.";
        "Material removal visible in regular, repeating patterns.";
        "Symmetric damage pattern across bearing circumference.";
        "Burnt grease observed in bearing." ]);
    ("Pitting/Spalling", plain
      [ "Small craters visible on raceway surfaces.";
        "Material removal observed on rolling surfaces.";
        "Progressive surface deterioration noted.";
        "Irregular surface texture present.";
        "Flaking of surface material evident.";
        "Subsurface initiated damage visible." ]);
    ("Excessive Heat Discoloration", plain
      [ "Blue discoloration visible on bearing surfaces.";
        "Brown tinting present on bearing components.";
        "Straw-colored oxidation observed.";
        "Temper colors evident across races.";
        "Heat patterns visible on rolling elements.";
        "Surface oxidation layers present." ]);
    ("Cage Wear/Damage", plain
      [ "Material loss observed on cage pockets.";
        "Cracks visible in cage structure.";
        "Distortion of cage components noted.";
        "Bending of cage bars evident.";
        "Broken cage segments present.";
        "Wear marks visible on cage surfaces." ]);
    ("Corrosion/Rust", plain
      [ "Red-brown oxidation visible on races.";
        "Rust deposits present on rolling elements.";
        "Surface pitting from corrosion observed.";
        "Moisture staining evident on components.";
        "Oxidation layers covering bearing surfaces.";
        "Corrosion products accumulated in bearing." ]);
    ("Brinelling/False Brinelling", plain
      [ "Evenly spaced depressions visible in raceways.";
        "Indentations corresponding to rolling element positions.";
        "Material displacement evident at contact points.";
        "Regular impression pattern matching element spacing.";
        "Permanent deformation observed in raceway.";
        "Circular indentation marks present." ]);
    ("Lubrication Failure", plain
      [ "Dried lubricant present in bearing.";
        "Hardened grease observed.";
        "Discolored lubricant visible.";
        "Absence of lubricant in critical areas noted.";
        "Contaminated lubricant with foreign particles.";
        "Moisture present in lubricant." ]);
    ("Misalignment Wear", plain
      [ "Asymmetric wear patterns observed.";
        "Uneven contact marks visible on raceways.";
        "One-sided loading evident on rolling elements.";
        "Diagonal wear pattern across bearing width.";
        "Heavier wear on one side of raceway.";
        "Non-uniform contact areas present." ]) ].

Definition BEARING_REFERENCE_IMAGES : list (string * string) :=
  [ ("Electrical Fluting (Bearing Flare)", "fluting.png");
    ("Pitting/Spalling", "spalling.png");
    ("Excessive Heat Discoloration", "heat.png");
    ("Cage Wear/Damage", "cage.png");
    ("Corrosion/Rust", "corrosion.png");
    ("Brinelling/False Brinelling", "brinelling.png");
    ("Lubrication Failure", "lubrication.png");
    ("Misalignment Wear", "misalignment.png") ].

Definition ELECTRICAL_CONNECTION_PATTERNS : catalog :=
  [ ("Status: OK", plain
      [ "Electrical connections inspected and found to be acceptable with no significant issues observed." ]);
    ("Status: NOT OK", issues
      [ "Loose wire connections observed.";
        "Corroded terminals present.";
        "Damaged insulation noted on wiring.";
        "Burnt or discolored connections evident.";
        "Missing or damaged connection hardware.";
        "Improper wire gauge observed.";
        "Evidence of arcing at connection points.";
        "Moisture ingress at electrical connections." ]) ].

Definition MOTOR_SHAFT_PATTERNS : catalog :=
  [ ("Status: OK", plain
      [ "Motor shaft inspected and found to be acceptable with no significant wear observed." ]);
    ("Status: NOT OK", issues
      [ "Shaft surface shows scoring marks.";
        "Rust or corrosion present on shaft.";
        "Shaft exhibits wear at bearing contact areas.";
        "Shaft runout exceeds acceptable limits.";
        "Shaft shows signs of bending or deformation.";
        "Keyway damage observed.";
        "Surface finish degradation noted.";
        "Shaft diameter reduction evident." ]) ].

Definition HOUSING_WEAR_PATTERNS : catalog :=
  [ ("Status: OK", plain
      [ "Motor housing inspected and found to be acceptable with no significant wear observed." ]);
    ("Status: NOT OK", issues
      [ "Scratches visible on bore surfaces.";
        "Grooves present on mounting surfaces.";
        "Material removal evident in bearing seat.";
        "Out-of-round condition observed.";
        "Scoring marks visible on bore.";
        "Loss of surface finish noted.";
        "Wear marks at mounting interfaces.";
        "Corrosion and rust deposits evident on housing surfaces.";
        "Moisture staining evident in housing cavity.";
        "Seal groove damage observed.";
        "Distortion of groove geometry noted.";
        "Thread damage present on fastener holes.";
        "Stripped or cross-threaded holes observed.";
        "Cracks visible in housing structure.";
        "Material separation noted at critical locations.";
        "Mounting surface wear present.";
        "Elongated bolt holes visible.";
        "Deformation at mounting flange noted.";
        "Foreign particles and debris visible in housing.";
        "Contaminated lubricant present." ]) ].

(** [PatternDefinition.isTerminalStatus]: the test the program writes as
    [len(pattern_data.get("observations", [])) == 1 and
     "sub_observations" not in pattern_data]. *)
Definition is_status_ok (pd : pattern_data) : bool :=
  (length (observations pd) =? 1) &&
  match sub_observations pd with None => true | Some _ => false end.

End Catalog.

(* ===================================================================== *)
(** * Python dictionaries that keep their order *)
(* ===================================================================== *)

Module Dict.

Section Ops.
Context {V : Type}.

Fixpoint get (d : list (string * V)) (k : string) : option V :=
  match d with
  | [] => None
  | (k', v) :: d' => if String.eqb k' k then Some v else get d' k
  end.

Definition has (d : list (string * V)) (k : string) : bool :=
  match get d k with Some _ => true | None => false end.

(** [d[k] = v]: in place when the key is there, appended otherwise. *)
Fixpoint set (d : list (string * V)) (k : string) (v : V) : list (string * V) :=
  match d with
  | [] => [(k, v)]
  | (k', v') :: d' =>
      if String.eqb k' k then (k', v) :: d' else (k', v') :: set d' k v
  end.

End Ops.

(** [x in xs] for a list of strings. *)
Definition mem (x : string) (xs : list string) : bool := existsb (String.eqb x) xs.

End Dict.

(* ===================================================================== *)
(** * Widget state of the sections *)
(* ===================================================================== *)

Module Widgets.
Import Catalog.

(** ** ImageUploadWidget *)

Record ImageUploadWidget : Type := { image_paths : list string }.

Definition no_images : ImageUploadWidget := {| image_paths := [] |}.

(** [add_image(img_path)], used when loading: the path is added when it is
    new and the file exists. *)
Definition add_image (file_exists : string -> bool) (w : ImageUploadWidget)
  (img_path : string) : ImageUploadWidget :=
  if negb (Dict.mem img_path (image_paths w)) && file_exists img_path
  then {| image_paths := image_paths w ++ [img_path] |}
  else w.

(** One file chosen in [upload_images]: added when it is new. *)
Definition upload_image (w : ImageUploadWidget) (file_path : string)
  : ImageUploadWidget :=
  if Dict.mem file_path (image_paths w) then w
  else {| image_paths := image_paths w ++ [file_path] |}.

(** ** ComponentSection *)

Record QCheckBox : Type := { cb_text : string; isChecked : bool }.

(** An entry of [pattern_image_widgets]: one widget, or a dictionary of
    widgets keyed by observation (and by ['__pattern_level__']). *)
Inductive image_slot : Type :=
| OneWidget (w : ImageUploadWidget)
| WidgetDict (d : list (string * ImageUploadWidget)).

(** An entry of [custom_patterns]: an inline issue has a [text_input], a
    named pattern a [name_input] and its [obs_inputs]. *)
Record custom_data : Type := {
  custom_id : nat;
  text_input : option string;
  name_input : option string;
  obs_inputs : list string;
  custom_image_widget : option ImageUploadWidget;
  obs_count : nat
}.

Record ComponentSection : Type := {
  title : string;
  wear_patterns : catalog;
  checkboxes : list (string * bool);
  pattern_image_widgets : list (string * image_slot);
  observation_checkboxes : list (string * list QCheckBox);
  observation_containers : list (string * bool);
  custom_patterns : list custom_data;
  notes_text : string;
  image_widget : ImageUploadWidget
}.

(** The title lists the program tests against. *)
Definition status_titles : list string :=
  [ "Motor Housing"; "Motor Shaft"; "Electrical Connection"; "Oil Evaluation";
    "Scroll Plate Inspection"; "Visual Inspection"; "External Inspection";
    "Internal Cylinder Inspection A"; "Internal Cylinder Inspection B" ].

Definition per_observation_titles : list string :=
  [ "Motor Housing"; "Motor Shaft"; "Electrical Connection"; "External Inspection";
    "Internal Cylinder Inspection A"; "Internal Cylinder Inspection B" ].

Definition inline_issue_titles : list string :=
  [ "Motor Housing"; "Motor Shaft"; "Electrical Connection"; "Oil Evaluation";
    "Scroll Plate Inspection"; "Visual Inspection" ].

Definition PATTERN_LEVEL : string := "__pattern_level__".

Definition unchecked (t : string) : QCheckBox := {| cb_text := t; isChecked := false |}.

Definition set_checkboxes (s : ComponentSection) v : ComponentSection :=
  {| title := title s; wear_patterns := wear_patterns s; checkboxes := v;
     pattern_image_widgets := pattern_image_widgets s;
     observation_checkboxes := observation_checkboxes s;
     observation_containers := observation_containers s;
     custom_patterns := custom_patterns s; notes_text := notes_text s;
     image_widget := image_widget s |}.

Definition set_pattern_image_widgets (s : ComponentSection) v : ComponentSection :=
  {| title := title s; wear_patterns := wear_patterns s; checkboxes := checkboxes s;
     pattern_image_widgets := v;
     observation_checkboxes := observation_checkboxes s;
     observation_containers := observation_containers s;
     custom_patterns := custom_patterns s; notes_text := notes_text s;
     image_widget := image_widget s |}.

Definition set_observation_checkboxes (s : ComponentSection) v : ComponentSection :=
  {| title := title s; wear_patterns := wear_patterns s; checkboxes := checkboxes s;
     pattern_image_widgets := pattern_image_widgets s;
     observation_checkboxes := v;
     observation_containers := observation_containers s;
     custom_patterns := custom_patterns s; notes_text := notes_text s;
     image_widget := image_widget s |}.

Definition set_observation_containers (s : ComponentSection) v : ComponentSection :=
  {| title := title s; wear_patterns := wear_patterns s; checkboxes := checkboxes s;
     pattern_image_widgets := pattern_image_widgets s;
     observation_checkboxes := observation_checkboxes s;
     observation_containers := v;
     custom_patterns := custom_patterns s; notes_text := notes_text s;
     image_widget := image_widget s |}.

Definition set_custom_patterns (s : ComponentSection) v : ComponentSection :=
  {| title := title s; wear_patterns := wear_patterns s; checkboxes := checkboxes s;
     pattern_image_widgets := pattern_image_widgets s;
     observation_checkboxes := observation_checkboxes s;
     observation_containers := observation_containers s;
     custom_patterns := v; notes_text := notes_text s;
     image_widget := image_widget s |}.

Definition set_notes_text (s : ComponentSection) v : ComponentSection :=
  {| title := title s; wear_patterns := wear_patterns s; checkboxes := checkboxes s;
     pattern_image_widgets := pattern_image_widgets s;
     observation_checkboxes := observation_checkboxes s;
     observation_containers := observation_containers s;
     custom_patterns := custom_patterns s; notes_text := v;
     image_widget := image_widget s |}.

Definition set_image_widget (s : ComponentSection) v : ComponentSection :=
  {| title := title s; wear_patterns := wear_patterns s; checkboxes := checkboxes s;
     pattern_image_widgets := pattern_image_widgets s;
     observation_checkboxes := observation_checkboxes s;
     observation_containers := observation_containers s;
     custom_patterns := custom_patterns s; notes_text := notes_text s;
     image_widget := v |}.

(** The sub-observations written directly under a pattern
    ([pattern_data["sub_observations"][""]]), when there are any. *)
Definition direct_sub_observations (pd : pattern_data) : option (list string) :=
  match sub_observations pd with
  | Some subs => Dict.get subs ""
  | None => None
  end.

(** The check boxes of one observation of the last branch of [init_ui]:
    the observation, then its own sub-observations. *)
Definition observation_boxes (pd : pattern_data) (observation : string)
  : list QCheckBox :=
  if String.eqb observation "" then []
  else
    unchecked observation ::
    match sub_observations pd with
    | Some subs =>
        match Dict.get subs observation with
        | Some l => map unchecked l
        | None => []
        end
    | None => []
    end.

(** One turn of the loop of [init_ui] over [wear_patterns.items()]. *)
Definition init_pattern (s : ComponentSection) (entry : string * pattern_data)
  : ComponentSection :=
  let '(pattern_name, pd) := entry in
  let s := set_checkboxes s (Dict.set (checkboxes s) pattern_name false) in
  let s :=
    if is_status_ok pd then s
    else
      match direct_sub_observations pd with
      | Some subs =>
          let is_special_section := Dict.mem (title s) per_observation_titles in
          let s :=
            if is_special_section && negb (Dict.has (pattern_image_widgets s) pattern_name)
            then set_pattern_image_widgets s
                   (Dict.set (pattern_image_widgets s) pattern_name (WidgetDict []))
            else s in
          let s :=
            if is_special_section then
              fold_left (fun s sub_obs =>
                match Dict.get (pattern_image_widgets s) pattern_name with
                | Some (WidgetDict d) =>
                    set_pattern_image_widgets s
                      (Dict.set (pattern_image_widgets s) pattern_name
                         (WidgetDict (Dict.set d sub_obs no_images)))
                | _ => s
                end) subs s
            else s in
          let s := set_observation_checkboxes s
                     (Dict.set (observation_checkboxes s) pattern_name
                        (map unchecked subs)) in
          if Dict.mem (title s) status_titles && String.eqb pattern_name "Status: NOT OK"
          then
            match Dict.get (pattern_image_widgets s) pattern_name with
            | Some (WidgetDict d) =>
                if is_special_section then
                  set_pattern_image_widgets s
                    (Dict.set (pattern_image_widgets s) pattern_name
                       (WidgetDict (Dict.set d PATTERN_LEVEL no_images)))
                else
                  set_pattern_image_widgets s
                    (Dict.set (pattern_image_widgets s) pattern_name (OneWidget no_images))
            | _ =>
                set_pattern_image_widgets s
                  (Dict.set (pattern_image_widgets s) pattern_name (OneWidget no_images))
            end
          else if negb (Dict.has (pattern_image_widgets s) pattern_name)
          then set_pattern_image_widgets s
                 (Dict.set (pattern_image_widgets s) pattern_name (OneWidget no_images))
          else s
      | None =>
          set_observation_checkboxes s
            (Dict.set (observation_checkboxes s) pattern_name
               (concat (map (observation_boxes pd) (observations pd))))
      end in
  let s :=
    if is_status_ok pd then
      set_pattern_image_widgets s
        (Dict.set (pattern_image_widgets s) pattern_name (OneWidget no_images))
    else if negb (Dict.has (pattern_image_widgets s) pattern_name)
    then set_pattern_image_widgets s
           (Dict.set (pattern_image_widgets s) pattern_name (OneWidget no_images))
    else s in
  set_observation_containers s (Dict.set (observation_containers s) pattern_name false).

(** [ComponentSection(title, wear_patterns_dict)] *)
Definition new_ComponentSection (title : string) (wear_patterns_dict : catalog)
  : ComponentSection :=
  fold_left init_pattern wear_patterns_dict
    {| title := title; wear_patterns := wear_patterns_dict; checkboxes := [];
       pattern_image_widgets := []; observation_checkboxes := [];
       observation_containers := []; custom_patterns := []; notes_text := "";
       image_widget := no_images |}.

(** ** Check boxes and their signals *)

(** [observation_containers[pattern_name].setVisible(v)], when the pattern
    has a container. *)
Definition set_visible (s : ComponentSection) (pattern_name : string) (v : bool)
  : ComponentSection :=
  if Dict.has (observation_containers s) pattern_name
  then set_observation_containers s (Dict.set (observation_containers s) pattern_name v)
  else s.

(** [toggle_pattern_section(pattern_name, state)] *)
Definition toggle_pattern_section (s : ComponentSection) (pattern_name : string)
  (state : nat) : ComponentSection :=
  set_visible s pattern_name (state =? 2).

(** Is the pattern's check box wired to [toggle_status_checkbox]? *)
Definition status_wired (s : ComponentSection) (pattern_name : string) : bool :=
  Dict.mem (title s) status_titles &&
  (String.eqb pattern_name "Status: OK" || String.eqb pattern_name "Status: NOT OK").

(** [checkboxes[pattern_name].setChecked(False)] with the signal it sends:
    a box that was checked is cleared and [stateChanged(0)] reaches its
    slot, which for either slot only hides the container. *)
Definition uncheck (s : ComponentSection) (pattern_name : string) : ComponentSection :=
  match Dict.get (checkboxes s) pattern_name with
  | Some true =>
      set_visible (set_checkboxes s (Dict.set (checkboxes s) pattern_name false))
        pattern_name false
  | _ => s
  end.

(** [toggle_status_checkbox(pattern_name, state)] *)
Definition toggle_status_checkbox (s : ComponentSection) (pattern_name : string)
  (state : nat) : ComponentSection :=
  let s := set_visible s pattern_name (state =? 2) in
  if state =? 2 then
    if String.eqb pattern_name "Status: OK" && Dict.has (checkboxes s) "Status: NOT OK"
    then uncheck s "Status: NOT OK"
    else if String.eqb pattern_name "Status: NOT OK" && Dict.has (checkboxes s) "Status: OK"
    then uncheck s "Status: OK"
    else s
  else s.

(** [checkboxes[pattern_name].setChecked(b)]: nothing happens when the box
    already is in that state; otherwise the state changes and
    [stateChanged] (2 for checked, 0 for unchecked) reaches the slot
    connected in [init_ui]. *)
Definition setChecked (s : ComponentSection) (pattern_name : string) (b : bool)
  : ComponentSection :=
  match Dict.get (checkboxes s) pattern_name with
  | None => s
  | Some cur =>
      if Bool.eqb cur b then s
      else
        let s1 := set_checkboxes s (Dict.set (checkboxes s) pattern_name b) in
        let state := if b then 2 else 0 in
        if status_wired s pattern_name
        then toggle_status_checkbox s1 pattern_name state
        else toggle_pattern_section s1 pattern_name state
  end.

(** A click on a pattern's check box. *)
Definition click (s : ComponentSection) (pattern_name : string) : ComponentSection :=
  match Dict.get (checkboxes s) pattern_name with
  | Some cur => setChecked s pattern_name (negb cur)
  | None => s
  end.

(** Checking or clearing the [i]-th observation box of a pattern. *)
Definition set_observation (s : ComponentSection) (pattern_name : string)
  (i : nat) (b : bool) : ComponentSection :=
  match Dict.get (observation_checkboxes s) pattern_name with
  | Some boxes =>
      match boxes !! i with
      | Some cb =>
          set_observation_checkboxes s
            (Dict.set (observation_checkboxes s) pattern_name
               (<[i := {| cb_text := cb_text cb; isChecked := b |}]> boxes))
      | None => s
      end
  | None => s
  end.

(** ** Reading a section *)

(** [get_selected_patterns] *)
Definition get_selected_patterns (s : ComponentSection) : list string :=
  map fst (filter (fun e => snd e = true) (checkboxes s)).

(** [get_selected_observations(pattern_name)] *)
Definition get_selected_observations (s : ComponentSection) (pattern_name : string)
  : list string :=
  match Dict.get (wear_patterns s) pattern_name with
  | Some pd =>
      if is_status_ok pd then observations pd
      else
        match Dict.get (observation_checkboxes s) pattern_name with
        | Some boxes => map cb_text (filter (fun cb => isChecked cb = true) boxes)
        | None => []
        end
  | None =>
      match Dict.get (observation_checkboxes s) pattern_name with
      | Some boxes => map cb_text (filter (fun cb => isChecked cb = true) boxes)
      | None => []
      end
  end.

(** The first entry of a widget dictionary whose key equals the text once
    both are stripped. *)
Fixpoint stripped_match (d : list (string * ImageUploadWidget)) (t : string)
  : option ImageUploadWidget :=
  match d with
  | [] => None
  | (key, w) :: d' =>
      if String.eqb (Text.strip t) (Text.strip key) then Some w
      else stripped_match d' t
  end.

(** [get_observation_images(pattern_name, observation_text)] *)
Definition get_observation_images (s : ComponentSection)
  (pattern_name observation_text : string) : list string :=
  match Dict.get (pattern_image_widgets s) pattern_name with
  | Some (WidgetDict d) =>
      match Dict.get d observation_text with
      | Some w => image_paths w
      | None =>
          match stripped_match d observation_text with
          | Some w => image_paths w
          | None => []
          end
      end
  | _ => []
  end.

(** [get_pattern_images(pattern_name)] *)
Definition get_pattern_images (s : ComponentSection) (pattern_name : string)
  : list string :=
  match Dict.get (pattern_image_widgets s) pattern_name with
  | Some (WidgetDict d) =>
      match Dict.get d PATTERN_LEVEL with
      | Some w => image_paths w
      | None => []
      end
  | Some (OneWidget w) => image_paths w
  | None => []
  end.

Definition get_notes (s : ComponentSection) : string := notes_text s.
Definition get_images (s : ComponentSection) : list string := image_paths (image_widget s).

(** ** Custom entries *)

(** [add_custom_pattern]: an inline issue in the sections of
    [inline_issue_titles], a named wear pattern with one empty observation
    input elsewhere. *)
Definition add_custom_pattern (s : ComponentSection) : ComponentSection :=
  let custom_id := length (custom_patterns s) in
  if Dict.mem (title s) inline_issue_titles then
    let img_widget :=
      if Dict.mem (title s) per_observation_titles then Some no_images else None in
    set_custom_patterns s
      (custom_patterns s ++
       [ {| custom_id := custom_id; text_input := Some ""; name_input := None;
            obs_inputs := []; custom_image_widget := img_widget; obs_count := 0 |} ])
  else
    (* the entry is appended with no input, then
       [add_custom_observation_input(layout, custom_id, 0)] adds the first *)
    let appended :=
      custom_patterns s ++
      [ {| custom_id := custom_id; text_input := None; name_input := Some "";
           obs_inputs := []; custom_image_widget := Some no_images; obs_count := 1 |} ] in
    set_custom_patterns s
      (match appended !! custom_id with
       | Some cp =>
           <[custom_id := {| custom_id := Widgets.custom_id cp; text_input := text_input cp;
                             name_input := name_input cp;
                             obs_inputs := obs_inputs cp ++ [""];
                             custom_image_widget := custom_image_widget cp;
                             obs_count := obs_count cp |}]> appended
       | None => appended
       end).

(** [delete_custom_pattern(pattern_id, container)] *)
Definition delete_custom_pattern (s : ComponentSection) (pattern_id : nat)
  : ComponentSection :=
  set_custom_patterns s
    (filter (fun cp => custom_id cp <> pattern_id) (custom_patterns s)).

(** The user types into the text (or name) input of the [i]-th entry. *)
Definition edit_custom (s : ComponentSection) (i : nat) (t : string) : ComponentSection :=
  match custom_patterns s !! i with
  | Some cp =>
      set_custom_patterns s
        (<[i := {| custom_id := custom_id cp;
                   text_input := match text_input cp with Some _ => Some t | None => None end;
                   name_input := match name_input cp with Some _ => Some t | None => None end;
                   obs_inputs := obs_inputs cp;
                   custom_image_widget := custom_image_widget cp;
                   obs_count := obs_count cp |}]> (custom_patterns s))
  | None => s
  end.

(** The user types into the [j]-th observation input of the [i]-th entry. *)
Definition edit_custom_observation (s : ComponentSection) (i j : nat) (t : string)
  : ComponentSection :=
  match custom_patterns s !! i with
  | Some cp =>
      set_custom_patterns s
        (<[i := {| custom_id := custom_id cp; text_input := text_input cp;
                   name_input := name_input cp;
                   obs_inputs := <[j := t]> (obs_inputs cp);
                   custom_image_widget := custom_image_widget cp;
                   obs_count := obs_count cp |}]> (custom_patterns s))
  | None => s
  end.

(** [add_another_observation(pattern_id, layout)] *)
Definition add_another_observation (s : ComponentSection) (pattern_id : nat)
  : ComponentSection :=
  match custom_patterns s !! pattern_id with
  | Some cp =>
      set_custom_patterns s
        (<[pattern_id := {| custom_id := custom_id cp; text_input := text_input cp;
                            name_input := name_input cp;
                            obs_inputs := obs_inputs cp ++ [""];
                            custom_image_widget := custom_image_widget cp;
                            obs_count := S (obs_count cp) |}]> (custom_patterns s))
  | None => s
  end.

(** An image uploaded to the widget of the [i]-th custom entry. *)
Definition upload_custom_image (s : ComponentSection) (i : nat) (p : string)
  : ComponentSection :=
  match custom_patterns s !! i with
  | Some cp =>
      set_custom_patterns s
        (<[i := {| custom_id := custom_id cp; text_input := text_input cp;
                   name_input := name_input cp; obs_inputs := obs_inputs cp;
                   custom_image_widget :=
                     match custom_image_widget cp with
                     | Some w => Some (upload_image w p)
                     | None => None
                     end;
                   obs_count := obs_count cp |}]> (custom_patterns s))
  | None => s
  end.

(** An image uploaded to a widget of [pattern_image_widgets]: the
    pattern's own widget ([key = None]) or the one of a dictionary key. *)
Definition upload_pattern_image (s : ComponentSection) (pattern_name : string)
  (key : option string) (p : string) : ComponentSection :=
  match Dict.get (pattern_image_widgets s) pattern_name, key with
  | Some (OneWidget w), None =>
      set_pattern_image_widgets s
        (Dict.set (pattern_image_widgets s) pattern_name (OneWidget (upload_image w p)))
  | Some (WidgetDict d), Some k =>
      match Dict.get d k with
      | Some w =>
          set_pattern_image_widgets s
            (Dict.set (pattern_image_widgets s) pattern_name
               (WidgetDict (Dict.set d k (upload_image w p))))
      | None => s
      end
  | _, _ => s
  end.

(** An entry of the list [get_custom_patterns] returns: a dictionary with
    ['text'] and ['images'], or one with ['name'], ['observations'] and
    ['images']. *)
Inductive custom_entry : Type :=
| TextEntry (text : string) (images : list string)
| NameEntry (name : string) (observations : list string) (images : list string).

Definition custom_images (cp : custom_data) : list string :=
  match custom_image_widget cp with
  | Some w => image_paths w
  | None => []
  end.

(** The body of the loop of [get_custom_patterns]. *)
Definition get_custom_entry (is_special : bool) (cp : custom_data)
  : option custom_entry :=
  if is_special then
    match text_input cp with
    | Some t =>
        let text_content := Text.strip t in
        if String.eqb text_content "" then None
        else Some (TextEntry text_content (custom_images cp))
    | None => None
    end
  else
    match name_input cp with
    | Some n =>
        let pattern_name := Text.strip n in
        if String.eqb pattern_name "" then None
        else
          let observations :=
            filter (fun t => t <> "") (map Text.strip (obs_inputs cp)) in
          match observations with
          | [] => None
          | _ => Some (NameEntry pattern_name observations (custom_images cp))
          end
    | None => None
    end.

(** [get_custom_patterns] *)
Definition get_custom_patterns (s : ComponentSection) : list custom_entry :=
  omap (get_custom_entry (Dict.mem (title s) inline_issue_titles)) (custom_patterns s).

(** ** What can happen to a section *)

Inductive event : Type :=
| Click (pattern_name : string)
| SetChecked (pattern_name : string) (b : bool)
| SetObservation (pattern_name : string) (i : nat) (b : bool)
| SetNotes (t : string)
| UploadImage (p : string)
| UploadPatternImage (pattern_name : string) (key : option string) (p : string)
| AddCustom
| DeleteCustom (pattern_id : nat)
| EditCustom (i : nat) (t : string)
| EditCustomObservation (i j : nat) (t : string)
| AddAnotherObservation (pattern_id : nat)
| UploadCustomImage (i : nat) (p : string).

Definition apply_event (s : ComponentSection) (e : event) : ComponentSection :=
  match e with
  | Click p => click s p
  | SetChecked p b => setChecked s p b
  | SetObservation p i b => set_observation s p i b
  | SetNotes t => set_notes_text s t
  | UploadImage p => set_image_widget s (upload_image (image_widget s) p)
  | UploadPatternImage pn k p => upload_pattern_image s pn k p
  | AddCustom => add_custom_pattern s
  | DeleteCustom i => delete_custom_pattern s i
  | EditCustom i t => edit_custom s i t
  | EditCustomObservation i j t => edit_custom_observation s i j t
  | AddAnotherObservation i => add_another_observation s i
  | UploadCustomImage i p => upload_custom_image s i p
  end.

Definition run (s : ComponentSection) (evs : list event) : ComponentSection :=
  fold_left apply_event evs s.

(** ** The status of a section *)

Definition is_checked (s : ComponentSection) (pattern_name : string) : bool :=
  match Dict.get (checkboxes s) pattern_name with
  | Some b => b
  | None => false
  end.

Inductive section_status : Type := Unset | StatusOK | StatusNotOK | Both.

Definition status_of (s : ComponentSection) : section_status :=
  match is_checked s "Status: OK", is_checked s "Status: NOT OK" with
  | false, false => Unset
  | true, false => StatusOK
  | false, true => StatusNotOK
  | true, true => Both
  end.

End Widgets.

Module WidgetFacts.
Import Catalog Widgets.

(** ** Dictionaries *)

Lemma get_set_eq {V} (d : list (string * V)) k v : Dict.get (Dict.set d k v) k = Some v.
Proof.
  induction d as [|[k' v'] d IH]; simpl.
  - now rewrite String.eqb_refl.
  - destruct (String.eqb k' k) eqn:E; simpl; rewrite E; [reflexivity|exact IH].
Qed.

Lemma get_set_ne {V} (d : list (string * V)) k k' v :
  k <> k' -> Dict.get (Dict.set d k v) k' = Dict.get d k'.
Proof.
  intros Hne. induction d as [|[k0 v0] d IH]; simpl.
  - destruct (String.eqb k k') eqn:E; [|reflexivity].
    apply String.eqb_eq in E. contradiction.
  - destruct (String.eqb k0 k) eqn:E; simpl.
    + apply String.eqb_eq in E. subst k0.
      destruct (String.eqb k k') eqn:E'; [|reflexivity].
      apply String.eqb_eq in E'. contradiction.
    + now rewrite IH.
Qed.

Lemma get_set {V} (d : list (string * V)) k k' v :
  Dict.get (Dict.set d k v) k' = if String.eqb k k' then Some v else Dict.get d k'.
Proof.
  destruct (String.eqb k k') eqn:E.
  - apply String.eqb_eq in E. subst. apply get_set_eq.
  - apply get_set_ne. intros ->. rewrite String.eqb_refl in E. discriminate.
Qed.

(** ** Events and the pattern check boxes *)

Lemma checkboxes_set_visible s p v : checkboxes (set_visible s p v) = checkboxes s.
Proof. unfold set_visible. now destruct (Dict.has _ _). Qed.

Lemma title_set_visible s p v : title (set_visible s p v) = title s.
Proof. unfold set_visible. now destruct (Dict.has _ _). Qed.

Lemma is_checked_set s p q b :
  is_checked (set_checkboxes s (Dict.set (checkboxes s) p b)) q
  = if String.eqb p q then b else is_checked s q.
Proof. unfold is_checked. simpl. rewrite get_set. now destruct (String.eqb p q). Qed.

Lemma is_checked_set_visible s p v q :
  is_checked (set_visible s p v) q = is_checked s q.
Proof. unfold is_checked. now rewrite checkboxes_set_visible. Qed.

Lemma is_checked_uncheck s p q :
  is_checked (uncheck s p) q = if String.eqb p q then false else is_checked s q.
Proof.
  unfold uncheck. destruct (Dict.get (checkboxes s) p) as [[|]|] eqn:E.
  - now rewrite is_checked_set_visible, is_checked_set.
  - destruct (String.eqb p q) eqn:Epq; [|reflexivity].
    apply String.eqb_eq in Epq. subst q. unfold is_checked. now rewrite E.
  - destruct (String.eqb p q) eqn:Epq; [|reflexivity].
    apply String.eqb_eq in Epq. subst q. unfold is_checked. now rewrite E.
Qed.

(** The nested [setChecked(False)] of [toggle_status_checkbox] is the
    general [setChecked] at [False]. *)
Lemma setChecked_false s p : setChecked s p false = uncheck s p.
Proof.
  unfold setChecked, uncheck.
  destruct (Dict.get (checkboxes s) p) as [[|]|]; simpl; try reflexivity.
  unfold toggle_status_checkbox, toggle_pattern_section. simpl.
  now destruct (status_wired s p).
Qed.

Definition OK : string := "Status: OK".
Definition NOT_OK : string := "Status: NOT OK".

(** The box that [toggle_status_checkbox] clears when [p] is checked. *)
Definition other (p : string) : option string :=
  if String.eqb p OK then Some NOT_OK
  else if String.eqb p NOT_OK then Some OK
  else None.

Lemma is_checked_absent s p : Dict.has (checkboxes s) p = false -> is_checked s p = false.
Proof. unfold Dict.has, is_checked. now destruct (Dict.get _ _). Qed.

Lemma toggle_status_on s p q :
  is_checked (toggle_status_checkbox s p 2) q =
    match other p with
    | Some o => if String.eqb o q then false else is_checked s q
    | None => is_checked s q
    end.
Proof.
  unfold toggle_status_checkbox, other, OK, NOT_OK.
  change (2 =? 2) with true. cbv beta iota zeta.
  destruct (String.eqb p "Status: OK") eqn:E1.
  - apply String.eqb_eq in E1. subst p. cbn [andb].
    destruct (Dict.has (checkboxes (set_visible s "Status: OK" true)) "Status: NOT OK") eqn:Eh.
    + now rewrite is_checked_uncheck, is_checked_set_visible.
    + change (String.eqb "Status: OK" "Status: NOT OK") with false. cbn [andb].
      rewrite is_checked_set_visible.
      destruct (String.eqb "Status: NOT OK" q) eqn:Eq; [|reflexivity].
      apply String.eqb_eq in Eq. subst q.
      rewrite checkboxes_set_visible in Eh. now apply is_checked_absent.
  - cbn [andb]. destruct (String.eqb p "Status: NOT OK") eqn:E2; cbn [andb].
    + destruct (Dict.has (checkboxes (set_visible s p true)) "Status: OK") eqn:Eh.
      * now rewrite is_checked_uncheck, is_checked_set_visible.
      * rewrite is_checked_set_visible.
        destruct (String.eqb "Status: OK" q) eqn:Eq; [|reflexivity].
        apply String.eqb_eq in Eq. subst q.
        rewrite checkboxes_set_visible in Eh. now apply is_checked_absent.
    + apply is_checked_set_visible.
Qed.

Lemma status_wired_other s p :
  Dict.mem (title s) status_titles = true ->
  status_wired s p = match other p with Some _ => true | None => false end.
Proof.
  intros Ht. unfold status_wired, other, OK, NOT_OK. rewrite Ht. simpl.
  destruct (String.eqb p "Status: OK"); [reflexivity|].
  now destruct (String.eqb p "Status: NOT OK").
Qed.

(** What [setChecked] does to the pattern boxes of a status section. *)
Lemma is_checked_setChecked s p b q cur :
  Dict.mem (title s) status_titles = true ->
  Dict.get (checkboxes s) p = Some cur ->
  is_checked (setChecked s p b) q =
    if Bool.eqb cur b then is_checked s q
    else if b then
      match other p with
      | Some o => if String.eqb o q then false
                  else if String.eqb p q then true else is_checked s q
      | None => if String.eqb p q then true else is_checked s q
      end
    else if String.eqb p q then false else is_checked s q.
Proof.
  intros Ht Hp. unfold setChecked. rewrite Hp.
  destruct (Bool.eqb cur b); [reflexivity|].
  rewrite (status_wired_other s p Ht).
  destruct b.
  - destruct (other p) as [o|] eqn:Eo.
    + pose proof (toggle_status_on (set_checkboxes s (Dict.set (checkboxes s) p true)) p q) as H.
      rewrite Eo in H. rewrite H. now rewrite is_checked_set.
    + unfold toggle_pattern_section. now rewrite is_checked_set_visible, is_checked_set.
  - destruct (other p).
    + unfold toggle_status_checkbox. change (0 =? 2) with false. cbv beta iota zeta.
      now rewrite is_checked_set_visible, is_checked_set.
    + unfold toggle_pattern_section. now rewrite is_checked_set_visible, is_checked_set.
Qed.

Lemma setChecked_absent s p b :
  Dict.get (checkboxes s) p = None -> setChecked s p b = s.
Proof. intros H. unfold setChecked. now rewrite H. Qed.

(** ** Only the pattern boxes' slots touch the pattern boxes *)

Ltac cases_in_goal :=
  repeat match goal with
         | |- context [match ?x with _ => _ end] => destruct x eqn:?
         end.

Lemma setChecked_keeps s p b :
  title (setChecked s p b) = title s /\
  observation_checkboxes (setChecked s p b) = observation_checkboxes s /\
  pattern_image_widgets (setChecked s p b) = pattern_image_widgets s /\
  custom_patterns (setChecked s p b) = custom_patterns s /\
  notes_text (setChecked s p b) = notes_text s /\
  image_widget (setChecked s p b) = image_widget s.
Proof.
  unfold setChecked, toggle_status_checkbox, toggle_pattern_section, uncheck, set_visible.
  cases_in_goal; repeat split; reflexivity.
Qed.

Lemma click_setChecked s p :
  click s p = s \/ exists b, click s p = setChecked s p b.
Proof. unfold click. destruct (Dict.get _ _); eauto. Qed.

Definition touches_boxes (e : event) : bool :=
  match e with
  | Click _ | SetChecked _ _ => true
  | _ => false
  end.

Lemma other_event_keeps s e :
  touches_boxes e = false ->
  title (apply_event s e) = title s /\ checkboxes (apply_event s e) = checkboxes s.
Proof.
  destruct e; simpl; try discriminate; intros _;
    unfold set_observation, upload_pattern_image, add_custom_pattern,
      delete_custom_pattern, edit_custom, edit_custom_observation,
      add_another_observation, upload_custom_image;
    cases_in_goal; split; reflexivity.
Qed.

Lemma title_apply_event s e : title (apply_event s e) = title s.
Proof.
  destruct (touches_boxes e) eqn:E; [|now apply other_event_keeps].
  destruct e; try discriminate; simpl.
  - destruct (click_setChecked s pattern_name) as [->|[b ->]]; [reflexivity|].
    apply setChecked_keeps.
  - apply setChecked_keeps.
Qed.

Lemma title_run s evs : title (run s evs) = title s.
Proof.
  revert s. induction evs as [|e evs IH]; intros s; [reflexivity|].
  unfold run in *. simpl. rewrite IH. apply title_apply_event.
Qed.

(** ** A new section has no box checked *)

Lemma checkboxes_init_pattern s e :
  checkboxes (init_pattern s e) = Dict.set (checkboxes s) (fst e) false.
Proof.
  destruct e as [pn pd]. unfold init_pattern.
  assert (Hfold : forall subs s0,
    checkboxes (fold_left (fun s sub_obs =>
        match Dict.get (pattern_image_widgets s) pn with
        | Some (WidgetDict d) =>
            set_pattern_image_widgets s
              (Dict.set (pattern_image_widgets s) pn
                 (WidgetDict (Dict.set d sub_obs no_images)))
        | _ => s
        end) subs s0) = checkboxes s0).
  { induction subs as [|x subs IH]; intros s0; [reflexivity|].
    simpl. rewrite IH. cases_in_goal; reflexivity. }
  cbv zeta. cases_in_goal; simpl; rewrite ?Hfold; reflexivity.
Qed.

Lemma init_pattern_unchecked s e :
  (forall q, is_checked s q = false) -> forall q, is_checked (init_pattern s e) q = false.
Proof.
  intros H q. unfold is_checked. rewrite checkboxes_init_pattern, get_set.
  destruct (String.eqb (fst e) q); [reflexivity|]. apply H.
Qed.

Lemma new_section_unchecked ttl cat q :
  is_checked (new_ComponentSection ttl cat) q = false.
Proof.
  unfold new_ComponentSection.
  match goal with |- context [fold_left _ _ ?s0] =>
    generalize s0 ((fun _ => eq_refl) : forall q, is_checked s0 q = false) end.
  induction cat as [|e cat IH]; intros s0 H; simpl; [apply H|].
  apply IH. now apply init_pattern_unchecked.
Qed.

Lemma title_init_pattern s e : title (init_pattern s e) = title s.
Proof.
  destruct e as [pn pd]. unfold init_pattern.
  assert (Hfold : forall subs s0,
    title (fold_left (fun s sub_obs =>
        match Dict.get (pattern_image_widgets s) pn with
        | Some (WidgetDict d) =>
            set_pattern_image_widgets s
              (Dict.set (pattern_image_widgets s) pn
                 (WidgetDict (Dict.set d sub_obs no_images)))
        | _ => s
        end) subs s0) = title s0).
  { induction subs as [|x subs IH]; intros s0; [reflexivity|].
    simpl. rewrite IH. cases_in_goal; reflexivity. }
  cbv zeta. cases_in_goal; simpl; rewrite ?Hfold; reflexivity.
Qed.

Lemma title_new_section ttl cat : title (new_ComponentSection ttl cat) = ttl.
Proof.
  unfold new_ComponentSection.
  match goal with |- title (fold_left _ _ ?s0) = _ =>
    change ttl with (title s0) at 2; generalize s0 end.
  induction cat as [|e cat IH]; intros s0; simpl; [reflexivity|].
  rewrite IH. apply title_init_pattern.
Qed.

(** ** The invariant *)

Definition exclusive (s : ComponentSection) : Prop :=
  is_checked s OK && is_checked s NOT_OK = false.

Lemma exclusive_status s : exclusive s <-> status_of s <> Both.
Proof.
  unfold exclusive, status_of, OK, NOT_OK.
  destruct (is_checked s "Status: OK"), (is_checked s "Status: NOT OK");
    simpl; split; congruence.
Qed.

Lemma other_cases p o :
  other p = Some o -> (p = OK /\ o = NOT_OK) \/ (p = NOT_OK /\ o = OK).
Proof.
  unfold other. destruct (String.eqb p OK) eqn:E1.
  - apply String.eqb_eq in E1. intros H; injection H as <-. now left.
  - destruct (String.eqb p NOT_OK) eqn:E2; [|discriminate].
    apply String.eqb_eq in E2. intros H; injection H as <-. now right.
Qed.

Lemma setChecked_exclusive s p b :
  Dict.mem (title s) status_titles = true ->
  exclusive s -> exclusive (setChecked s p b).
Proof.
  intros Ht Hex. destruct (Dict.get (checkboxes s) p) as [cur|] eqn:Hp.
  - unfold exclusive.
    rewrite !(is_checked_setChecked s p b _ cur Ht Hp).
    destruct (Bool.eqb cur b); [exact Hex|].
    unfold exclusive in Hex. destruct b.
    + destruct (other p) as [o|] eqn:Eo.
      * destruct (other_cases _ _ Eo) as [[-> ->]|[-> ->]]; reflexivity.
      * unfold other in Eo.
        destruct (String.eqb p OK) eqn:E1; [discriminate|].
        destruct (String.eqb p NOT_OK) eqn:E2; [discriminate|]. exact Hex.
    + destruct (String.eqb p OK); [reflexivity|].
      destruct (String.eqb p NOT_OK); [apply andb_false_r|exact Hex].
  - now rewrite setChecked_absent.
Qed.

Lemma apply_event_exclusive s e :
  Dict.mem (title s) status_titles = true ->
  exclusive s -> exclusive (apply_event s e).
Proof.
  intros Ht Hex. destruct (touches_boxes e) eqn:E.
  - destruct e; try discriminate; simpl.
    + destruct (click_setChecked s pattern_name) as [->|[b ->]]; [exact Hex|].
      now apply setChecked_exclusive.
    + now apply setChecked_exclusive.
  - destruct (other_event_keeps s e E) as [_ Hc].
    unfold exclusive, is_checked in *. now rewrite Hc.
Qed.

Lemma run_exclusive s evs :
  Dict.mem (title s) status_titles = true ->
  exclusive s -> exclusive (run s evs).
Proof.
  revert s. induction evs as [|e evs IH]; intros s Ht Hex; [exact Hex|].
  unfold run in *. simpl. apply IH.
  - now rewrite title_apply_event.
  - now apply apply_event_exclusive.
Qed.

(** ** The claim about the status boxes *)

(** C6: in a section whose status boxes are wired to
    [toggle_status_checkbox], after any sequence of events on a new
    section, "Status: OK" and "Status: NOT OK" are never both checked;
    checking one of them leaves it checked and the other cleared, with the
    observation boxes, the image widgets and the custom entries as they
    were; and clearing the checked one leaves the section unset. *)
Theorem status_boxes_exclusive (ttl : string) (cat : catalog) (evs : list event) :
  Dict.mem ttl status_titles = true ->
  let s := run (new_ComponentSection ttl cat) evs in
  status_of s <> Both /\
  (forall p o, other p = Some o -> Dict.has (checkboxes s) p = true ->
     let s' := setChecked s p true in
     is_checked s' p = true /\ is_checked s' o = false /\
     observation_checkboxes s' = observation_checkboxes s /\
     pattern_image_widgets s' = pattern_image_widgets s /\
     custom_patterns s' = custom_patterns s) /\
  (forall p o, other p = Some o -> is_checked s p = true ->
     status_of (setChecked s p false) = Unset).
Proof.
  intros Ht s.
  assert (Hts : Dict.mem (title s) status_titles = true).
  { unfold s. now rewrite title_run, title_new_section. }
  assert (Hex : exclusive s).
  { unfold s. apply run_exclusive.
    - now rewrite title_new_section.
    - unfold exclusive. now rewrite !new_section_unchecked. }
  split; [now apply exclusive_status|]. split.
  - intros p o Ho Hp s'. unfold Dict.has in Hp.
    destruct (Dict.get (checkboxes s) p) as [cur|] eqn:Ecur; [|discriminate].
    assert (Hcur : is_checked s p = cur) by (unfold is_checked; now rewrite Ecur).
    unfold s'. rewrite !(is_checked_setChecked s p true _ cur Hts Ecur), Ho.
    destruct (setChecked_keeps s p true) as (_ & -> & -> & -> & _).
    unfold exclusive in Hex.
    destruct (other_cases _ _ Ho) as [[-> ->]|[-> ->]]; rewrite Hcur in Hex;
      destruct cur; simpl in *; rewrite ?andb_true_r in Hex; repeat split; auto.
  - intros p o Ho Hp.
    destruct (Dict.get (checkboxes s) p) as [cur|] eqn:Ecur;
      [|unfold is_checked in Hp; rewrite Ecur in Hp; discriminate].
    assert (cur = true) as -> by (unfold is_checked in Hp; now rewrite Ecur in Hp).
    unfold status_of.
    rewrite !(is_checked_setChecked s p false _ true Hts Ecur). simpl.
    unfold exclusive in Hex.
    destruct (other_cases _ _ Ho) as [[-> ->]|[-> ->]]; rewrite Hp in Hex; simpl in *.
    + unfold OK, NOT_OK in *. now rewrite Hex.
    + rewrite andb_true_r in Hex. unfold OK, NOT_OK in *. now rewrite Hex.
Qed.

(** A housing section: "NOT OK" with one observation, then "OK". *)
Lemma status_boxes_exclusive_witness :
  Dict.mem "Motor Housing" status_titles = true /\
  let s := run (new_ComponentSection "Motor Housing" HOUSING_WEAR_PATTERNS)
             [Click NOT_OK; SetObservation NOT_OK 0 true; Click OK] in
  status_of s <> Both /\
  (forall p o, other p = Some o -> Dict.has (checkboxes s) p = true ->
     let s' := setChecked s p true in
     is_checked s' p = true /\ is_checked s' o = false /\
     observation_checkboxes s' = observation_checkboxes s /\
     pattern_image_widgets s' = pattern_image_widgets s /\
     custom_patterns s' = custom_patterns s) /\
  (forall p o, other p = Some o -> is_checked s p = true ->
     status_of (setChecked s p false) = Unset).
Proof.
  split; [reflexivity|].
  exact (status_boxes_exclusive "Motor Housing" HOUSING_WEAR_PATTERNS
           [Click NOT_OK; SetObservation NOT_OK 0 true; Click OK] eq_refl).
Defined.

End WidgetFacts.

(* ===================================================================== *)
(** * The measurement section (TestResultsSection) *)
(* ===================================================================== *)

Module TestResults.
Import Widgets Numeric.

Record TestResultsSection : Type := {
  audio_value : string;
  vibration_rpm : string;
  vibration_value : string;
  temperature_value : string;
  resistance_ok_cb : bool;
  res_black_red : string;
  res_black_white : string;
  five_wire_cb : bool;
  res_black_yellow : string;
  res_black_blue : string;
  audio_images : ImageUploadWidget;
  vibration_images : ImageUploadWidget;
  temperature_images : ImageUploadWidget;
  resistance_images : ImageUploadWidget
}.

Definition new_TestResultsSection : TestResultsSection :=
  {| audio_value := ""; vibration_rpm := ""; vibration_value := "";
     temperature_value := ""; resistance_ok_cb := false; res_black_red := "";
     res_black_white := ""; five_wire_cb := false; res_black_yellow := "";
     res_black_blue := ""; audio_images := no_images; vibration_images := no_images;
     temperature_images := no_images; resistance_images := no_images |}.

(** The four dictionaries [get_test_data] returns. *)
Record audio_data : Type := {
  audio_ok : bool; audio_raw : string; audio_numeric : option float;
  audio_limit : nat; audio_image_paths : list string }.

Record vibration_data : Type := {
  vibration_ok : option bool; vibration_rpm_raw : string; vibration_raw : string;
  vibration_rpm_numeric : option float; vibration_numeric : option float;
  vibration_classification : string; vibration_image_paths : list string }.

Record temperature_data : Type := {
  temperature_ok : bool; temperature_raw : string; temperature_numeric : option float;
  temperature_limit : nat; temperature_image_paths : list string }.

Record resistance_data : Type := {
  resistance_ok : bool; black_red : string; black_white : string;
  black_yellow : string; black_blue : string; is_five_wire : bool;
  resistance_image_paths : list string }.

Record test_data : Type := {
  audio : audio_data;
  vibration : vibration_data;
  temperature : temperature_data;
  resistance : resistance_data
}.

(** [TestResultsSection.get_test_data] *)
Definition get_test_data (s : TestResultsSection) : test_data :=
  let audio_value_raw := Text.strip (audio_value s) in
  let audio_numeric := extract_numeric_value audio_value_raw in
  let audio_ok := Numeric.audio_ok audio_numeric in
  let temp_value_raw := Text.strip (temperature_value s) in
  let temp_numeric := extract_numeric_value temp_value_raw in
  let temp_ok := Numeric.temp_ok temp_numeric in
  let vibration_rpm_raw := Text.strip (vibration_rpm s) in
  let vibration_value_raw := Text.strip (vibration_value s) in
  let vibration_rpm_numeric := extract_numeric_value vibration_rpm_raw in
  let vibration_value_numeric := extract_numeric_value vibration_value_raw in
  let '(vibration_classification, vibration_ok) :=
    if truthy vibration_rpm_numeric && truthy vibration_value_numeric then
      let '(c, ok) := get_vibration_classification vibration_rpm_numeric
                        vibration_value_numeric in
      (c, Some ok)
    else ("Not measured", None) in
  {| audio := {| audio_ok := audio_ok; audio_raw := audio_value_raw;
                 audio_numeric := audio_numeric; audio_limit := 72;
                 audio_image_paths := image_paths (audio_images s) |};
     vibration := {| vibration_ok := vibration_ok;
                     vibration_rpm_raw := vibration_rpm_raw;
                     vibration_raw := vibration_value_raw;
                     vibration_rpm_numeric := vibration_rpm_numeric;
                     vibration_numeric := vibration_value_numeric;
                     vibration_classification := vibration_classification;
                     vibration_image_paths := image_paths (vibration_images s) |};
     temperature := {| temperature_ok := temp_ok; temperature_raw := temp_value_raw;
                       temperature_numeric := temp_numeric; temperature_limit := 95;
                       temperature_image_paths := image_paths (temperature_images s) |};
     resistance := {| resistance_ok := resistance_ok_cb s;
                      black_red := Text.strip (res_black_red s);
                      black_white := Text.strip (res_black_white s);
                      black_yellow := if five_wire_cb s
                                      then Text.strip (res_black_yellow s) else "";
                      black_blue := if five_wire_cb s
                                    then Text.strip (res_black_blue s) else "";
                      is_five_wire := five_wire_cb s;
                      resistance_image_paths := image_paths (resistance_images s) |} |}.

End TestResults.

(* ===================================================================== *)
(** * Report assembly (generate_report, the motor branch) *)
(* ===================================================================== *)

Module Report.
Import Catalog Widgets TestResults.

(** What the program asks of the document library, in order. A figure
    caption keeps its number apart from its label; [block_text] gives the
    paragraph text. Alignment and spacing are left out. *)
Inductive block : Type :=
| Heading (level : nat) (text : string)
| Paragraph (text : string)
| Picture (path : string)
| Caption (n : nat) (label : string)
| PageBreak.

Definition block_text (b : block) : string :=
  match b with
  | Heading _ t => t
  | Paragraph t => t
  | Picture _ => ""
  | Caption n label => "Figure " +:+ pretty n +:+ ": " +:+ label
  | PageBreak => ""
  end.

(** What happens when the program asks for a picture: the file is missing
    ([os.path.exists] is false), it loads, or [add_picture] raises with a
    message. What a failed [add_picture] itself leaves in the document is
    the library's affair and is not modelled. *)
Inductive image_status : Type := Missing | Loads | Fails (message : string).

Record environment : Type := {
  picture : string -> image_status;
  (** the folder that holds ['_assets'] ([sys._MEIPASS] or the program's) *)
  program_dir : string
}.

(** The document so far and [figure_counter]. *)
Record state : Type := { doc : list block; figure_counter : nat }.

Definition emit (st : state) (b : block) : state :=
  {| doc := doc st ++ [b]; figure_counter := figure_counter st |}.

Definition add_heading (st : state) (t : string) (level : nat) : state :=
  emit st (Heading level t).

Definition add_paragraph (st : state) (t : string) : state := emit st (Paragraph t).

(** A picture with its caption: [add_picture], the caption paragraph, the
    counter, an empty paragraph. *)
Definition add_figure (st : state) (img_path label : string) : state :=
  let st := emit st (Picture img_path) in
  let st := emit st (Caption (figure_counter st) label) in
  let st := {| doc := doc st; figure_counter := S (figure_counter st) |} in
  emit st (Paragraph "").

(** One turn of an image loop. [label] is the caption's label;
    [note_missing] tells whether the loop has the [else] branch that
    reports a missing file; [name_in_error] whether the error message
    names the file. *)
Definition add_image_block (env : environment) (label : string -> string)
  (note_missing name_in_error : bool) (st : state) (img_path : string) : state :=
  match picture env img_path with
  | Loads => add_figure st img_path (label img_path)
  | Missing =>
      if note_missing
      then add_paragraph st ("Error: Image file not found - " +:+ img_path)
      else st
  | Fails e =>
      add_paragraph st
        (if name_in_error
         then "Error loading image " +:+ Paths.basename img_path +:+ ": " +:+ e
         else "Error loading image: " +:+ e)
  end.

Definition add_images (env : environment) (label : string -> string)
  (note_missing name_in_error : bool) (st : state) (images : list string) : state :=
  fold_left (add_image_block env label note_missing name_in_error) images st.

(** ** The measurement section (lines 4744 to 4883) *)

Definition audio_sentence (d : audio_data) : string :=
  match audio_numeric d with
  | Some _ =>
      if audio_ok d
      then "Audio testing measured " +:+ audio_raw d +:+
           " which is within acceptable operating limits (≤72 dB)."
      else "Audio testing measured " +:+ audio_raw d +:+
           " which exceeds acceptable operating limits (>72 dB)."
  | None =>
      if negb (String.eqb (audio_raw d) "")
      then "Audio testing result: " +:+ audio_raw d
      else "Audio testing not performed."
  end.

Definition temperature_sentence (d : temperature_data) : string :=
  match temperature_numeric d with
  | Some _ =>
      if temperature_ok d
      then "Temperature testing measured " +:+ temperature_raw d +:+
           " which is within acceptable operating limits (≤70°F)."
      else "Temperature testing measured " +:+ temperature_raw d +:+
           " which exceeds acceptable operating limits (>70°F)."
  | None =>
      if negb (String.eqb (temperature_raw d) "")
      then "Temperature testing result: " +:+ temperature_raw d
      else "Temperature testing not performed."
  end.

(** The vibration paragraph; the middle branch adds one only when
    [parts] is not empty, which it is whenever the value is. *)
Definition vibration_sentence (d : vibration_data) : option string :=
  if Numeric.truthy (vibration_rpm_numeric d) && Numeric.truthy (vibration_numeric d)
  then
    Some ("Vibration testing at " +:+ vibration_rpm_raw d +:+ " RPM measured " +:+
          vibration_raw d +:+ " mm/s, classified as '" +:+
          vibration_classification d +:+
          (if match vibration_ok d with Some b => b | None => false end
           then "', which is within acceptable operating limits."
           else "', which exceeds acceptable operating limits."))
  else if negb (String.eqb (vibration_raw d) "") then
    let parts :=
      (if negb (String.eqb (vibration_rpm_raw d) "")
       then ["RPM: " +:+ vibration_rpm_raw d] else []) ++
      ["Vibration: " +:+ vibration_raw d] in
    Some ("Vibration testing result: " +:+ Text.join ", " parts)
  else Some "Vibration testing not performed.".

Definition resistance_sentence (d : resistance_data) : string :=
  let measurements :=
    (if negb (String.eqb (black_red d) "")
     then ["Black/Red at " +:+ black_red d +:+ "Ω"] else []) ++
    (if negb (String.eqb (black_white d) "")
     then ["Black/White at " +:+ black_white d +:+ "Ω"] else []) ++
    (if is_five_wire d && negb (String.eqb (black_yellow d) "")
     then ["Black/Yellow at " +:+ black_yellow d +:+ "Ω"] else []) ++
    (if is_five_wire d && negb (String.eqb (black_blue d) "")
     then ["Black/Blue at " +:+ black_blue d +:+ "Ω"] else []) in
  match measurements with
  | _ :: _ =>
      "Electrical resistance testing measured " +:+ Text.join ", " measurements +:+
      (if resistance_ok d
       then ", which are within acceptable operating limits."
       else ", which are outside acceptable operating limits.")
  | [] =>
      if resistance_ok d
      then "Electrical resistance testing found connections to be within acceptable operating limits."
      else "Electrical resistance testing found connections to be outside acceptable operating limits."
  end.

Definition render_test_section (env : environment) (section : TestResultsSection)
  (st : state) : state :=
  let st := add_heading st "Test Results" 2 in
  let test_data := get_test_data section in
  let st := add_heading st "Audio Testing" 3 in
  let st := add_paragraph st (audio_sentence (audio test_data)) in
  let st := add_images env Paths.basename false false st
              (audio_image_paths (audio test_data)) in
  let st := add_heading st "Vibration Testing" 3 in
  let st := match vibration_sentence (vibration test_data) with
            | Some t => add_paragraph st t
            | None => st
            end in
  let st := add_images env Paths.basename false false st
              (vibration_image_paths (vibration test_data)) in
  let st := add_heading st "Temperature Testing" 3 in
  let st := add_paragraph st (temperature_sentence (temperature test_data)) in
  let st := add_images env Paths.basename false false st
              (temperature_image_paths (temperature test_data)) in
  let st := add_heading st "Electrical Resistance Testing" 3 in
  let st := add_paragraph st (resistance_sentence (resistance test_data)) in
  add_images env Paths.basename false false st
    (resistance_image_paths (resistance test_data)).

(** ** Component sections (lines 4886 to 5177) *)

(** An entry of [grouped_obs]: [("text", group)] or [("image", obs, images)]. *)
Inductive group : Type :=
| TextGroup (texts : list string)
| ImageGroup (obs : string) (images : list string).

(** The state of the two grouping loops: [grouped_obs] and [current_group]. *)
Definition flush (grouped_obs : list group) (current_group : list string)
  : list group * list string :=
  match current_group with
  | [] => (grouped_obs, [])
  | _ => (grouped_obs ++ [TextGroup current_group], [])
  end.

(** One turn of either loop, for a text and its images. *)
Definition group_step (acc : list group * list string)
  (text : string) (images : list string) : list group * list string :=
  match images with
  | _ :: _ =>
      let '(grouped_obs, current_group) := flush (fst acc) (snd acc) in
      (grouped_obs ++ [ImageGroup text images], current_group)
  | [] => (fst acc, snd acc ++ [text])
  end.

(** Lines 4941 to 4970: the observations, then the custom issues, then the
    last flush. *)
Definition group_observations (section : ComponentSection) (pattern : string)
  (selected_obs : list string) : list group :=
  let acc :=
    fold_left (fun acc obs =>
                 group_step acc obs (get_observation_images section pattern obs))
              selected_obs ([], []) in
  let acc :=
    fold_left (fun acc custom =>
                 match custom with
                 | TextEntry text images =>
                     if negb (String.eqb text "") then group_step acc text images
                     else acc
                 | NameEntry _ _ _ => acc
                 end)
              (get_custom_patterns section) acc in
  fst (flush (fst acc) (snd acc)).

(** Lines 4972 to 4995. *)
Definition render_group (env : environment) (st : state) (item : group) : state :=
  match item with
  | TextGroup texts => add_paragraph st (Text.join " " texts)
  | ImageGroup obs obs_images =>
      add_images env (fun _ => obs) true true (add_paragraph st obs) obs_images
  end.

Definition render_issue_groups (env : environment) (section : ComponentSection)
  (pattern : string) (selected_obs : list string) (st : state) : state :=
  fold_left (render_group env) (group_observations section pattern selected_obs) st.

Definition bearing_titles : list string :=
  [ "Drive End Bearing"; "Non-Drive End Bearing" ].

(** The reference picture of a bearing pattern (lines 5019 to 5039). *)
Definition add_reference_image (env : environment) (section : ComponentSection)
  (pattern : string) (st : state) : state :=
  if Dict.mem (title section) bearing_titles then
    match Dict.get BEARING_REFERENCE_IMAGES pattern with
    | Some ref_image_name =>
        let ref_image_path :=
          Paths.path_join (Paths.path_join (program_dir env) "_assets") ref_image_name in
        match picture env ref_image_path with
        | Loads =>
            let st := emit st (Picture ref_image_path) in
            let st := emit st (Caption (figure_counter st) ("Example - " +:+ pattern)) in
            let st := {| doc := doc st; figure_counter := S (figure_counter st) |} in
            let st := add_paragraph st "(Source: SKF, Bearing Damage and Failure Analysis.)" in
            add_paragraph st ""
        | _ => st
        end
    | None => st
    end
  else st.

(** The body of the loop over the selected patterns (lines 4920 to 5102). *)
Definition render_pattern (env : environment) (section : ComponentSection)
  (is_special_section : bool) (st : state) (pattern : string) : state :=
  if is_special_section && String.eqb pattern "Status: OK" then st
  else if String.eqb pattern "No issues detected" then
    match get_selected_observations section pattern with
    | first :: _ => add_paragraph st first
    | [] => st
    end
  else
    let status_issues := is_special_section && String.eqb pattern "Status: NOT OK" in
    let st := if negb status_issues then add_heading st pattern 4 else st in
    let selected_obs := get_selected_observations section pattern in
    let st :=
      match selected_obs with
      | _ :: _ =>
          if status_issues
          then render_issue_groups env section pattern selected_obs st
          else
            let st := add_paragraph st (Text.join " " selected_obs) in
            let st := add_images env (fun _ => pattern) true true st
                        (get_pattern_images section pattern) in
            add_reference_image env section pattern st
      | [] =>
          let st :=
            match get_custom_patterns section with
            | [] => add_paragraph st "Wear pattern observed (no specific details selected)."
            | _ => st
            end in
          if negb is_special_section then
            let st := add_images env (fun _ => pattern) true true st
                        (get_pattern_images section pattern) in
            add_reference_image env section pattern st
          else st
      end in
    if status_issues
    then add_images env Paths.basename true true st (get_pattern_images section pattern)
    else st.

(** One entry of [get_custom_patterns] in the loop of lines 5114 to 5143. *)
Definition render_custom (env : environment) (st : state) (custom : custom_entry)
  : state :=
  match custom with
  | TextEntry text _ =>
      if negb (String.eqb text "") then add_paragraph st text else st
  | NameEntry name observations images =>
      let st := add_heading st name 4 in
      let st := match observations with
                | _ :: _ => add_paragraph st (Text.join " " observations)
                | [] => st
                end in
      add_images env Paths.basename true true st images
  end.

Definition motor_special_titles : list string :=
  [ "Motor Housing"; "Motor Shaft"; "Electrical Connection" ].

(** What follows the patterns of a section (lines 5104 to 5177). *)
Definition render_section_tail (env : environment) (section : ComponentSection)
  (selected_patterns : list string) (st : state) : state :=
  let is_motor_special := Dict.mem (title section) motor_special_titles in
  let has_selected := match selected_patterns with [] => false | _ => true end in
  let st :=
    if negb (is_motor_special && has_selected) then
      match get_custom_patterns section with
      | [] => st
      | custom_patterns =>
          let st := if negb has_selected
                    then add_heading st "Observed Wear Patterns:" 3 else st in
          fold_left (render_custom env) custom_patterns st
      end
    else st in
  let st :=
    if negb has_selected then
      match get_custom_patterns section with
      | [] =>
          if Dict.mem (title section) bearing_titles
          then add_paragraph st (title section +:+ ": Not tested.")
          else add_paragraph st "No significant wear patterns observed."
      | _ => st
      end
    else st in
  let st :=
    if negb (String.eqb (get_notes section) "") then
      add_paragraph (add_heading st "Additional Notes:" 3) (get_notes section)
    else st in
  match get_images section with
  | [] => st
  | images =>
      add_images env Paths.basename true true
        (add_heading st "General Section Images:" 3) images
  end.

(** A component section of a motor tab (lines 4886 to 5177; the sections
    of compressors, coils and valves are written by other branches of
    [generate_report]): its heading, then either the short form for a lone
    "Status: OK" (which ends the section: [continue]) or the patterns and
    the tail. The list of line 4892 also names the three valve titles,
    which no section of a motor has. *)
Definition render_component_section (env : environment) (section : ComponentSection)
  (st : state) : state :=
  let st := add_heading st (title section) 2 in
  let selected_patterns := get_selected_patterns section in
  let is_special_section := Dict.mem (title section) per_observation_titles in
  match selected_patterns with
  | _ :: _ =>
      if is_special_section &&
         bool_decide (selected_patterns = ["Status: OK"])
      then
        match get_selected_observations section "Status: OK" with
        | first :: _ =>
            add_images env Paths.basename false false (add_paragraph st first)
              (get_pattern_images section "Status: OK")
        | [] => st
        end
      else
        let st := add_heading st "Observed Wear Patterns:" 3 in
        let st := fold_left (render_pattern env section is_special_section)
                    selected_patterns st in
        render_section_tail env section selected_patterns st
  | [] => render_section_tail env section selected_patterns st
  end.

(** ** The grouping rule as the specification words it *)

(** Items in order: the selected observations with their images, then the
    inline custom issues with theirs. *)
Definition grouping_items (section : ComponentSection) (pattern : string)
  (selected_obs : list string) : list (string * list string) :=
  map (fun obs => (obs, get_observation_images section pattern obs)) selected_obs ++
  omap (fun custom =>
          match custom with
          | TextEntry text images =>
              if String.eqb text "" then None else Some (text, images)
          | NameEntry _ _ _ => None
          end) (get_custom_patterns section).

(** Consecutive items without images form one group; an item with images
    is a group of its own. *)
Fixpoint grouped (items : list (string * list string)) : list group :=
  match items with
  | [] => []
  | (text, []) :: rest =>
      match grouped rest with
      | TextGroup texts :: groups => TextGroup (text :: texts) :: groups
      | groups => TextGroup [text] :: groups
      end
  | (text, images) :: rest => ImageGroup text images :: grouped rest
  end.

(** The blocks of an image loop, with figures numbered from [n]. *)
Fixpoint figure_blocks (env : environment) (label : string -> string)
  (note_missing name_in_error : bool) (n : nat) (images : list string)
  : list block :=
  match images with
  | [] => []
  | img :: rest =>
      match picture env img with
      | Loads =>
          [Picture img; Caption n (label img); Paragraph ""] ++
          figure_blocks env label note_missing name_in_error (S n) rest
      | Missing =>
          (if note_missing
           then [Paragraph ("Error: Image file not found - " +:+ img)] else []) ++
          figure_blocks env label note_missing name_in_error n rest
      | Fails e =>
          Paragraph (if name_in_error
                     then "Error loading image " +:+ Paths.basename img +:+ ": " +:+ e
                     else "Error loading image: " +:+ e) ::
          figure_blocks env label note_missing name_in_error n rest
      end
  end.

(** A text group is one paragraph, its texts joined by spaces; an item
    with images is its own paragraph, then its figures, each captioned
    with the item's text. *)
Definition group_blocks (env : environment) (n : nat) (g : group) : list block :=
  match g with
  | TextGroup texts => [Paragraph (Text.join " " texts)]
  | ImageGroup obs images =>
      Paragraph obs :: figure_blocks env (fun _ => obs) true true n images
  end.

(** The numbers of the figure captions of a run of blocks. *)
Definition figure_numbers (blocks : list block) : list nat :=
  omap (fun b => match b with Caption n _ => Some n | _ => None end) blocks.

(** The blocks of a list of groups, figures numbered from [n] on. *)
Fixpoint groups_blocks (env : environment) (n : nat) (groups : list group)
  : list block :=
  match groups with
  | [] => []
  | g :: rest =>
      let blocks := group_blocks env n g in
      blocks ++ groups_blocks env (n + length (figure_numbers blocks)) rest
  end.

(** The items a group stands for. *)
Definition group_items (g : group) : list (string * list string) :=
  match g with
  | TextGroup texts => map (fun t => (t, [])) texts
  | ImageGroup obs images => [(obs, images)]
  end.

Definition group_nonempty (g : group) : Prop :=
  match g with
  | TextGroup texts => texts <> []
  | ImageGroup _ images => images <> []
  end.

(** No two text groups follow each other: every run of items without
    images is in one group. *)
Fixpoint no_adjacent_text (groups : list group) : bool :=
  match groups with
  | TextGroup _ :: ((TextGroup _ :: _) as rest) => false
  | _ :: rest => no_adjacent_text rest
  | [] => true
  end.

End Report.

Module ReportFacts.
Import Catalog Widgets TestResults Report.

(** ** Image loops *)

Lemma figure_numbers_app a b : figure_numbers (a ++ b) = figure_numbers a ++ figure_numbers b.
Proof. unfold figure_numbers. apply omap_app. Qed.

Lemma add_images_blocks env label nm ne st images :
  add_images env label nm ne st images =
    {| doc := doc st ++ figure_blocks env label nm ne (figure_counter st) images;
       figure_counter := figure_counter st +
         length (figure_numbers (figure_blocks env label nm ne (figure_counter st) images)) |}.
Proof.
  unfold add_images. revert st. induction images as [|img rest IH]; intros st; simpl.
  - destruct st as [d n]. simpl. now rewrite app_nil_r, Nat.add_0_r.
  - rewrite IH. unfold add_image_block, add_figure, add_paragraph, emit.
    destruct (picture env img) as [| |e]; simpl.
    + destruct nm; simpl; [|reflexivity]. f_equal. now rewrite <- app_assoc.
    + f_equal; [now rewrite <- !app_assoc | lia].
    + f_equal. now rewrite <- app_assoc.
Qed.

Lemma figure_blocks_numbers env label nm ne n images :
  figure_numbers (figure_blocks env label nm ne n images)
  = seq n (length (figure_numbers (figure_blocks env label nm ne n images))).
Proof.
  revert n. induction images as [|img rest IH]; intros n; simpl; [reflexivity|].
  destruct (picture env img) as [| |e]; simpl.
  - destruct nm; simpl; apply IH.
  - f_equal. apply IH.
  - apply IH.
Qed.


(** ** The grouping loops *)

(** The pending texts, as the group the last flush makes of them. *)
Definition pending (current_group : list string) : list group :=
  match current_group with
  | [] => []
  | _ => [TextGroup current_group]
  end.

Definition as_items (texts : list string) : list (string * list string) :=
  map (fun t => (t, [])) texts.

Lemma flush_pending G cur : fst (flush G cur) = G ++ pending cur.
Proof. destruct cur; simpl; [now rewrite app_nil_r | reflexivity]. Qed.

Lemma grouped_texts cur : grouped (as_items cur) = pending cur.
Proof.
  induction cur as [|t cur IH]; simpl; [reflexivity|].
  rewrite IH. now destruct cur.
Qed.

Lemma grouped_texts_then_image cur t img imgs rest :
  grouped (as_items cur ++ (t, img :: imgs) :: rest)
  = pending cur ++ ImageGroup t (img :: imgs) :: grouped rest.
Proof.
  induction cur as [|c cur IH]; simpl; [reflexivity|].
  rewrite IH. now destruct cur.
Qed.

Lemma group_loop items G cur :
  let acc := fold_left (fun acc it => group_step acc (fst it) (snd it)) items (G, cur) in
  fst (flush (fst acc) (snd acc)) = G ++ grouped (as_items cur ++ items).
Proof.
  revert G cur. induction items as [|[t imgs] rest IH]; intros G cur; simpl.
  - now rewrite flush_pending, app_nil_r, grouped_texts.
  - destruct imgs as [|img imgs]; simpl.
    + rewrite IH. unfold as_items. rewrite map_app. simpl.
      now rewrite <- app_assoc.
    + destruct (flush G cur) as [G' cur'] eqn:Ef. simpl.
      assert (G' = G ++ pending cur /\ cur' = []) as [-> ->].
      { destruct cur; simpl in Ef; injection Ef as <- <-;
          [now rewrite app_nil_r | split; reflexivity]. }
      rewrite IH. simpl. rewrite grouped_texts_then_image.
      now rewrite <- !app_assoc.
Qed.

Lemma fold_left_map {A B C} (f : A -> B -> A) (g : C -> B) l a :
  fold_left (fun acc x => f acc (g x)) l a = fold_left f (map g l) a.
Proof. revert a. induction l as [|x l IH]; intros a; simpl; [reflexivity|apply IH]. Qed.

Lemma fold_left_omap {A B C} (f : A -> B -> A) (g : C -> option B) l a :
  fold_left (fun acc x => match g x with Some y => f acc y | None => acc end) l a
  = fold_left f (omap g l) a.
Proof.
  revert a. induction l as [|x l IH]; intros a; simpl; [reflexivity|].
  destruct (g x); simpl; apply IH.
Qed.

Lemma fold_left_ext {A B} (f g : A -> B -> A) l a :
  (forall acc x, f acc x = g acc x) -> fold_left f l a = fold_left g l a.
Proof.
  intros H. revert a. induction l as [|x l IH]; intros a; simpl; [reflexivity|].
  rewrite H. apply IH.
Qed.

Lemma group_observations_grouped section pattern selected_obs :
  group_observations section pattern selected_obs
  = grouped (grouping_items section pattern selected_obs).
Proof.
  unfold group_observations, grouping_items.
  set (step := fun (acc : list group * list string) (it : string * list string) =>
                 group_step acc (fst it) (snd it)).
  set (g1 := fun obs => (obs, get_observation_images section pattern obs)).
  set (g2 := fun custom =>
               match custom with
               | TextEntry text images =>
                   if String.eqb text "" then None else Some (text, images)
               | NameEntry _ _ _ => None
               end).
  pose proof (group_loop (map g1 selected_obs ++ omap g2 (get_custom_patterns section))
                [] []) as H.
  simpl in H. fold step in H. rewrite <- H. clear H.
  rewrite fold_left_app.
  rewrite <- (fold_left_map step g1).
  rewrite <- (fold_left_omap step g2).
  match goal with
  | |- fst (flush (fst ?A) (snd ?A)) = fst (flush (fst ?B) (snd ?B)) =>
      assert (E : A = B); [|now rewrite E]
  end.
  etransitivity; [apply fold_left_ext|reflexivity].
  intros acc [text images|n o i]; unfold g2, step; simpl; [|reflexivity].
  now destruct (String.eqb text "").
Qed.

(** The grouping keeps the items in order, makes no empty group, and
    leaves no two text groups side by side. *)
Lemma grouped_flatten items : concat (map group_items (grouped items)) = items.
Proof.
  induction items as [|[t imgs] rest IH]; simpl; [reflexivity|].
  destruct imgs as [|img imgs]; simpl; [|now rewrite IH].
  destruct (grouped rest) as [|[texts|obs images] groups]; simpl in *; now rewrite <- IH.
Qed.

Lemma grouped_nonempty items : Forall group_nonempty (grouped items).
Proof.
  induction items as [|[t imgs] rest IH]; simpl; [constructor|].
  destruct imgs as [|img imgs]; simpl; [|constructor; [discriminate|exact IH]].
  destruct (grouped rest) as [|[texts|obs images] groups]; simpl.
  - repeat constructor. discriminate.
  - apply Forall_cons in IH as [_ IH]. constructor; [discriminate|exact IH].
  - constructor; [discriminate|exact IH].
Qed.

Lemma grouped_maximal items : no_adjacent_text (grouped items) = true.
Proof.
  induction items as [|[t imgs] rest IH]; simpl; [reflexivity|].
  destruct imgs as [|img imgs]; simpl; [|exact IH].
  destruct (grouped rest) as [|[texts|obs images] groups]; simpl in *;
    first [exact IH | reflexivity].
Qed.

(** ** Rendering the groups *)

Lemma render_groups_blocks env groups st :
  fold_left (render_group env) groups st =
    {| doc := doc st ++ groups_blocks env (figure_counter st) groups;
       figure_counter := figure_counter st +
         length (figure_numbers (groups_blocks env (figure_counter st) groups)) |}.
Proof.
  revert st. induction groups as [|g rest IH]; intros st; simpl.
  - destruct st as [d n]. simpl. now rewrite app_nil_r, Nat.add_0_r.
  - rewrite IH. destruct g as [texts|obs images]; simpl.
    + rewrite Nat.add_0_r. f_equal. now rewrite <- app_assoc.
    + rewrite add_images_blocks. simpl. rewrite figure_numbers_app.
      rewrite length_app. f_equal; [|lia].
      rewrite <- !app_assoc. reflexivity.
Qed.

Lemma groups_blocks_numbers env n groups :
  figure_numbers (groups_blocks env n groups)
  = seq n (length (figure_numbers (groups_blocks env n groups))).
Proof.
  revert n. induction groups as [|g rest IH]; intros n; simpl; [reflexivity|].
  rewrite figure_numbers_app, length_app, seq_app. f_equal; [|apply IH].
  destruct g as [texts|obs images]; simpl; [reflexivity|].
  apply figure_blocks_numbers.
Qed.

(** ** The claims about report assembly *)

Definition all_load : environment :=
  {| picture := fun _ => Loads; program_dir := "/opt/report-writer" |}.

(** A housing section with four issues A, B, C, D checked, a picture on B
    and one on D. *)
Definition four_issues : ComponentSection :=
  run (new_ComponentSection "Motor Housing"
         [ ("Status: OK", plain ["Fine."]);
           ("Status: NOT OK", issues ["A"; "B"; "C"; "D"]) ])
      [ Click "Status: NOT OK";
        SetObservation "Status: NOT OK" 0 true;
        SetObservation "Status: NOT OK" 1 true;
        SetObservation "Status: NOT OK" 2 true;
        SetObservation "Status: NOT OK" 3 true;
        UploadPatternImage "Status: NOT OK" (Some "B") "imgX";
        UploadPatternImage "Status: NOT OK" (Some "D") "imgY" ].

(** ** A section with issues *)

(** The blocks of the notes and of the general images, which end a
    section (lines 5146 to 5177), figures numbered from [n]. *)
Definition notes_blocks (section : ComponentSection) : list block :=
  if negb (String.eqb (get_notes section) "")
  then [Heading 3 "Additional Notes:"; Paragraph (get_notes section)] else [].

Definition general_image_blocks (env : environment) (section : ComponentSection)
  (n : nat) : list block :=
  match get_images section with
  | [] => []
  | images =>
      Heading 3 "General Section Images:" ::
      figure_blocks env Paths.basename true true n images
  end.

(** The figures of [blocks] are numbered from [n] on, without a gap. *)
Definition numbered (n : nat) (blocks : list block) : Prop :=
  figure_numbers blocks = seq n (length (figure_numbers blocks)).

Lemma numbered_app n a b :
  numbered n a -> numbered (n + length (figure_numbers a)) b -> numbered n (a ++ b).
Proof.
  unfold numbered. intros Ha Hb.
  rewrite figure_numbers_app, length_app, seq_app. now f_equal.
Qed.

Lemma numbered_plain n blocks : figure_numbers blocks = [] -> numbered n blocks.
Proof. unfold numbered. now intros ->. Qed.

Lemma special_title_motor t :
  Dict.mem t motor_special_titles = true -> Dict.mem t per_observation_titles = true.
Proof.
  unfold Dict.mem, motor_special_titles, per_observation_titles. cbn [existsb].
  intros H. repeat (apply orb_true_iff in H as [H|H]; [rewrite H; rewrite ?orb_true_r; reflexivity|]).
  discriminate.
Qed.

(** A housing section found not in order, with no issue of the list
    checked and one issue written by hand. *)
Definition lone_custom : ComponentSection :=
  run (new_ComponentSection "Motor Housing" HOUSING_WEAR_PATTERNS)
      [ Click "Status: NOT OK"; AddCustom;
        EditCustom 0 "Paint peeling near the terminal box." ].

(** C5: the grouping of the issues of a section found not in order. In a
    Motor Housing, Motor Shaft or Electrical Connection section with
    "Status: NOT OK" selected, the report gets the two headings, then the
    issues, then the figures of the pattern, the notes and the general
    images. With at least one issue of the list checked the issues are
    grouped by the rule: the checked issues and then the issues written by
    hand, in order, runs of items without images joined by spaces into one
    paragraph, each item with images a paragraph of its own followed by its
    figures, no empty group; all figures of the section are numbered
    without a gap from the counter. With no issue of the list checked the
    issues written by hand are not in the report at all: the rule would
    give them a paragraph, the program gives none. [A, B(imgX), C, D(imgY)]
    gives A, B with its figure, C, D with its figure. *)
Theorem narrative_grouping (env : environment) (section : ComponentSection) (st : state) :
  Dict.mem (title section) motor_special_titles = true ->
  get_selected_patterns section = ["Status: NOT OK"] ->
  let selected_obs := get_selected_observations section "Status: NOT OK" in
  let items := grouping_items section "Status: NOT OK" selected_obs in
  let groups := grouped items in
  let n := figure_counter st in
  let body :=
    match selected_obs with
    | _ :: _ => groups_blocks env n groups
    | [] =>
        match get_custom_patterns section with
        | [] => [Paragraph "Wear pattern observed (no specific details selected)."]
        | _ => []
        end
    end in
  let n1 := n + length (figure_numbers body) in
  let pattern_figures :=
    figure_blocks env Paths.basename true true n1
      (get_pattern_images section "Status: NOT OK") in
  let n2 := n1 + length (figure_numbers pattern_figures) in
  let blocks :=
    [Heading 2 (title section); Heading 3 "Observed Wear Patterns:"] ++
    body ++ pattern_figures ++ notes_blocks section ++
    general_image_blocks env section n2 in
  let st' := render_component_section env section st in
  doc st' = doc st ++ blocks /\
  figure_counter st' = n + length (figure_numbers blocks) /\
  numbered n blocks /\
  concat (map group_items groups) = items /\
  Forall group_nonempty groups /\
  no_adjacent_text groups = true /\
  render_component_section all_load four_issues {| doc := []; figure_counter := 1 |}
  = {| doc := [ Heading 2 "Motor Housing"; Heading 3 "Observed Wear Patterns:";
                Paragraph "A";
                Paragraph "B"; Picture "imgX"; Caption 1 "B"; Paragraph "";
                Paragraph "C";
                Paragraph "D"; Picture "imgY"; Caption 2 "D"; Paragraph "" ];
       figure_counter := 3 |} /\
  block_text (Caption 1 "B") = "Figure 1: B".
Proof.
  intros Ht Hsel selected_obs items groups n body n1 pattern_figures n2 blocks st'.
  assert (Hrender :
    st' = {| doc := doc st ++ blocks;
             figure_counter := n + length (figure_numbers blocks) |}).
  { unfold st', render_component_section. rewrite Hsel, (special_title_motor _ Ht).
    rewrite bool_decide_eq_false_2 by discriminate. cbn [andb fold_left].
    unfold render_section_tail. rewrite Ht. cbn [andb negb].
    unfold render_pattern.
    change (String.eqb "Status: NOT OK" "Status: OK") with false.
    change (String.eqb "Status: NOT OK" "No issues detected") with false.
    change (String.eqb "Status: NOT OK" "Status: NOT OK") with true.
    cbn [andb negb].
    fold selected_obs.
    assert (Hbody :
      match selected_obs with
      | _ :: _ =>
          render_issue_groups env section "Status: NOT OK" selected_obs
            (add_heading (add_heading st (title section) 2) "Observed Wear Patterns:" 3)
      | [] =>
          match get_custom_patterns section with
          | [] => add_paragraph
                    (add_heading (add_heading st (title section) 2)
                       "Observed Wear Patterns:" 3)
                    "Wear pattern observed (no specific details selected)."
          | _ => add_heading (add_heading st (title section) 2)
                   "Observed Wear Patterns:" 3
          end
      end
      = {| doc := doc st ++ [Heading 2 (title section);
                             Heading 3 "Observed Wear Patterns:"] ++ body;
           figure_counter := n1 |}).
    { unfold n1, body, groups, items. destruct selected_obs as [|o os].
      - destruct (get_custom_patterns section); unfold add_paragraph, add_heading, emit;
          simpl; rewrite <- ?app_assoc; f_equal; simpl; fold n; lia.
      - unfold render_issue_groups. rewrite group_observations_grouped.
        rewrite render_groups_blocks. unfold add_heading, emit. simpl.
        rewrite <- !app_assoc. reflexivity. }
    rewrite Hbody. rewrite (add_images_blocks env Paths.basename true true _
                              (get_pattern_images section "Status: NOT OK")).
    cbn [doc figure_counter]. fold pattern_figures. fold n2.
    unfold blocks, notes_blocks, general_image_blocks.
    destruct (get_images section) as [|img imgs];
      destruct (negb (String.eqb (get_notes section) ""));
      rewrite ?add_images_blocks; unfold add_paragraph, add_heading, emit;
      cbn [doc figure_counter];
      rewrite ?figure_numbers_app, ?length_app; cbn [figure_numbers omap length];
      f_equal; rewrite <- ?app_assoc; simpl; rewrite ?app_nil_r; try reflexivity;
      try (unfold n2, n1; lia). }
  split; [now rewrite Hrender|]. split; [now rewrite Hrender|].
  split.
  { unfold blocks. apply (numbered_app n [_; _]); [now apply numbered_plain|].
    cbn [figure_numbers omap length]. rewrite Nat.add_0_r.
    apply numbered_app.
    { unfold body. destruct selected_obs; [|apply groups_blocks_numbers].
      destruct (get_custom_patterns section); now apply numbered_plain. }
    fold n1. apply numbered_app; [apply figure_blocks_numbers|]. fold n2.
    apply numbered_app.
    { apply numbered_plain. unfold notes_blocks. now destruct (negb _). }
    replace (length (figure_numbers (notes_blocks section))) with 0
      by (unfold notes_blocks; now destruct (negb _)).
    rewrite Nat.add_0_r. unfold general_image_blocks.
    destruct (get_images section) as [|img imgs]; [reflexivity|].
    apply (figure_blocks_numbers env Paths.basename true true n2 (img :: imgs)). }
  split; [apply grouped_flatten|].
  split; [apply grouped_nonempty|].
  split; [apply grouped_maximal|].
  split; vm_compute; reflexivity.
Qed.

(** The section with only an issue written by hand: the report has the two
    headings and nothing of the issue. *)
Lemma narrative_grouping_witness :
  let st := {| doc := []; figure_counter := 1 |} in
  Dict.mem (title lone_custom) motor_special_titles = true /\
  get_selected_patterns lone_custom = ["Status: NOT OK"] /\
  get_selected_observations lone_custom "Status: NOT OK" = [] /\
  grouped (grouping_items lone_custom "Status: NOT OK" [])
  = [TextGroup ["Paint peeling near the terminal box."]] /\
  doc (render_component_section all_load lone_custom st)
  = [Heading 2 "Motor Housing"; Heading 3 "Observed Wear Patterns:"].
Proof.
  intros st.
  assert (H1 : Dict.mem (title lone_custom) motor_special_titles = true) by reflexivity.
  assert (H2 : get_selected_patterns lone_custom = ["Status: NOT OK"]) by reflexivity.
  split; [exact H1|]. split; [exact H2|].
  split; [reflexivity|]. split; [reflexivity|].
  destruct (narrative_grouping all_load lone_custom st H1 H2) as [Hdoc _].
  exact Hdoc.
Defined.




(** C10: the acceptability flag of a temperature reading [v] is [v <= 95],
    the limit [get_test_data] records: a reading above 70 and up to 95 is
    accepted and a reading above 95 is rejected. The sentence of the report
    states the limit as 70°F on both sides: "within acceptable operating
    limits (≤70°F)" for the accepted reading, "exceeds acceptable operating
    limits (>70°F)" for the rejected one. *)
Theorem temperature_limit_mismatch (s : TestResultsSection) (v : float) :
  Numeric.extract_numeric_value (Text.strip (temperature_value s)) = Some v ->
  let d := temperature (get_test_data s) in
  temperature_ok d = PrimFloat.leb v 95%float /\ temperature_limit d = 95 /\
  (PrimFloat.ltb 70%float v = true -> PrimFloat.leb v 95%float = true ->
     temperature_ok d = true /\
     temperature_sentence d =
       "Temperature testing measured " +:+ Text.strip (temperature_value s) +:+
       " which is within acceptable operating limits (≤70°F).") /\
  (PrimFloat.ltb 95%float v = true ->
     temperature_ok d = false /\
     temperature_sentence d =
       "Temperature testing measured " +:+ Text.strip (temperature_value s) +:+
       " which exceeds acceptable operating limits (>70°F).") /\
  forall env st,
    In (Paragraph (temperature_sentence d)) (doc (render_test_section env s st)).
Proof.
  intros Hv d.
  assert (Hok : temperature_ok d = PrimFloat.leb v 95%float).
  { unfold d, get_test_data.
    destruct (Numeric.truthy _ && Numeric.truthy _);
      [destruct (Numeric.get_vibration_classification _ _)|];
      simpl; rewrite Hv; reflexivity. }
  assert (Hnum : temperature_numeric d = Some v).
  { unfold d, get_test_data.
    destruct (Numeric.truthy _ && Numeric.truthy _);
      [destruct (Numeric.get_vibration_classification _ _)|]; simpl; exact Hv. }
  assert (Hraw : temperature_raw d = Text.strip (temperature_value s)).
  { unfold d, get_test_data.
    destruct (Numeric.truthy _ && Numeric.truthy _);
      [destruct (Numeric.get_vibration_classification _ _)|]; reflexivity. }
  split; [exact Hok|]. split.
  { unfold d, get_test_data.
    destruct (Numeric.truthy _ && Numeric.truthy _);
      [destruct (Numeric.get_vibration_classification _ _)|]; reflexivity. }
  split.
  { intros _ Hhi. rewrite Hhi in Hok. split; [exact Hok|].
    unfold temperature_sentence. now rewrite Hnum, Hok, Hraw. }
  split.
  { intros Hhi. apply NumericFacts.ltb_leb_false in Hhi. rewrite Hhi in Hok.
    split; [exact Hok|].
    unfold temperature_sentence. now rewrite Hnum, Hok, Hraw. }
  intros env st. unfold render_test_section. fold d.
  rewrite !add_images_blocks. simpl.
  apply in_or_app. left. apply in_or_app. left. apply in_or_app. left.
  apply in_or_app. left. apply in_or_app. right. now left.
Qed.

(** A reading of 96 degrees: rejected, and the sentence still names 70. *)
Lemma temperature_limit_mismatch_witness :
  let s := {| audio_value := ""; vibration_rpm := ""; vibration_value := "";
              temperature_value := "96 F"; resistance_ok_cb := false;
              res_black_red := ""; res_black_white := ""; five_wire_cb := false;
              res_black_yellow := ""; res_black_blue := ""; audio_images := no_images;
              vibration_images := no_images; temperature_images := no_images;
              resistance_images := no_images |} in
  Numeric.extract_numeric_value (Text.strip (temperature_value s)) = Some 96%float /\
  let d := temperature (get_test_data s) in
  temperature_ok d = false /\ temperature_limit d = 95 /\
  temperature_sentence d =
    "Temperature testing measured 96 F which exceeds acceptable operating limits (>70°F)." /\
  forall env st,
    In (Paragraph (temperature_sentence d)) (doc (render_test_section env s st)).
Proof.
  intros s.
  assert (H1 : Numeric.extract_numeric_value (Text.strip (temperature_value s)) = Some 96%float)
    by (vm_compute; reflexivity).
  split; [exact H1|].
  destruct (temperature_limit_mismatch s 96%float H1) as (Hok & Hlim & _ & Hrej & Hdoc).
  destruct (Hrej eq_refl) as [Hno Hsent].
  intros d. split; [exact Hno|]. split; [exact Hlim|]. split; [exact Hsent|]. exact Hdoc.
Defined.

End ReportFacts.

(* ===================================================================== *)
(** * The application: equipment tabs (ReportGeneratorApp) *)
(* ===================================================================== *)

Module App.
Import Catalog Widgets TestResults.

(** ** MotorTab *)

Record MotorTab : Type := {
  motor_number : nat;
  housing_section : ComponentSection;
  shaft_section : ComponentSection;
  electrical_section : ComponentSection;
  test_results_section : TestResultsSection;
  bearing_de_section : ComponentSection;
  bearing_nde_section : ComponentSection
}.

(** [MotorTab(motor_number)] *)
Definition new_MotorTab (motor_number : nat) : MotorTab :=
  {| motor_number := motor_number;
     housing_section := new_ComponentSection "Motor Housing" HOUSING_WEAR_PATTERNS;
     shaft_section := new_ComponentSection "Motor Shaft" MOTOR_SHAFT_PATTERNS;
     electrical_section :=
       new_ComponentSection "Electrical Connection" ELECTRICAL_CONNECTION_PATTERNS;
     test_results_section := new_TestResultsSection;
     bearing_de_section := new_ComponentSection "Drive End Bearing" BEARING_WEAR_PATTERNS;
     bearing_nde_section :=
       new_ComponentSection "Non-Drive End Bearing" BEARING_WEAR_PATTERNS |}.

(** ** The tab widgets *)

Inductive kind : Type := KMotor | KCompressor | KCoil | KValve.

Global Instance kind_eq_dec : EqDecision kind.
Proof. solve_decision. Defined.

(** A tab widget. The sections of a compressor, a coil or a valve are
    outside this model: of those tabs only the number is kept. *)
Inductive equipment : Type :=
| Motor (m : MotorTab)
| Compressor (compressor_number : nat)
| Coil (coil_number : nat)
| Valve (valve_number : nat).

Definition kind_of (w : equipment) : kind :=
  match w with
  | Motor _ => KMotor
  | Compressor _ => KCompressor
  | Coil _ => KCoil
  | Valve _ => KValve
  end.

Definition number_of (w : equipment) : nat :=
  match w with
  | Motor m => motor_number m
  | Compressor n | Coil n | Valve n => n
  end.

Definition set_motor_number (m : MotorTab) (n : nat) : MotorTab :=
  {| motor_number := n; housing_section := housing_section m;
     shaft_section := shaft_section m; electrical_section := electrical_section m;
     test_results_section := test_results_section m;
     bearing_de_section := bearing_de_section m;
     bearing_nde_section := bearing_nde_section m |}.

Definition set_number (w : equipment) (n : nat) : equipment :=
  match w with
  | Motor m => Motor (set_motor_number m n)
  | Compressor _ => Compressor n
  | Coil _ => Coil n
  | Valve _ => Valve n
  end.

Definition kind_name (k : kind) : string :=
  match k with
  | KMotor => "Motor"
  | KCompressor => "Compressor"
  | KCoil => "Coil"
  | KValve => "Valve"
  end.

(** [f"Motor {n}"] and the like. *)
Definition tab_title (k : kind) (n : nat) : string := kind_name k +:+ " " +:+ pretty n.

(** ** The application window *)

Record header_fields : Type := {
  rma : string; inspection_date : string; unit_model : string; unit_serial : string;
  customer_email : string; total_field : string; lab_tech : string;
  manager_name : string; install_date : string; failure_date : string;
  warranty_claim : string; part_number : string
}.

Definition empty_header : header_fields :=
  {| rma := ""; inspection_date := ""; unit_model := ""; unit_serial := "";
     customer_email := ""; total_field := ""; lab_tech := ""; manager_name := "";
     install_date := ""; failure_date := ""; warranty_claim := ""; part_number := "" |}.

(** Tab widgets are objects: the tab bar and the four lists hold
    references to them, and a change made through one reference shows
    through the others. [widgets] is the store of these objects, by
    identity; [equipment_tabs_widget] is the tab bar, each tab with its
    widget and its text. *)
Record ReportGeneratorApp : Type := {
  widgets : gmap nat equipment;
  next_widget : nat;
  equipment_tabs_widget : list (nat * string);
  motor_tabs : list nat;
  compressor_tabs : list nat;
  coil_tabs : list nat;
  valve_tabs : list nat;
  motor_count : nat;
  compressor_count : nat;
  coil_count : nat;
  valve_count : nat;
  header : header_fields
}.

(** [ReportGeneratorApp()] *)
Definition new_app : ReportGeneratorApp :=
  {| widgets := ∅; next_widget := 0; equipment_tabs_widget := [];
     motor_tabs := []; compressor_tabs := []; coil_tabs := []; valve_tabs := [];
     motor_count := 0; compressor_count := 0; coil_count := 0; valve_count := 0;
     header := empty_header |}.

Definition tabs_of (app : ReportGeneratorApp) (k : kind) : list nat :=
  match k with
  | KMotor => motor_tabs app
  | KCompressor => compressor_tabs app
  | KCoil => coil_tabs app
  | KValve => valve_tabs app
  end.

Definition count_of (app : ReportGeneratorApp) (k : kind) : nat :=
  match k with
  | KMotor => motor_count app
  | KCompressor => compressor_count app
  | KCoil => coil_count app
  | KValve => valve_count app
  end.

(** Assignment to the list and the counter of one kind. *)
Definition set_kind (app : ReportGeneratorApp) (k : kind) (l : list nat) (c : nat)
  : ReportGeneratorApp :=
  {| widgets := widgets app; next_widget := next_widget app;
     equipment_tabs_widget := equipment_tabs_widget app;
     motor_tabs := if decide (k = KMotor) then l else motor_tabs app;
     compressor_tabs := if decide (k = KCompressor) then l else compressor_tabs app;
     coil_tabs := if decide (k = KCoil) then l else coil_tabs app;
     valve_tabs := if decide (k = KValve) then l else valve_tabs app;
     motor_count := if decide (k = KMotor) then c else motor_count app;
     compressor_count := if decide (k = KCompressor) then c else compressor_count app;
     coil_count := if decide (k = KCoil) then c else coil_count app;
     valve_count := if decide (k = KValve) then c else valve_count app;
     header := header app |}.

Definition set_widgets_tabs (app : ReportGeneratorApp) (ws : gmap nat equipment)
  (next : nat) (tabs : list (nat * string)) : ReportGeneratorApp :=
  {| widgets := ws; next_widget := next; equipment_tabs_widget := tabs;
     motor_tabs := motor_tabs app; compressor_tabs := compressor_tabs app;
     coil_tabs := coil_tabs app; valve_tabs := valve_tabs app;
     motor_count := motor_count app; compressor_count := compressor_count app;
     coil_count := coil_count app; valve_count := valve_count app;
     header := header app |}.

Definition set_header (app : ReportGeneratorApp) (h : header_fields)
  : ReportGeneratorApp :=
  {| widgets := widgets app; next_widget := next_widget app;
     equipment_tabs_widget := equipment_tabs_widget app;
     motor_tabs := motor_tabs app; compressor_tabs := compressor_tabs app;
     coil_tabs := coil_tabs app; valve_tabs := valve_tabs app;
     motor_count := motor_count app; compressor_count := compressor_count app;
     coil_count := coil_count app; valve_count := valve_count app;
     header := h |}.

(** A new tab widget of a kind, with its number. *)
Definition new_equipment (k : kind) (n : nat) : equipment :=
  match k with
  | KMotor => Motor (new_MotorTab n)
  | KCompressor => Compressor n
  | KCoil => Coil n
  | KValve => Valve n
  end.

(** [add_motor_tab], [add_compressor_tab], [add_coil_tab], [add_valve_tab]:
    the counter goes up, a tab widget is made with it, appended to the
    list of its kind and added at the end of the tab bar. *)
Definition add_tab (app : ReportGeneratorApp) (k : kind) : ReportGeneratorApp :=
  let count := S (count_of app k) in
  let id := next_widget app in
  let app := set_kind app k (tabs_of app k ++ [id]) count in
  set_widgets_tabs app (<[id := new_equipment k count]> (widgets app)) (S id)
    (equipment_tabs_widget app ++ [(id, tab_title k count)]).

Definition add_motor_tab (app : ReportGeneratorApp) := add_tab app KMotor.
Definition add_compressor_tab (app : ReportGeneratorApp) := add_tab app KCompressor.
Definition add_coil_tab (app : ReportGeneratorApp) := add_tab app KCoil.
Definition add_valve_tab (app : ReportGeneratorApp) := add_tab app KValve.

(** [l.remove(x)]: the first occurrence goes; [None] stands for the
    [ValueError] raised when there is none. *)
Fixpoint list_remove (x : nat) (l : list nat) : option (list nat) :=
  match l with
  | [] => None
  | y :: l' =>
      if decide (y = x) then Some l'
      else match list_remove x l' with
           | Some r => Some (y :: r)
           | None => None
           end
  end.

(** The four indices of the renumbering loop. *)
Definition next_index (idx : kind -> nat) (k : kind) : kind -> nat :=
  fun k' => if decide (k' = k) then S (idx k') else idx k'.

(** One turn of the loop that renumbers the tabs: the text of tab [i] and
    the number of its widget are set from the index of the widget's kind. *)
Definition renumber_step
  (acc : gmap nat equipment * list (nat * string) * (kind -> nat))
  (tab : nat * string) : gmap nat equipment * list (nat * string) * (kind -> nat) :=
  let '(ws, done, idx) := acc in
  match ws !! tab.1 with
  | Some w =>
      let k := kind_of w in
      (<[tab.1 := set_number w (idx k)]> ws,
       done ++ [(tab.1, tab_title k (idx k))],
       next_index idx k)
  | None => (ws, done ++ [tab], idx)
  end.

Definition renumber (app : ReportGeneratorApp) : ReportGeneratorApp :=
  let '(ws, tabs, _) :=
    fold_left renumber_step (equipment_tabs_widget app)
      (widgets app, [], fun _ => 1) in
  set_widgets_tabs app ws (next_widget app) tabs.

(** [remove_equipment_tab(index)], with the answer given to the question
    it asks. [None] stands for an exception that leaves the slot. *)
Definition remove_equipment_tab (app : ReportGeneratorApp) (index : nat)
  (reply_yes : bool) : option ReportGeneratorApp :=
  let widget := equipment_tabs_widget app !! index in
  if reply_yes then
    let app := set_widgets_tabs app (widgets app) (next_widget app)
                 (delete index (equipment_tabs_widget app)) in
    let removed :=
      match widget with
      | Some (id, _) =>
          match widgets app !! id with
          | Some w =>
              let k := kind_of w in
              match list_remove id (tabs_of app k) with
              | Some l => Some (set_kind app k l (length l))
              | None => None
              end
          | None => Some app
          end
      | None => Some app
      end in
    match removed with
    | Some app => Some (renumber app)
    | None => None
    end
  else Some app.

(** [equipment_tabs_widget.widget(index)] *)
Definition widget_at (app : ReportGeneratorApp) (index : nat) : option equipment :=
  match equipment_tabs_widget app !! index with
  | Some tab => widgets app !! tab.1
  | None => None
  end.

(** The motor tab at an index of the tab bar, when there is one. *)
Definition motor_at (app : ReportGeneratorApp) (index : nat) : option MotorTab :=
  match widget_at app index with
  | Some (Motor m) => Some m
  | _ => None
  end.

(** ** The ordinals of the units *)

(** What is read from the tabs of a kind, in the order of the tab bar. *)
Definition of_kind {A : Type} (ws : gmap nat equipment) (k : kind)
  (f : nat * string -> equipment -> A) (tabs : list (nat * string)) : list A :=
  omap (fun tab =>
          match ws !! tab.1 with
          | Some w => if decide (kind_of w = k) then Some (f tab w) else None
          | None => None
          end) tabs.

(** The numbers of the units of a kind. *)
Definition ordinals (app : ReportGeneratorApp) (k : kind) : list nat :=
  of_kind (widgets app) k (fun _ w => number_of w) (equipment_tabs_widget app).

(** The texts of the tabs of a kind. *)
Definition tab_texts (app : ReportGeneratorApp) (k : kind) : list string :=
  of_kind (widgets app) k (fun tab _ => tab.2) (equipment_tabs_widget app).

(** Dense: 1, 2, ..., N for every kind, on the widgets and on the tab bar. *)
Definition dense (app : ReportGeneratorApp) : Prop :=
  forall k, ordinals app k = seq 1 (length (ordinals app k)) /\
            tab_texts app k = map (tab_title k) (ordinals app k).

End App.

(* ===================================================================== *)
(** * Saving and loading a report *)
(* ===================================================================== *)

(** Code that changes a widget and may raise: the state is kept when an
    exception leaves the code, and [None] is the exception. *)
Module Exn.

Section Monad.
Context {S : Type}.

Definition M (A : Type) : Type := S -> S * option A.

Definition ret {A : Type} (a : A) : M A := fun s => (s, Some a).

Definition bind {A B : Type} (m : M A) (f : A -> M B) : M B :=
  fun s =>
    match m s with
    | (s', Some a) => f a s'
    | (s', None) => (s', None)
    end.

Definition raise {A : Type} : M A := fun s => (s, None).

Definition get : M S := fun s => (s, Some s).

Definition modify (f : S -> S) : M unit := fun s => (f s, Some tt).

Fixpoint for_each {A : Type} (l : list A) (body : A -> M unit) : M unit :=
  match l with
  | [] => ret tt
  | a :: l' => bind (body a) (fun _ => for_each l' body)
  end.

Definition when (b : bool) (m : M unit) : M unit := if b then m else ret tt.

End Monad.

(** Code on a part of the state, run inside code on the whole. *)
Definition zoom {S T A : Type} (read : S -> T) (write : S -> T -> S) (m : @M T A)
  : @M S A :=
  fun s => let '(t, r) := m (read s) in (write s t, r).

Module Notations.
Notation "'let*' x ':=' m 'in' k" := (bind m (fun x => k))
  (at level 10, x name, m at level 100, k at level 200).
Notation "m ';;' k" := (bind m (fun _ => k))
  (at level 100, k at level 200, right associativity).
End Notations.

End Exn.

Module Persistence.
Import Catalog Widgets TestResults App Paths ImageStore Exn Exn.Notations.

(** ** The saved data *)

(** [section_info['observations'][pattern]] *)
Record observation_info : Type := {
  selected : list string;
  observation_images : list (string * list string);     (* key 'images' *)
  pattern_images : option (list string)                 (* key, when present *)
}.

(** An entry of [sections_data]; a key that is absent is [None]. The value
    of ['test_data'] is the dictionary [get_test_data] returns. *)
Record section_info : Type := {
  info_title : string;                                          (* 'title' *)
  info_type : string;                                           (* 'type' *)
  info_test_data : option test_data;                            (* 'test_data' *)
  info_selected_patterns : option (list string);                (* 'selected_patterns' *)
  info_observations : option (list (string * observation_info)); (* 'observations' *)
  info_custom_patterns : option (list custom_entry);            (* 'custom_patterns' *)
  info_notes : option string;                                   (* 'notes' *)
  info_images : option (list string)                            (* 'images' *)
}.

(** An entry of [data['equipment']]. *)
Record equipment_data : Type := {
  equipment_type : string;                                      (* 'type' *)
  equipment_name : string;                                      (* 'name' *)
  sections : list section_info                                  (* 'sections' *)
}.

(** The saved report. Writing it with [json.dump] and reading it back with
    [json.load] gives the same value, so the file itself is not modelled. *)
Record data : Type := {
  version : string;
  data_header : header_fields;                                  (* 'header' *)
  data_equipment : list equipment_data                          (* 'equipment' *)
}.

(** ** [MotorTab.get_all_sections] *)

Inductive section_ref : Type :=
| housing | shaft | electrical | test_results | bearing_de | bearing_nde.

Inductive section_widget : Type :=
| ComponentWidget (s : ComponentSection)
| TestWidget (t : TestResultsSection).

Definition section_at (m : MotorTab) (r : section_ref) : section_widget :=
  match r with
  | housing => ComponentWidget (housing_section m)
  | shaft => ComponentWidget (shaft_section m)
  | electrical => ComponentWidget (electrical_section m)
  | test_results => TestWidget (test_results_section m)
  | bearing_de => ComponentWidget (bearing_de_section m)
  | bearing_nde => ComponentWidget (bearing_nde_section m)
  end.

Definition set_section (m : MotorTab) (r : section_ref) (w : section_widget) : MotorTab :=
  match r, w with
  | housing, ComponentWidget s =>
      {| motor_number := motor_number m; housing_section := s;
         shaft_section := shaft_section m; electrical_section := electrical_section m;
         test_results_section := test_results_section m;
         bearing_de_section := bearing_de_section m;
         bearing_nde_section := bearing_nde_section m |}
  | shaft, ComponentWidget s =>
      {| motor_number := motor_number m; housing_section := housing_section m;
         shaft_section := s; electrical_section := electrical_section m;
         test_results_section := test_results_section m;
         bearing_de_section := bearing_de_section m;
         bearing_nde_section := bearing_nde_section m |}
  | electrical, ComponentWidget s =>
      {| motor_number := motor_number m; housing_section := housing_section m;
         shaft_section := shaft_section m; electrical_section := s;
         test_results_section := test_results_section m;
         bearing_de_section := bearing_de_section m;
         bearing_nde_section := bearing_nde_section m |}
  | test_results, TestWidget t =>
      {| motor_number := motor_number m; housing_section := housing_section m;
         shaft_section := shaft_section m; electrical_section := electrical_section m;
         test_results_section := t;
         bearing_de_section := bearing_de_section m;
         bearing_nde_section := bearing_nde_section m |}
  | bearing_de, ComponentWidget s =>
      {| motor_number := motor_number m; housing_section := housing_section m;
         shaft_section := shaft_section m; electrical_section := electrical_section m;
         test_results_section := test_results_section m;
         bearing_de_section := s;
         bearing_nde_section := bearing_nde_section m |}
  | bearing_nde, ComponentWidget s =>
      {| motor_number := motor_number m; housing_section := housing_section m;
         shaft_section := shaft_section m; electrical_section := electrical_section m;
         test_results_section := test_results_section m;
         bearing_de_section := bearing_de_section m;
         bearing_nde_section := s |}
  | _, _ => m
  end.

(** The sections in order, each with its type: the test results are the
    one section of type ['test']. *)
Definition get_all_sections : list (section_ref * string) :=
  [ (housing, "component"); (shaft, "component"); (electrical, "component");
    (test_results, "test"); (bearing_de, "component"); (bearing_nde, "component") ].

Definition section_title (w : section_widget) : string :=
  match w with
  | ComponentWidget s => title s
  | TestWidget _ => "Test Results"
  end.

(** ** Saving a motor tab *)

(** Code that copies images: the state is the file system. [_copy_images]
    always returns; [raise] is only the loop bound of its model. *)
Definition _copy_images (image_paths : list string) (dest_folder : string)
  : @M files (list string) :=
  fun fs =>
    match copy_images fs image_paths dest_folder with
    | Some (fs', names) => (fs', Some names)
    | None => (fs, None)
    end.

(** The titles whose observations have images of their own when saved. *)
Definition saved_observation_titles : list string :=
  [ "Motor Housing"; "Motor Shaft"; "Electrical Connection" ].

(** The body of the loop over [get_selected_patterns()]. *)
Definition save_pattern (section : ComponentSection) (images_folder : string)
  (pattern : string) : @M files (string * observation_info) :=
  let obs_list := get_selected_observations section pattern in
  let* images :=
    (if Dict.mem (title section) saved_observation_titles then
       fold_left (fun acc obs =>
                    let* d := acc in
                    let obs_images := get_observation_images section pattern obs in
                    match obs_images with
                    | [] => ret d
                    | _ => let* copied := _copy_images obs_images images_folder in
                           ret (Dict.set d obs copied)
                    end)
         obs_list (ret [])
     else ret []) in
  let pattern_images := get_pattern_images section pattern in
  let* copied_pattern_images :=
    match pattern_images with
    | [] => ret None
    | _ => let* copied := _copy_images pattern_images images_folder in ret (Some copied)
    end in
  ret (pattern, {| selected := obs_list; observation_images := images;
                   pattern_images := copied_pattern_images |}).

(** The body of the loop of [_save_motor_tab], for a component section. *)
Definition save_component_section (section : ComponentSection) (section_type : string)
  (images_folder : string) : @M files section_info :=
  let selected_patterns := get_selected_patterns section in
  let custom_patterns := get_custom_patterns section in
  let notes := get_notes section in
  let* images := _copy_images (get_images section) images_folder in
  let* observations :=
    fold_left (fun acc pattern =>
                 let* d := acc in
                 let* entry := save_pattern section images_folder pattern in
                 ret (Dict.set d entry.1 entry.2))
      (get_selected_patterns section) (ret []) in
  ret {| info_title := title section; info_type := section_type;
         info_test_data := None;
         info_selected_patterns := Some selected_patterns;
         info_observations := Some observations;
         info_custom_patterns := Some custom_patterns;
         info_notes := Some notes;
         info_images := Some images |}.

(** The same, for the test results: the section has neither [get_notes]
    nor [get_images]. *)
Definition save_test_section (section : TestResultsSection) (section_type : string)
  : section_info :=
  {| info_title := "Test Results"; info_type := section_type;
     info_test_data := Some (get_test_data section);
     info_selected_patterns := None; info_observations := None;
     info_custom_patterns := None;
     info_notes := Some ""; info_images := Some [] |}.

(** [_save_motor_tab(motor_tab, images_folder)]: the branch on
    [section_type == 'test'] is the branch on the kind of section, since
    [get_all_sections] gives that type to the test results and to no
    other section. *)
Definition _save_motor_tab (motor_tab : MotorTab) (images_folder : string)
  : @M files (list section_info) :=
  fold_left (fun acc section_data =>
               let* sections_data := acc in
               let '(r, section_type) := section_data in
               let* section_info :=
                 match section_at motor_tab r with
                 | TestWidget t => ret (save_test_section t section_type)
                 | ComponentWidget s => save_component_section s section_type images_folder
                 end in
               ret (sections_data ++ [section_info]))
    get_all_sections (ret []).

(** ** Loading a motor tab *)

(** [os.path.exists(p)], for the regular files of the file system. *)
Definition path_exists (fs : files) (p : string) : bool :=
  bool_decide (is_Some (fs !! p)).

(** The loop that adds the images named in the saved data to a widget:
    [img_path = os.path.join(images_folder, img_name)], added when the
    file exists. *)
Definition load_images (fs : files) (images_folder : string)
  (img_widget : ImageUploadWidget) (names : list string) : ImageUploadWidget :=
  fold_left (fun w img_name =>
               let img_path := path_join images_folder img_name in
               if path_exists fs img_path then add_image (path_exists fs) w img_path
               else w)
    names img_widget.

(** [section_map = {s.title: s for s, _, _ in motor_tab.get_all_sections()}] *)
Definition section_map (motor_tab : MotorTab) : list (string * section_ref) :=
  fold_left (fun d entry =>
               Dict.set d (section_title (section_at motor_tab entry.1)) entry.1)
    get_all_sections [].

(** The fields of the test results, set from ['test_data']. *)
Definition load_test_data (td : test_data) (t : TestResultsSection)
  : TestResultsSection :=
  let is_five_wire := is_five_wire (resistance td) in
  {| audio_value := audio_raw (audio td);
     vibration_rpm := vibration_rpm_raw (vibration td);
     vibration_value := vibration_raw (vibration td);
     temperature_value := temperature_raw (temperature td);
     resistance_ok_cb := resistance_ok (resistance td);
     res_black_red := black_red (resistance td);
     res_black_white := black_white (resistance td);
     five_wire_cb := is_five_wire;
     res_black_yellow :=
       if is_five_wire then black_yellow (resistance td) else res_black_yellow t;
     res_black_blue :=
       if is_five_wire then black_blue (resistance td) else res_black_blue t;
     audio_images := audio_images t; vibration_images := vibration_images t;
     temperature_images := temperature_images t;
     resistance_images := resistance_images t |}.

(** The branch for [section_info['type'] == 'test']. A component section
    found under the title has none of the test fields, but it has
    [notes_text] and [image_widget]. *)
Definition load_test_section (fs : files) (images_folder : string)
  (info : section_info) (w : section_widget) : section_widget :=
  match w with
  | TestWidget t =>
      match info_test_data info with
      | Some td => TestWidget (load_test_data td t)
      | None => w
      end
  | ComponentWidget s =>
      let s := match info_notes info with
               | Some notes => set_notes_text s notes
               | None => s
               end in
      let s := match info_images info with
               | Some names =>
                   set_image_widget s (load_images fs images_folder (image_widget s) names)
               | None => s
               end in
      ComponentWidget s
  end.

(** The body of [for obs_cb in section.observation_checkboxes[pattern]],
    for the box at index [i]. *)
Definition load_observation_box (fs : files) (images_folder : string)
  (pattern : string) (obs_data : observation_info) (obs : string) (i : nat)
  : @M ComponentSection unit :=
  let* s := get in
  match Dict.get (observation_checkboxes s) pattern with
  | Some boxes =>
      match boxes !! i with
      | Some obs_cb =>
          when (String.eqb (cb_text obs_cb) obs)
            (modify (fun s => set_observation s pattern i true) ;;
             match Dict.get (observation_images obs_data) obs with
             | Some names =>
                 let* s := get in
                 match Dict.get (pattern_image_widgets s) pattern with
                 | None => ret tt
                 | Some (OneWidget _) => raise   (* an upload widget has no [get] *)
                 | Some (WidgetDict d) =>
                     match Dict.get d obs with
                     | Some img_widget =>
                         modify (fun s =>
                           set_pattern_image_widgets s
                             (Dict.set (pattern_image_widgets s) pattern
                                (WidgetDict
                                   (Dict.set d obs
                                      (load_images fs images_folder img_widget names)))))
                     | None => ret tt
                     end
                 end
             | None => ret tt
             end)
      | None => ret tt
      end
  | None => ret tt
  end.

(** The images of the pattern itself. *)
Definition load_pattern_images (fs : files) (images_folder : string)
  (pattern : string) (names : list string) (s : ComponentSection) : ComponentSection :=
  match Dict.get (pattern_image_widgets s) pattern with
  | Some (WidgetDict d) =>
      match Dict.get d PATTERN_LEVEL with
      | Some img_widget =>
          set_pattern_image_widgets s
            (Dict.set (pattern_image_widgets s) pattern
               (WidgetDict
                  (Dict.set d PATTERN_LEVEL
                     (load_images fs images_folder img_widget names))))
      | None => s
      end
  | Some (OneWidget img_widget) =>
      set_pattern_image_widgets s
        (Dict.set (pattern_image_widgets s) pattern
           (OneWidget (load_images fs images_folder img_widget names)))
  | None => s
  end.

(** The body of [for pattern in section_info.get('selected_patterns', [])]. *)
Definition load_pattern (fs : files) (images_folder : string) (info : section_info)
  (pattern : string) : @M ComponentSection unit :=
  let* s := get in
  when (Dict.has (checkboxes s) pattern)
    (modify (fun s => setChecked s pattern true) ;;
     match Dict.get (default [] (info_observations info)) pattern with
     | Some obs_data =>
         for_each (selected obs_data) (fun obs =>
           let* s := get in
           match Dict.get (observation_checkboxes s) pattern with
           | Some boxes =>
               for_each (seq 0 (length boxes))
                 (load_observation_box fs images_folder pattern obs_data obs)
           | None => ret tt
           end) ;;
         match pattern_images obs_data with
         | Some names => modify (load_pattern_images fs images_folder pattern names)
         | None => ret tt
         end
     | None => ret tt
     end).

(** The body of [for custom in section_info.get('custom_patterns', [])]:
    a new entry is added, and filled only from a ['text'] entry. *)
Definition load_custom (fs : files) (images_folder : string) (custom : custom_entry)
  (s : ComponentSection) : ComponentSection :=
  let s := add_custom_pattern s in
  match custom with
  | TextEntry text images =>
      let i := length (custom_patterns s) - 1 in
      match custom_patterns s !! i with
      | Some last_custom =>
          set_custom_patterns s
            (<[i := {| custom_id := custom_id last_custom;
                       text_input := match text_input last_custom with
                                     | Some _ => Some text
                                     | None => None
                                     end;
                       name_input := name_input last_custom;
                       obs_inputs := obs_inputs last_custom;
                       custom_image_widget :=
                         match custom_image_widget last_custom with
                         | Some img_widget =>
                             Some (load_images fs images_folder img_widget images)
                         | None => None
                         end;
                       obs_count := obs_count last_custom |}]> (custom_patterns s))
      | None => s
      end
  | NameEntry _ _ _ => s
  end.

(** The rest of the loop body of [_load_motor_tab], for a section that is
    a [ComponentSection]. *)
Definition load_component_section (fs : files) (images_folder : string)
  (info : section_info) : @M ComponentSection unit :=
  for_each (default [] (info_selected_patterns info))
    (load_pattern fs images_folder info) ;;
  modify (fun s =>
            fold_left (fun s custom => load_custom fs images_folder custom s)
              (default [] (info_custom_patterns info)) s) ;;
  modify (fun s => set_notes_text s (default "" (info_notes info))) ;;
  modify (fun s =>
            set_image_widget s
              (load_images fs images_folder (image_widget s)
                 (default [] (info_images info)))).

(** The same code on the test results, which have no [checkboxes], no
    [add_custom_pattern], no [notes_text] and no [image_widget]: whatever
    reaches one of the first three raises. *)
Definition load_component_on_test (fs : files) (images_folder : string)
  (info : section_info) : @M TestResultsSection unit :=
  match default [] (info_selected_patterns info) with
  | _ :: _ => raise
  | [] =>
      match default [] (info_custom_patterns info) with
      | _ :: _ => raise
      | [] =>
          if existsb (fun img_name => path_exists fs (path_join images_folder img_name))
               (default [] (info_images info))
          then raise else ret tt
      end
  end.

(** The body of [for section_info in sections_data], once the section is
    found. *)
Definition load_section (fs : files) (images_folder : string) (info : section_info)
  : @M section_widget unit :=
  if String.eqb (info_type info) "test" then
    modify (load_test_section fs images_folder info)
  else
    fun w =>
      match w with
      | ComponentWidget s =>
          let '(s', r) := load_component_section fs images_folder info s in
          (ComponentWidget s', r)
      | TestWidget t =>
          let '(t', r) := load_component_on_test fs images_folder info t in
          (TestWidget t', r)
      end.

(** [_load_motor_tab(motor_tab, sections_data, images_folder)] *)
Definition _load_motor_tab (fs : files) (sections_data : list section_info)
  (images_folder : string) : @M MotorTab unit :=
  let* motor_tab := get in
  let section_map := section_map motor_tab in
  for_each sections_data (fun section_info =>
    match Dict.get section_map (info_title section_info) with
    | Some r =>
        zoom (fun m => section_at m r) (fun m w => set_section m r w)
          (load_section fs images_folder section_info)
    | None => ret tt
    end).

(** ** Saving and loading the window *)

(** The type [save_progress] writes for a tab widget. *)
Definition equipment_type_of (w : option equipment) : string :=
  match w with
  | Some (Motor _) => "motor"
  | Some (Coil _) => "coil"
  | Some (Valve _) => "valve"
  | _ => "compressor"
  end.

(** The part of [save_progress] that builds [data], from the tab bar. The
    sections of a compressor, a coil or a valve are outside this model:
    their entries are saved with type and name only. *)
Definition save_progress (app : ReportGeneratorApp) (images_folder : string)
  : @M files data :=
  let* equipment :=
    fold_left (fun acc tab =>
                 let* done := acc in
                 let widget := widgets app !! tab.1 in
                 let* sections :=
                   match widget with
                   | Some (Motor m) => _save_motor_tab m images_folder
                   | _ => ret []
                   end in
                 ret (done ++ [ {| equipment_type := equipment_type_of widget;
                                   equipment_name := tab.2;
                                   sections := sections |} ]))
      (equipment_tabs_widget app) (ret []) in
  ret {| version := "1.0"; data_header := header app; data_equipment := equipment |}.

(** The kind of tab the loaders add for an entry. *)
Definition kind_of_type (t : string) : kind :=
  if String.eqb t "motor" then KMotor
  else if String.eqb t "coil" then KCoil
  else if String.eqb t "valve" then KValve
  else KCompressor.

(** [tab = self.motor_tabs[-1]] and the call of [_load_motor_tab] on it:
    the tab is an object of the store, changed in place. *)
Definition load_last_motor_tab (fs : files) (sections_data : list section_info)
  (images_folder : string) : @M ReportGeneratorApp unit :=
  fun app =>
    match last (motor_tabs app) with
    | Some id =>
        match widgets app !! id with
        | Some (Motor m) =>
            let '(m', r) := _load_motor_tab fs sections_data images_folder m in
            (set_widgets_tabs app (<[id := Motor m']> (widgets app)) (next_widget app)
               (equipment_tabs_widget app), r)
        | _ => (app, None)
        end
    | None => (app, None)
    end.

Section Loading.

(** The loaders of the three other kinds fill widgets that are outside
    this model. What matters to the window is whether such a loader
    returns on an entry or raises, which is left open. *)
Variable other_tab_loads : equipment_data -> bool.

(** The loop over [data.get('equipment', [])]. *)
Definition load_equipment (fs : files) (images_folder : string)
  (equipment : equipment_data) : @M ReportGeneratorApp unit :=
  let k := kind_of_type (equipment_type equipment) in
  modify (fun app => add_tab app k) ;;
  match k with
  | KMotor => load_last_motor_tab fs (sections equipment) images_folder
  | _ => if other_tab_loads equipment then ret tt else raise
  end.

(** What both loaders do once the tabs are cleared: the header fields are
    set and the equipment is loaded. *)
Definition load_data (fs : files) (d : data) (images_folder : string)
  : @M ReportGeneratorApp unit :=
  modify (fun app => set_header app (data_header d)) ;;
  for_each (data_equipment d) (load_equipment fs images_folder).

(** [while self.equipment_tabs_widget.count() > 0: removeTab(0)] *)
Definition clear_tab_bar (app : ReportGeneratorApp) : ReportGeneratorApp :=
  set_widgets_tabs app (widgets app) (next_widget app) [].

(** [load_progress_from_path], from the parsed [data] on. An exception is
    caught at the end of the function; the window stays as it was when the
    exception was raised. *)
Definition load_progress_from_path (fs : files) (d : data) (images_folder : string)
  : @M ReportGeneratorApp unit :=
  modify (fun app =>
            let app := clear_tab_bar app in
            let app := set_kind app KMotor [] 0 in
            let app := set_kind app KCompressor [] 0 in
            let app := set_kind app KCoil [] 0 in
            set_kind app KValve [] 0) ;;
  load_data fs d images_folder.

(** [load_progress], from the parsed [data] on: the same, but for the
    valves, whose list and counter it leaves as they are. *)
Definition load_progress (fs : files) (d : data) (images_folder : string)
  : @M ReportGeneratorApp unit :=
  modify (fun app =>
            let app := clear_tab_bar app in
            let app := set_kind app KMotor [] 0 in
            let app := set_kind app KCompressor [] 0 in
            set_kind app KCoil [] 0) ;;
  load_data fs d images_folder.

End Loading.

End Persistence.

Module PersistenceFacts.
Import Catalog Widgets TestResults App Paths ImageStore Exn Persistence.

(** ** Records to save *)

(** The user works on a section of a motor tab. *)
Definition edit_section (r : section_ref) (evs : list event) (m : MotorTab) : MotorTab :=
  match section_at m r with
  | ComponentWidget s => set_section m r (ComponentWidget (run s evs))
  | TestWidget _ => m
  end.

(** A photo is attached to the audio measurement of the test results. *)
Definition attach_audio_image (p : string) (m : MotorTab) : MotorTab :=
  let t := test_results_section m in
  set_section m test_results
    (TestWidget {| audio_value := audio_value t; vibration_rpm := vibration_rpm t;
             vibration_value := vibration_value t;
             temperature_value := temperature_value t;
             resistance_ok_cb := resistance_ok_cb t;
             res_black_red := res_black_red t; res_black_white := res_black_white t;
             five_wire_cb := five_wire_cb t; res_black_yellow := res_black_yellow t;
             res_black_blue := res_black_blue t;
             audio_images := upload_image (audio_images t) p;
             vibration_images := vibration_images t;
             temperature_images := temperature_images t;
             resistance_images := resistance_images t |}).

(** The change is made to the motor tab at an index of the tab bar. *)
Definition edit_motor (index : nat) (f : MotorTab -> MotorTab)
  (app : ReportGeneratorApp) : ReportGeneratorApp :=
  match equipment_tabs_widget app !! index with
  | Some tab =>
      match widgets app !! tab.1 with
      | Some (Motor m) =>
          set_widgets_tabs app (<[tab.1 := Motor (f m)]> (widgets app))
            (next_widget app) (equipment_tabs_widget app)
      | _ => app
      end
  | None => app
  end.

(** One motor; its drive end bearing has a custom wear pattern with a name
    and one observation. *)
Definition bearing_record : ReportGeneratorApp :=
  edit_motor 0
    (edit_section bearing_de
       [ AddCustom; EditCustom 0 "Scoring";
         EditCustomObservation 0 0 "Deep scoring on the outer race." ])
    (add_motor_tab new_app).

(** One motor; in its housing the status NOT OK is selected with two
    observations, the first with a photo, and there is one custom issue. *)
Definition housing_record : ReportGeneratorApp :=
  edit_motor 0
    (edit_section housing
       [ Click "Status: NOT OK";
         SetObservation "Status: NOT OK" 0 true;
         SetObservation "Status: NOT OK" 1 true;
         UploadPatternImage "Status: NOT OK"
           (Some "Scratches visible on bore surfaces.") "/photos/scratch.png";
         AddCustom; EditCustom 0 "Paint flaking near the nameplate.";
         SetNotes "Unit stored outdoors." ])
    (add_motor_tab new_app).

Definition photos : files :=
  {[ "/photos/scratch.png" := "scratch"; "/photos/meter.png" := "meter" ]}.

(** Save, then load into a new window. *)
Definition save_then_load (loads : equipment_data -> bool) (app : ReportGeneratorApp)
  (fs : files) (images_folder : string) : option ReportGeneratorApp :=
  match save_progress app images_folder fs with
  | (fs', Some d) =>
      match load_progress_from_path loads fs' d images_folder new_app with
      | (app', Some _) => Some app'
      | (_, None) => None
      end
  | (_, None) => None
  end.

(** What a report reads from a component section. *)
Definition component_content (s : ComponentSection)
  : list (string * list (string * list string) * list string)
    * list custom_entry * string * list string :=
  (map (fun pattern =>
          (pattern,
           map (fun obs => (obs, get_observation_images s pattern obs))
             (get_selected_observations s pattern),
           get_pattern_images s pattern))
     (get_selected_patterns s),
   get_custom_patterns s, get_notes s, get_images s).

(** One motor with both: the custom wear pattern of the drive end bearing
    and the photo of the audio measurement. *)
Definition bearing_audio_record : ReportGeneratorApp :=
  edit_motor 0 (attach_audio_image "/photos/meter.png") bearing_record.

(** The custom wear patterns of the drive end bearing and the photos of
    the audio measurement, of the motor on the first tab. *)
Definition bearing_customs (app : ReportGeneratorApp) : option (list custom_entry) :=
  m ← motor_at app 0; Some (get_custom_patterns (bearing_de_section m)).

Definition audio_photos (app : ReportGeneratorApp) : option (list string) :=
  m ← motor_at app 0;
  Some (audio_image_paths (audio (get_test_data (test_results_section m)))).

Definition housing_content (app : ReportGeneratorApp) :=
  m ← motor_at app 0; Some (component_content (housing_section m)).

(** ** Save, then load *)

(** A motor housing with the status NOT OK, two observations, a photo on
    the first of them, a custom issue and notes comes back as it was, the
    photo now under the images folder. *)
Lemma housing_record_round_trips (loads : equipment_data -> bool) :
  housing_content housing_record
  = Some ([("Status: NOT OK",
            [("Scratches visible on bore surfaces.", ["/photos/scratch.png"]);
             ("Grooves present on mounting surfaces.", [])], [])],
          [TextEntry "Paint flaking near the nameplate." []],
          "Unit stored outdoors.", []) /\
  (app ← save_then_load loads housing_record photos "/proj/images";
   housing_content app)
  = Some ([("Status: NOT OK",
            [("Scratches visible on bore surfaces.", ["/proj/images/scratch.png"]);
             ("Grooves present on mounting surfaces.", [])], [])],
          [TextEntry "Paint flaking near the nameplate." []],
          "Unit stored outdoors.", []).
Proof. split; vm_compute; reflexivity. Qed.

(** C4: save then load does not give the record back. A custom wear
    pattern of a bearing section, saved with its name and observations,
    is gone after loading, and so is a photo attached to a measurement of
    the test results, although the load itself ends without an error. *)
Theorem save_then_load_loses_named_custom_pattern (loads : equipment_data -> bool) :
  bearing_customs bearing_audio_record
  = Some [NameEntry "Scoring" ["Deep scoring on the outer race."] []] /\
  audio_photos bearing_audio_record = Some ["/photos/meter.png"] /\
  is_Some (save_then_load loads bearing_audio_record photos "/proj/images") /\
  (app ← save_then_load loads bearing_audio_record photos "/proj/images";
   bearing_customs app) = Some [] /\
  (app ← save_then_load loads bearing_audio_record photos "/proj/images";
   audio_photos app) = Some [].
Proof.
  split; [vm_compute; reflexivity|]. split; [vm_compute; reflexivity|].
  split; [vm_compute; eauto|]. split; vm_compute; reflexivity.
Qed.

End PersistenceFacts.

Module AppFacts.
Import Catalog Widgets TestResults App Paths ImageStore Exn Persistence.

(** ** Reading the tab bar *)

Lemma of_kind_app {A} ws k (f : nat * string -> equipment -> A) l1 l2 :
  of_kind ws k f (l1 ++ l2) = of_kind ws k f l1 ++ of_kind ws k f l2.
Proof. unfold of_kind. apply omap_app. Qed.

Lemma of_kind_cons {A} ws k (f : nat * string -> equipment -> A) tab l :
  of_kind ws k f (tab :: l) =
  match ws !! tab.1 with
  | Some w => if decide (kind_of w = k) then f tab w :: of_kind ws k f l
              else of_kind ws k f l
  | None => of_kind ws k f l
  end.
Proof.
  unfold of_kind. simpl. destruct (ws !! tab.1) as [w|]; [|reflexivity].
  now destruct (decide _).
Qed.

Lemma of_kind_length {A B} ws k (f : nat * string -> equipment -> A)
  (g : nat * string -> equipment -> B) l :
  length (of_kind ws k f l) = length (of_kind ws k g l).
Proof.
  induction l as [|tab l IH]; [reflexivity|]. rewrite !of_kind_cons.
  destruct (ws !! tab.1) as [w|]; [|exact IH].
  destruct (decide (kind_of w = k)); simpl; [f_equal|]; exact IH.
Qed.

(** An object that is not on the tab bar does not matter. *)
Lemma of_kind_insert_fresh {A} ws k (f : nat * string -> equipment -> A) l id w :
  id ∉ l.*1 -> of_kind (<[id := w]> ws) k f l = of_kind ws k f l.
Proof.
  induction l as [|tab l IH]; [reflexivity|]. intros Hid.
  rewrite fmap_cons, not_elem_of_cons in Hid. destruct Hid as [Hne Hid].
  rewrite !of_kind_cons, lookup_insert_ne by congruence.
  rewrite (IH Hid). reflexivity.
Qed.

Lemma of_kind_singleton {A} ws k (f : nat * string -> equipment -> A) tab w :
  ws !! tab.1 = Some w ->
  of_kind ws k f [tab] = if decide (kind_of w = k) then [f tab w] else [].
Proof. intros H. rewrite of_kind_cons, H. reflexivity. Qed.

(** Only the identities on the tab bar and the kinds of the objects
    matter to the list of identities of a kind. *)
Lemma of_kind_ids ws ws' k l l' :
  l.*1 = l'.*1 ->
  (forall id, kind_of <$> ws' !! id = kind_of <$> ws !! id) ->
  of_kind ws' k (fun tab _ => tab.1) l' = of_kind ws k (fun tab _ => tab.1) l.
Proof.
  intros Hl Hk. revert l' Hl. induction l as [|tab l IH]; intros [|tab' l'] Hl;
    try discriminate; [reflexivity|].
  rewrite !fmap_cons in Hl. injection Hl as Hid Hl.
  rewrite !of_kind_cons, <- Hid. specialize (Hk tab.1).
  rewrite (IH l' Hl).
  destruct (ws' !! tab.1) as [w'|], (ws !! tab.1) as [w|]; simpl in Hk;
    try discriminate; [|reflexivity].
  injection Hk as Hk. rewrite Hk. now destruct (decide _).
Qed.

(** ** The list and the counter of a kind *)

Lemma tabs_of_set_kind app k l c k' :
  tabs_of (set_kind app k l c) k' = if decide (k' = k) then l else tabs_of app k'.
Proof. destruct k, k'; reflexivity. Qed.

Lemma count_of_set_kind app k l c k' :
  count_of (set_kind app k l c) k' = if decide (k' = k) then c else count_of app k'.
Proof. destruct k, k'; reflexivity. Qed.

Lemma kind_of_new_equipment k n : kind_of (new_equipment k n) = k.
Proof. now destruct k. Qed.

Lemma number_of_new_equipment k n : number_of (new_equipment k n) = n.
Proof. now destruct k. Qed.

Lemma kind_of_set_number w n : kind_of (set_number w n) = kind_of w.
Proof. now destruct w. Qed.

Lemma number_of_set_number w n : number_of (set_number w n) = n.
Proof. now destruct w. Qed.

(** ** The window is consistent *)

(** The identities of the tabs of a kind, in the order of the tab bar. *)
Definition kind_ids (app : ReportGeneratorApp) (k : kind) : list nat :=
  of_kind (widgets app) k (fun tab _ => tab.1) (equipment_tabs_widget app).

Record consistent (app : ReportGeneratorApp) : Prop := {
  widgets_below : forall id, is_Some (widgets app !! id) -> id < next_widget app;
  tabs_alive : forall id, id ∈ (equipment_tabs_widget app).*1 ->
                 is_Some (widgets app !! id);
  tabs_nodup : NoDup (equipment_tabs_widget app).*1;
  lists_agree : forall k, tabs_of app k = kind_ids app k;
  counts_agree : forall k, count_of app k = length (tabs_of app k)
}.

Lemma new_app_consistent : consistent new_app.
Proof.
  split; simpl.
  - intros id [w Hw]. now rewrite lookup_empty in Hw.
  - intros id Hid. now apply elem_of_nil in Hid.
  - constructor.
  - now intros [].
  - now intros [].
Qed.

Lemma new_app_dense : dense new_app.
Proof. intros k. split; reflexivity. Qed.

Lemma ordinals_length app k : length (ordinals app k) = length (kind_ids app k).
Proof. apply of_kind_length. Qed.

(** ** Adding a tab *)

Lemma add_tab_consistent app k : consistent app -> consistent (add_tab app k).
Proof.
  intros [Hbelow Halive Hnodup Hlists Hcounts].
  assert (Hfresh : next_widget app ∉ (equipment_tabs_widget app).*1).
  { intros Hin. apply Halive, Hbelow in Hin. lia. }
  split; unfold add_tab; simpl.
  - intros id [w Hw]. destruct (decide (id = next_widget app)) as [->|Hne]; [lia|].
    rewrite lookup_insert_ne in Hw by congruence.
    specialize (Hbelow id (ex_intro _ w Hw)). lia.
  - intros id Hid. rewrite fmap_app, elem_of_app in Hid. destruct Hid as [Hid|Hid].
    + destruct (decide (id = next_widget app)) as [->|Hne].
      * rewrite lookup_insert_eq. eauto.
      * rewrite lookup_insert_ne by congruence. now apply Halive.
    + simpl in Hid. apply list_elem_of_singleton in Hid. subst id.
      rewrite lookup_insert_eq. eauto.
  - rewrite fmap_app. apply NoDup_app. split; [exact Hnodup|]. split.
    + intros id Hid Hin. simpl in Hin. apply list_elem_of_singleton in Hin. now subst.
    + simpl. apply NoDup_singleton.
  - intros k'. unfold kind_ids. simpl.
    change (tabs_of (set_widgets_tabs ?a _ _ _) k') with (tabs_of a k').
    rewrite tabs_of_set_kind, of_kind_app.
    rewrite (of_kind_insert_fresh _ _ _ (equipment_tabs_widget app)) by exact Hfresh.
    rewrite (of_kind_singleton _ _ _ _ (new_equipment k (S (count_of app k))))
      by apply lookup_insert_eq.
    rewrite kind_of_new_equipment. fold (kind_ids app k'). rewrite <- Hlists.
    destruct (decide (k' = k)) as [->|Hne].
    + now rewrite decide_True.
    + rewrite decide_False by congruence. now rewrite app_nil_r.
  - intros k'.
    change (count_of (set_widgets_tabs ?a _ _ _) k') with (count_of a k').
    change (tabs_of (set_widgets_tabs ?a _ _ _) k') with (tabs_of a k').
    rewrite tabs_of_set_kind, count_of_set_kind.
    destruct (decide (k' = k)) as [->|Hne]; [|apply Hcounts].
    rewrite length_app, Hcounts. simpl. lia.
Qed.

Lemma add_tab_dense app k : consistent app -> dense app -> dense (add_tab app k).
Proof.
  intros [Hbelow Halive Hnodup Hlists Hcounts] Hdense k'.
  assert (Hfresh : next_widget app ∉ (equipment_tabs_widget app).*1).
  { intros Hin. apply Halive, Hbelow in Hin. lia. }
  destruct (Hdense k') as [Hord Htxt].
  assert (Hlen : count_of app k' = length (ordinals app k')).
  { now rewrite Hcounts, Hlists, ordinals_length. }
  unfold ordinals, tab_texts, add_tab in *. simpl.
  rewrite !of_kind_app.
  rewrite !(of_kind_insert_fresh _ _ _ (equipment_tabs_widget app)) by exact Hfresh.
  rewrite !(of_kind_singleton _ _ _ _ (new_equipment k (S (count_of app k))))
    by apply lookup_insert_eq.
  rewrite kind_of_new_equipment, number_of_new_equipment.
  set (ns := of_kind (widgets app) k' (fun _ w => number_of w)
               (equipment_tabs_widget app)) in *.
  destruct (decide (k = k')) as [->|Hne].
  - simpl. rewrite length_app, map_app, <- Htxt. simpl. split; [|reflexivity].
    rewrite Nat.add_1_r, seq_S, <- Hord. do 2 f_equal. lia.
  - rewrite !app_nil_r. split; assumption.
Qed.

(** ** The renumbering loop *)

Lemma of_kind_ids_on_bar ws k l id :
  id ∈ of_kind ws k (fun tab _ => tab.1) l -> id ∈ l.*1.
Proof.
  induction l as [|tab l IH]; [intros H; now apply elem_of_nil in H|].
  rewrite of_kind_cons, fmap_cons.
  destruct (ws !! tab.1) as [w|]; [destruct (decide _)|]; rewrite ?elem_of_cons;
    intros H; try (right; apply IH; exact H).
  destruct H as [->|H]; [now left | right; apply IH; exact H].
Qed.

(** Replacing an object by one of the same kind, which reads the same. *)
Lemma of_kind_insert_same {A} ws k (f : nat * string -> equipment -> A) l id w w' :
  ws !! id = Some w -> kind_of w' = kind_of w -> (forall tab, f tab w' = f tab w) ->
  of_kind (<[id := w']> ws) k f l = of_kind ws k f l.
Proof.
  intros Hw Hk Hf. induction l as [|tab l IH]; [reflexivity|].
  rewrite !of_kind_cons, IH. destruct (decide (tab.1 = id)) as [->|Hne].
  - rewrite lookup_insert_eq, Hw, Hk, Hf. reflexivity.
  - rewrite lookup_insert_ne by congruence. reflexivity.
Qed.

(** What the loop has done after some of the tabs: they are numbered
    from 1, and the index of a kind is the number its next tab gets. *)
Definition numbered (ws : gmap nat equipment) (done : list (nat * string))
  (idx : kind -> nat) : Prop :=
  forall k,
    of_kind ws k (fun _ w => number_of w) done = seq 1 (idx k - 1) /\
    1 <= idx k /\
    of_kind ws k (fun tab _ => tab.2) done =
    map (tab_title k) (of_kind ws k (fun _ w => number_of w) done).

Lemma numbered_step ws done idx tab :
  tab.1 ∉ done.*1 -> numbered ws done idx ->
  let '(ws1, done1, idx1) := renumber_step (ws, done, idx) tab in
  done1.*1 = done.*1 ++ [tab.1] /\
  (forall id, kind_of <$> ws1 !! id = kind_of <$> ws !! id) /\
  numbered ws1 done1 idx1.
Proof.
  intros Hfresh Hnum. unfold renumber_step.
  destruct (ws !! tab.1) as [w|] eqn:Hw.
  - split; [now rewrite fmap_app|]. split.
    + intros id. destruct (decide (id = tab.1)) as [->|Hne].
      * rewrite lookup_insert_eq, Hw. simpl. now rewrite kind_of_set_number.
      * rewrite lookup_insert_ne by congruence. reflexivity.
    + intros k. destruct (Hnum k) as (Hord & Hpos & Htxt).
      rewrite !of_kind_app.
      rewrite !(of_kind_insert_fresh _ _ _ done) by exact Hfresh.
      rewrite !(of_kind_singleton _ _ _ _ (set_number w (idx (kind_of w))))
        by apply lookup_insert_eq.
      rewrite kind_of_set_number, number_of_set_number. unfold next_index.
      destruct (decide (kind_of w = k)) as [<-|Hne].
      * rewrite decide_True by reflexivity. simpl.
        rewrite map_app, <- Htxt. simpl. split; [|split; [lia|reflexivity]].
        rewrite Hord, Nat.sub_0_r.
        replace (idx (kind_of w)) with (S (idx (kind_of w) - 1)) at 2 3 by lia.
        rewrite seq_S. reflexivity.
      * rewrite decide_False by congruence. rewrite !app_nil_r. auto.
  - split; [now rewrite fmap_app|]. split; [reflexivity|].
    intros k. destruct (Hnum k) as (Hord & Hpos & Htxt).
    rewrite !of_kind_app, !(of_kind_cons _ _ _ tab), Hw. simpl.
    rewrite !app_nil_r. auto.
Qed.

Lemma renumber_loop rest : forall ws done idx,
  NoDup (done.*1 ++ rest.*1) -> numbered ws done idx ->
  exists ws' tabs' idx',
    fold_left renumber_step rest (ws, done, idx) = (ws', tabs', idx') /\
    tabs'.*1 = done.*1 ++ rest.*1 /\
    (forall id, kind_of <$> ws' !! id = kind_of <$> ws !! id) /\
    numbered ws' tabs' idx'.
Proof.
  induction rest as [|tab rest IH]; intros ws done idx Hnodup Hnum.
  - exists ws, done, idx. rewrite app_nil_r. auto.
  - rewrite fmap_cons in Hnodup.
    assert (Hfresh : tab.1 ∉ done.*1).
    { apply NoDup_app in Hnodup as (_ & Hdis & _). intros Hin.
      apply (Hdis _ Hin). now left. }
    pose proof (numbered_step ws done idx tab Hfresh Hnum) as Hstep.
    cbn [fold_left].
    destruct (renumber_step (ws, done, idx) tab) as [[ws1 done1] idx1].
    destruct Hstep as (Hids & Hkinds & Hnum1).
    destruct (IH ws1 done1 idx1) as (ws' & tabs' & idx' & E & Hids' & Hkinds' & Hnum');
      [|exact Hnum1|].
    { rewrite Hids, <- app_assoc. exact Hnodup. }
    exists ws', tabs', idx'. split; [exact E|]. split; [|split; [|exact Hnum']].
    + rewrite Hids', Hids, <- app_assoc. reflexivity.
    + intros id. now rewrite Hkinds', Hkinds.
Qed.

Lemma numbered_dense ws tabs idx k :
  numbered ws tabs idx ->
  of_kind ws k (fun _ w => number_of w) tabs =
  seq 1 (length (of_kind ws k (fun _ w => number_of w) tabs)) /\
  of_kind ws k (fun tab _ => tab.2) tabs =
  map (tab_title k) (of_kind ws k (fun _ w => number_of w) tabs).
Proof.
  intros Hnum. destruct (Hnum k) as (Hord & _ & Htxt). split; [|exact Htxt].
  rewrite Hord at 2. rewrite length_seq. exact Hord.
Qed.

Lemma renumber_correct app :
  consistent app -> consistent (renumber app) /\ dense (renumber app).
Proof.
  intros [Hbelow Halive Hnodup Hlists Hcounts]. unfold renumber.
  destruct (renumber_loop (equipment_tabs_widget app) (widgets app) [] (fun _ => 1))
    as (ws' & tabs' & idx' & E & Hids & Hkinds & Hnum).
  { exact Hnodup. }
  { intros k. repeat split. lia. }
  rewrite E. simpl in Hids.
  assert (Hsome : forall id, is_Some (ws' !! id) <-> is_Some (widgets app !! id)).
  { intros id. rewrite <- !fmap_is_Some with (f := kind_of). now rewrite Hkinds. }
  split; [split; simpl|].
  - intros id Hid. apply Hbelow, Hsome, Hid.
  - intros id Hid. rewrite Hids in Hid. apply Hsome, Halive, Hid.
  - now rewrite Hids.
  - intros k. change (tabs_of (set_widgets_tabs ?a _ _ _) k) with (tabs_of a k).
    rewrite Hlists. unfold kind_ids. simpl. symmetry.
    apply of_kind_ids; [now symmetry|exact Hkinds].
  - exact Hcounts.
  - intros k. unfold ordinals, tab_texts. simpl. eapply numbered_dense, Hnum.
Qed.

(** ** Removing a tab *)

Lemma list_remove_middle id l1 l2 :
  id ∉ l1 -> list_remove id (l1 ++ id :: l2) = Some (l1 ++ l2).
Proof.
  induction l1 as [|y l1 IH]; intros Hid; simpl.
  - now rewrite decide_True.
  - rewrite not_elem_of_cons in Hid. destruct Hid as [Hne Hid].
    rewrite decide_False by congruence. now rewrite IH.
Qed.

(** [removeTab(index)] does nothing when there is no tab at the index. *)
Lemma delete_beyond {A} (l : list A) i : length l <= i -> delete i l = l.
Proof.
  intros H. rewrite delete_take_drop, take_ge, drop_ge by lia. apply app_nil_r.
Qed.

Lemma remove_equipment_tab_correct app index :
  consistent app ->
  exists app', remove_equipment_tab app index true = Some app' /\
               consistent app' /\ dense app'.
Proof.
  intros Hc. pose proof Hc as [Hbelow Halive Hnodup Hlists Hcounts].
  unfold remove_equipment_tab.
  destruct (equipment_tabs_widget app !! index) as [[id txt]|] eqn:Htab.
  - assert (Hsplit : equipment_tabs_widget app =
                     take index (equipment_tabs_widget app) ++
                     (id, txt) :: drop (S index) (equipment_tabs_widget app)).
    { now rewrite <- (take_drop_middle _ _ _ Htab) at 1. }
    assert (Hdel : delete index (equipment_tabs_widget app) =
                   take index (equipment_tabs_widget app) ++
                   drop (S index) (equipment_tabs_widget app)).
    { apply delete_take_drop. }
    set (l1 := take index (equipment_tabs_widget app)) in *.
    set (l2 := drop (S index) (equipment_tabs_widget app)) in *.
    destruct (Halive id) as [w Hw].
    { rewrite Hsplit, fmap_app, fmap_cons, elem_of_app. right. now left. }
    cbn [widgets set_widgets_tabs]. rewrite Hw.
    change (tabs_of (set_widgets_tabs ?a _ _ _) ?k) with (tabs_of a k).
    rewrite Hsplit, fmap_app, fmap_cons in Hnodup.
    assert (Hlist : tabs_of app (kind_of w) =
                    of_kind (widgets app) (kind_of w) (fun tab _ => tab.1) l1 ++
                    id :: of_kind (widgets app) (kind_of w) (fun tab _ => tab.1) l2).
    { rewrite Hlists. unfold kind_ids. rewrite Hsplit at 1.
      rewrite of_kind_app, of_kind_cons. simpl. rewrite Hw.
      now rewrite decide_True. }
    rewrite Hlist, list_remove_middle.
    2:{ intros Hin. apply of_kind_ids_on_bar in Hin.
        apply NoDup_app in Hnodup as (_ & Hdis & _). apply (Hdis _ Hin). now left. }
    eexists. split; [reflexivity|]. apply renumber_correct.
    split.
    + exact Hbelow.
    + intros id'. cbn [equipment_tabs_widget set_kind set_widgets_tabs widgets].
      rewrite Hdel. intros Hin. apply Halive. rewrite Hsplit.
      rewrite fmap_app, elem_of_app in Hin. rewrite fmap_app, fmap_cons, elem_of_app.
      destruct Hin as [Hin|Hin]; [now left | right; now right].
    + cbn [equipment_tabs_widget set_kind set_widgets_tabs]. rewrite Hdel, fmap_app.
      apply NoDup_app in Hnodup as (Hn1 & Hdis & Hn2). apply NoDup_cons in Hn2 as [_ Hn2].
      apply NoDup_app. split; [exact Hn1|]. split; [|exact Hn2].
      intros x Hx Hx2. apply (Hdis x Hx). now right.
    + intros k. rewrite tabs_of_set_kind. unfold kind_ids.
      cbn [equipment_tabs_widget set_kind set_widgets_tabs widgets].
      rewrite Hdel, of_kind_app.
      destruct (decide (k = kind_of w)) as [->|Hne]; [reflexivity|].
      change (tabs_of (set_widgets_tabs ?a _ _ _) ?k) with (tabs_of a k).
      rewrite Hlists. unfold kind_ids. rewrite Hsplit at 1.
      rewrite of_kind_app, of_kind_cons. simpl. rewrite Hw.
      now rewrite decide_False by congruence.
    + intros k. rewrite tabs_of_set_kind, count_of_set_kind.
      destruct (decide (k = kind_of w)); [reflexivity|]. apply Hcounts.
  - eexists. split; [reflexivity|]. apply renumber_correct.
    apply lookup_ge_None in Htab.
    split; cbn [equipment_tabs_widget set_widgets_tabs widgets next_widget];
      rewrite ?delete_beyond by exact Htab; assumption.
Qed.

Lemma remove_equipment_tab_declined app index :
  remove_equipment_tab app index false = Some app.
Proof. reflexivity. Qed.

(** ** Loading *)

(** What holds of the state before a loop and is kept by its body holds
    after it, whether the loop ends or raises. *)
Lemma for_each_state {S A : Type} (I : S -> Prop) (body : A -> @M S unit) l :
  (forall a s, I s -> I (body a s).1) ->
  forall s, I s -> I (for_each l body s).1.
Proof.
  intros Hbody. induction l as [|a l IH]; intros s Hs; [exact Hs|].
  cbn [for_each]. unfold bind. specialize (Hbody a s Hs).
  destruct (body a s) as [s' [[]|]]; simpl in *; [apply IH|]; exact Hbody.
Qed.

Lemma set_section_number m r w : motor_number (set_section m r w) = motor_number m.
Proof. destruct r, w; reflexivity. Qed.

(** Loading a motor tab leaves its number alone. *)
Lemma load_motor_tab_number fs sections_data images_folder m :
  motor_number (_load_motor_tab fs sections_data images_folder m).1 = motor_number m.
Proof.
  unfold _load_motor_tab, bind, get.
  apply (for_each_state (fun m' => motor_number m' = motor_number m));
    [|reflexivity].
  intros info m' Hm'. destruct (Dict.get _ _) as [r|]; [|exact Hm'].
  unfold zoom. destruct (load_section _ _ _ _) as [w res]. simpl.
  now rewrite set_section_number.
Qed.

Definition sound (app : ReportGeneratorApp) : Prop := consistent app /\ dense app.

(** An object of the store is changed in place, keeping kind and number. *)
Lemma update_widget_sound app id w w' :
  widgets app !! id = Some w -> kind_of w' = kind_of w ->
  number_of w' = number_of w -> sound app ->
  sound (set_widgets_tabs app (<[id := w']> (widgets app)) (next_widget app)
           (equipment_tabs_widget app)).
Proof.
  intros Hw Hk Hn [[Hbelow Halive Hnodup Hlists Hcounts] Hdense].
  assert (Hsome : forall id', is_Some (<[id := w']> (widgets app) !! id') <->
                              is_Some (widgets app !! id')).
  { intros id'. destruct (decide (id' = id)) as [->|Hne].
    - rewrite lookup_insert_eq, Hw. split; eauto.
    - now rewrite lookup_insert_ne by congruence. }
  split; [split; simpl|].
  - intros id' Hid'. apply Hbelow, Hsome, Hid'.
  - intros id' Hid'. apply Hsome, Halive, Hid'.
  - exact Hnodup.
  - intros k. change (tabs_of (set_widgets_tabs ?a _ _ _) k) with (tabs_of a k).
    rewrite Hlists. unfold kind_ids. simpl. symmetry.
    now apply (of_kind_insert_same _ _ _ _ _ w).
  - exact Hcounts.
  - intros k. destruct (Hdense k) as [Hord Htxt]. unfold ordinals, tab_texts in *.
    simpl.
    rewrite (of_kind_insert_same _ _ (fun _ w => number_of w) _ _ w w') by auto.
    rewrite (of_kind_insert_same _ _ (fun tab _ => tab.2) _ _ w w') by auto.
    split; assumption.
Qed.

Lemma add_tab_sound app k : sound app -> sound (add_tab app k).
Proof.
  intros [Hc Hd]. split; [now apply add_tab_consistent | now apply add_tab_dense].
Qed.

Lemma load_last_motor_tab_sound fs sections_data images_folder app :
  sound app -> sound (load_last_motor_tab fs sections_data images_folder app).1.
Proof.
  intros Hs. unfold load_last_motor_tab.
  destruct (last (motor_tabs app)) as [id|]; [|exact Hs].
  destruct (widgets app !! id) as [[m| | |]|] eqn:Hw; try exact Hs.
  pose proof (load_motor_tab_number fs sections_data images_folder m) as Hnum.
  destruct (_load_motor_tab _ _ _ m) as [m' res]. simpl in *.
  now apply (update_widget_sound app id (Motor m)).
Qed.

Section Loading.
Variable other_tab_loads : equipment_data -> bool.

Lemma load_equipment_sound fs images_folder equipment app :
  sound app ->
  sound (load_equipment other_tab_loads fs images_folder equipment app).1.
Proof.
  intros Hs. unfold load_equipment, bind, modify.
  apply (add_tab_sound _ (kind_of_type (equipment_type equipment))) in Hs.
  destruct (kind_of_type _); try (destruct (other_tab_loads _); exact Hs).
  now apply load_last_motor_tab_sound.
Qed.

Lemma load_data_sound fs d images_folder app :
  sound app -> sound (load_data other_tab_loads fs d images_folder app).1.
Proof.
  intros Hs. unfold load_data, bind, modify.
  apply (for_each_state sound); [intros; now apply load_equipment_sound|].
  destruct Hs as [[Hbelow Halive Hnodup Hlists Hcounts] Hdense].
  split; [split|]; assumption.
Qed.

(** Opening a file gives a consistent window with dense ordinals, whatever
    the window held before. *)
Lemma load_progress_from_path_sound fs d images_folder app :
  (forall id, is_Some (widgets app !! id) -> id < next_widget app) ->
  sound (load_progress_from_path other_tab_loads fs d images_folder app).1.
Proof.
  intros Hbelow. unfold load_progress_from_path, bind, modify.
  apply load_data_sound. split; [split; simpl|].
  - exact Hbelow.
  - intros id Hid. now apply elem_of_nil in Hid.
  - constructor.
  - now intros [].
  - now intros [].
  - intros k. split; reflexivity.
Qed.

(** ** Sequences of operations *)

Inductive operation : Type :=
| AddUnit (k : kind)
| RemoveUnit (index : nat) (reply_yes : bool)
| OpenFile (fs : files) (d : data) (images_folder : string).

Definition perform (app : ReportGeneratorApp) (op : operation) : ReportGeneratorApp :=
  match op with
  | AddUnit k => add_tab app k
  | RemoveUnit index reply_yes =>
      default app (remove_equipment_tab app index reply_yes)
  | OpenFile fs d images_folder =>
      (load_progress_from_path other_tab_loads fs d images_folder app).1
  end.

Lemma perform_sound app op : sound app -> sound (perform app op).
Proof.
  intros Hs. destruct op as [k|index [|]|fs d images_folder]; cbn [perform].
  - now apply add_tab_sound.
  - destruct (remove_equipment_tab_correct app index (proj1 Hs))
      as (app' & -> & Hc & Hd). now split.
  - exact Hs.
  - apply load_progress_from_path_sound, Hs.
Qed.

(** X1: from a new window, every sequence of adding units, removing
    units (whatever the index and the answer) and opening files with
    [load_progress_from_path] keeps the numbers of the units of every
    kind, and the texts of their tabs, equal to 1, 2, ..., N in the order
    of the tab bar. *)
Lemma operations_keep_ordinals_dense (ops : list operation) :
  dense (fold_left perform ops new_app).
Proof.
  assert (H : forall app, sound app -> sound (fold_left perform ops app)).
  { induction ops as [|op ops IH]; intros app Hs; [exact Hs|].
    simpl. apply IH, perform_sound, Hs. }
  apply H. split; [apply new_app_consistent | apply new_app_dense].
Qed.

End Loading.

(** ** The Load Progress button *)

(** One valve. *)
Definition valve_record : ReportGeneratorApp := add_valve_tab new_app.

Definition valve_file : data :=
  {| version := "1.0"; data_header := empty_header;
     data_equipment :=
       [ {| equipment_type := "valve"; equipment_name := "Valve 1"; sections := [] |} ] |}.

Lemma save_valve_record :
  save_progress valve_record "/proj/images" ∅ = (∅, Some valve_file).
Proof. vm_compute. reflexivity. Qed.

(** C8: the ordinals do not stay dense under every load. A window with
    one valve is saved and the file is loaded with [load_progress], which
    clears the tab bar but not the valve counter: the one valve is then
    numbered 2 and its tab reads "Valve 2". [load_progress_from_path] on
    the same file numbers it 1. *)
Theorem load_progress_keeps_valve_counter (loads : equipment_data -> bool) :
  match save_progress valve_record "/proj/images" ∅ with
  | (fs, Some d) =>
      let reloaded := (load_progress loads fs d "/proj/images" valve_record).1 in
      let reopened :=
        (load_progress_from_path loads fs d "/proj/images" valve_record).1 in
      ordinals valve_record KValve = [1] /\
      tab_texts valve_record KValve = ["Valve 1"] /\
      ordinals reloaded KValve = [2] /\
      tab_texts reloaded KValve = ["Valve 2"] /\
      ~ dense reloaded /\
      ordinals reopened KValve = [1] /\
      tab_texts reopened KValve = ["Valve 1"]
  | _ => False
  end.
Proof.
  rewrite save_valve_record.
  unfold load_progress, load_progress_from_path, load_data, valve_file.
  cbn [data_equipment data_header for_each].
  unfold Exn.bind, modify, load_equipment, ret, raise.
  cbn [equipment_type kind_of_type String.eqb Ascii.eqb Bool.eqb].
  assert (Hgap : forall app, ordinals app KValve = [2] -> ~ dense app).
  { intros app Hord Hdense. destruct (Hdense KValve) as [Hseq _].
    rewrite Hord in Hseq. discriminate. }
  destruct (loads _); cbn [fst];
    repeat match goal with
           | |- _ /\ _ => split
           | |- ~ dense _ => apply Hgap
           end; vm_compute; reflexivity.
Qed.

End AppFacts.

Module SaveFacts.
Import Catalog Widgets TestResults App Paths ImageStore Exn Exn.Notations Persistence.

(** ** Saving always returns *)

(** The code returns, from every state. *)
Definition returns {S A : Type} (m : @M S A) : Prop :=
  forall s, exists s' a, m s = (s', Some a).

Lemma returns_ret {S A : Type} (a : A) : returns (@ret S A a).
Proof. intros s. exists s, a. reflexivity. Qed.

Lemma returns_bind {S A B : Type} (m : @M S A) (f : A -> @M S B) :
  returns m -> (forall a, returns (f a)) -> returns (bind m f).
Proof.
  intros Hm Hf s. destruct (Hm s) as (s1 & a & E). unfold bind. rewrite E.
  apply Hf.
Qed.

Lemma returns_fold_left {S A B : Type} (step : @M S B -> A -> @M S B) l :
  (forall acc x, returns acc -> returns (step acc x)) ->
  forall init, returns init -> returns (fold_left step l init).
Proof.
  intros Hstep. induction l as [|x l IH]; intros init Hinit; [exact Hinit|].
  simpl. apply IH, Hstep, Hinit.
Qed.

Lemma _copy_images_returns image_paths dest_folder :
  returns (_copy_images image_paths dest_folder).
Proof.
  intros fs. unfold _copy_images.
  destruct (ImageStoreFacts.copy_images_total fs image_paths dest_folder)
    as (fs' & names & E & _).
  rewrite E. eauto.
Qed.

Lemma save_pattern_returns section images_folder pattern :
  returns (save_pattern section images_folder pattern).
Proof.
  unfold save_pattern. apply returns_bind.
  - destruct (Dict.mem _ _); [|apply returns_ret].
    apply returns_fold_left; [|apply returns_ret].
    intros acc obs Hacc. apply returns_bind; [exact Hacc|]. intros d.
    destruct (get_observation_images _ _ _); [apply returns_ret|].
    apply returns_bind; [apply _copy_images_returns|]. intros; apply returns_ret.
  - intros images. apply returns_bind; [|intros; apply returns_ret].
    destruct (get_pattern_images _ _); [apply returns_ret|].
    apply returns_bind; [apply _copy_images_returns|]. intros; apply returns_ret.
Qed.

Lemma save_component_section_returns section section_type images_folder :
  returns (save_component_section section section_type images_folder).
Proof.
  unfold save_component_section.
  apply returns_bind; [apply _copy_images_returns|]. intros images.
  apply returns_bind; [|intros; apply returns_ret].
  apply returns_fold_left; [|apply returns_ret].
  intros acc pattern Hacc. apply returns_bind; [exact Hacc|]. intros d.
  apply returns_bind; [apply save_pattern_returns|]. intros; apply returns_ret.
Qed.

Lemma _save_motor_tab_returns motor_tab images_folder :
  returns (_save_motor_tab motor_tab images_folder).
Proof.
  unfold _save_motor_tab. apply returns_fold_left; [|apply returns_ret].
  intros acc [r section_type] Hacc. apply returns_bind; [exact Hacc|]. intros done.
  apply returns_bind; [|intros; apply returns_ret].
  destruct (section_at motor_tab r);
    [apply save_component_section_returns | apply returns_ret].
Qed.

(** [save_progress] builds its data for every window and file system. *)
Lemma save_progress_returns app images_folder :
  returns (save_progress app images_folder).
Proof.
  unfold save_progress. apply returns_bind; [|intros; apply returns_ret].
  apply returns_fold_left; [|apply returns_ret].
  intros acc tab Hacc. apply returns_bind; [exact Hacc|]. intros done.
  apply returns_bind; [|intros; apply returns_ret].
  destruct (widgets app !! tab.1) as [[m| | |]|]; try apply returns_ret.
  apply _save_motor_tab_returns.
Qed.

End SaveFacts.

(* ===================================================================== *)
(** * More on the sections: containers and custom entries *)
(* ===================================================================== *)

Module SectionFacts.
Import Catalog Widgets WidgetFacts.

(** ** A pattern's container is shown exactly when its box is checked *)

Definition containers_follow (s : ComponentSection) : Prop :=
  observation_containers s = checkboxes s.

Lemma has_get {V} (d : list (string * V)) k :
  Dict.has d k = match Dict.get d k with Some _ => true | None => false end.
Proof. reflexivity. Qed.

(** Setting the box and the container of a pattern to the same state. *)
Lemma follow_set s p b :
  containers_follow s -> is_Some (Dict.get (checkboxes s) p) ->
  containers_follow
    (set_visible (set_checkboxes s (Dict.set (checkboxes s) p b)) p b).
Proof.
  unfold containers_follow, set_visible. intros H [cur Hp].
  cbn [observation_containers set_checkboxes checkboxes].
  rewrite has_get, H, Hp.
  cbn [observation_containers set_observation_containers set_checkboxes checkboxes].
  reflexivity.
Qed.

Lemma uncheck_follow s p : containers_follow s -> containers_follow (uncheck s p).
Proof.
  intros H. unfold uncheck.
  destruct (Dict.get (checkboxes s) p) as [[|]|] eqn:Hp; try exact H.
  apply follow_set; [exact H | eauto].
Qed.

Lemma setChecked_follow s p b : containers_follow s -> containers_follow (setChecked s p b).
Proof.
  intros H. unfold setChecked.
  destruct (Dict.get (checkboxes s) p) as [cur|] eqn:Hp; [|exact H].
  destruct (Bool.eqb cur b); [exact H|].
  assert (Hset : containers_follow
            (set_visible (set_checkboxes s (Dict.set (checkboxes s) p b)) p b)).
  { apply follow_set; [exact H | eauto]. }
  assert (Hstate : ((if b then 2 else 0) =? 2) = b) by now destruct b.
  destruct (status_wired s p).
  - unfold toggle_status_checkbox. rewrite Hstate.
    destruct b; [|exact Hset].
    destruct (_ && _); [now apply uncheck_follow|].
    destruct (_ && _); [now apply uncheck_follow | exact Hset].
  - unfold toggle_pattern_section. now rewrite Hstate.
Qed.

Lemma apply_event_follow s e : containers_follow s -> containers_follow (apply_event s e).
Proof.
  intros H. destruct e; cbn [apply_event];
    try (now apply setChecked_follow); try exact H.
  - unfold click. destruct (Dict.get _ _); [now apply setChecked_follow | exact H].
  - unfold set_observation. destruct (Dict.get _ _) as [boxes|]; [|exact H].
    destruct (boxes !! i); exact H.
  - unfold upload_pattern_image.
    destruct (Dict.get _ _) as [[w|d]|], key as [k|]; try exact H.
    destruct (Dict.get d k); exact H.
  - unfold add_custom_pattern. destruct (Dict.mem _ _); exact H.
  - unfold edit_custom. destruct (_ !! _); exact H.
  - unfold edit_custom_observation. destruct (_ !! _); exact H.
  - unfold add_another_observation. destruct (_ !! _); exact H.
  - unfold upload_custom_image. destruct (_ !! _); exact H.
Qed.

Lemma containers_init_pattern s e :
  observation_containers (init_pattern s e)
  = Dict.set (observation_containers s) (fst e) false.
Proof.
  destruct e as [pn pd]. unfold init_pattern.
  assert (Hfold : forall subs s0,
    observation_containers (fold_left (fun s sub_obs =>
        match Dict.get (pattern_image_widgets s) pn with
        | Some (WidgetDict d) =>
            set_pattern_image_widgets s
              (Dict.set (pattern_image_widgets s) pn
                 (WidgetDict (Dict.set d sub_obs no_images)))
        | _ => s
        end) subs s0) = observation_containers s0).
  { induction subs as [|x subs IH]; intros s0; [reflexivity|].
    simpl. rewrite IH. cases_in_goal; reflexivity. }
  cbv zeta. cases_in_goal; simpl; rewrite ?Hfold; reflexivity.
Qed.

Lemma init_pattern_follow s e : containers_follow s -> containers_follow (init_pattern s e).
Proof.
  unfold containers_follow. intros H.
  now rewrite checkboxes_init_pattern, containers_init_pattern, H.
Qed.

Lemma new_section_follow ttl cat : containers_follow (new_ComponentSection ttl cat).
Proof.
  unfold new_ComponentSection.
  set (s0 := {| title := ttl; wear_patterns := cat; checkboxes := [];
                pattern_image_widgets := []; observation_checkboxes := [];
                observation_containers := []; custom_patterns := []; notes_text := "";
                image_widget := no_images |}).
  assert (H0 : containers_follow s0) by reflexivity.
  revert H0. generalize s0. induction cat as [|e cat IH]; intros s H; [exact H|].
  simpl. apply IH, init_pattern_follow, H.
Qed.

(** X2: in every state a section reaches, the container of a pattern
    (its observation boxes and image widget) is shown exactly when the
    box of the pattern is checked, also when the box was cleared by the
    other status box. *)
Theorem containers_shown_iff_checked (ttl : string) (cat : catalog) (evs : list event)
  (p : string) :
  let s := run (new_ComponentSection ttl cat) evs in
  Dict.get (observation_containers s) p = Dict.get (checkboxes s) p.
Proof.
  intros s. assert (H : containers_follow s); [|now rewrite H].
  unfold s, run. generalize (new_section_follow ttl cat).
  generalize (new_ComponentSection ttl cat).
  induction evs as [|e evs IH]; intros s0 H0; [exact H0|].
  simpl. apply IH, apply_event_follow, H0.
Qed.

(** ** The ids of the custom entries *)

Definition custom_ids (s : ComponentSection) : list nat :=
  map custom_id (custom_patterns s).

Lemma custom_ids_add s :
  custom_ids (add_custom_pattern s) = custom_ids s ++ [length (custom_patterns s)].
Proof.
  unfold custom_ids, add_custom_pattern.
  destruct (Dict.mem (title s) inline_issue_titles); cbn [custom_patterns set_custom_patterns].
  - now rewrite map_app.
  - set (new := {| custom_id := length (custom_patterns s); text_input := None;
                   name_input := Some ""; obs_inputs := [];
                   custom_image_widget := Some no_images; obs_count := 1 |}).
    rewrite (lookup_app_r (custom_patterns s) [new]) by lia.
    rewrite Nat.sub_diag. cbn [lookup list_lookup].
    rewrite insert_app_r_alt by lia. rewrite Nat.sub_diag.
    now rewrite map_app.
Qed.

Lemma custom_ids_delete s i :
  custom_ids (delete_custom_pattern s i) = filter (fun k => k <> i) (custom_ids s).
Proof.
  unfold custom_ids, delete_custom_pattern. cbn [custom_patterns set_custom_patterns].
  induction (custom_patterns s) as [|cp l IH]; [reflexivity|].
  cbn [map]. rewrite !filter_cons.
  destruct (decide (custom_id cp <> i)); cbn [map]; now rewrite IH.
Qed.

Lemma filter_ne_all (l : list nat) i : i ∉ l -> filter (fun k => k <> i) l = l.
Proof.
  induction l as [|x l IH]; [reflexivity|]. rewrite not_elem_of_cons. intros [Hne Hl].
  rewrite filter_cons, decide_True by congruence. now rewrite IH.
Qed.

Lemma filter_ne_seq n i :
  i < n -> filter (fun k => k <> i) (seq 0 n) = seq 0 i ++ seq (S i) (n - S i).
Proof.
  intros Hi. replace n with (i + S (n - S i)) at 1 by lia.
  rewrite seq_app. cbn [seq Nat.add]. rewrite filter_app, filter_cons.
  rewrite decide_False by (intros H; now apply H).
  rewrite !filter_ne_all; [reflexivity| |]; rewrite elem_of_seq; lia.
Qed.

Lemma custom_ids_length s : length (custom_ids s) = length (custom_patterns s).
Proof. apply length_map. Qed.

(** As long as entries are only added, the ids are 0, 1, 2, ... *)
Lemma custom_ids_added s n :
  custom_patterns s = [] -> custom_ids (Nat.iter n add_custom_pattern s) = seq 0 n.
Proof.
  intros Hs. induction n as [|n IH].
  - cbn [Nat.iter nat_rect]. unfold custom_ids. now rewrite Hs.
  - cbn [Nat.iter nat_rect]. fold (Nat.iter n add_custom_pattern s).
    rewrite custom_ids_add, seq_S, <- custom_ids_length, IH, length_seq.
    reflexivity.
Qed.

(** X3: the id of a new custom entry is the length of the list. After an
    entry other than the last is deleted and a new one is added, the new
    entry has the id of the entry that was last, and deleting by that id
    removes both. *)
Theorem custom_ids_collide (s : ComponentSection) (n i : nat) :
  custom_ids s = seq 0 n -> i + 1 < n ->
  let s1 := add_custom_pattern (delete_custom_pattern s i) in
  custom_ids s1 = seq 0 i ++ seq (S i) (n - S i) ++ [n - 1] /\
  length (custom_patterns s1) = n /\
  length (custom_patterns (delete_custom_pattern s1 (n - 1))) = n - 2.
Proof.
  intros Hids Hi s1.
  assert (Hdel : custom_ids (delete_custom_pattern s i)
                 = seq 0 i ++ seq (S i) (n - S i)).
  { rewrite custom_ids_delete, Hids. apply filter_ne_seq. lia. }
  assert (Hlen : length (custom_patterns (delete_custom_pattern s i)) = n - 1).
  { rewrite <- custom_ids_length, Hdel, length_app, !length_seq. lia. }
  assert (H1 : custom_ids s1 = seq 0 i ++ seq (S i) (n - S i) ++ [n - 1]).
  { unfold s1. rewrite custom_ids_add, Hdel, Hlen. now rewrite <- app_assoc. }
  split; [exact H1|]. split.
  - rewrite <- custom_ids_length, H1, !length_app, !length_seq. simpl. lia.
  - rewrite <- custom_ids_length, custom_ids_delete, H1, !filter_app.
    rewrite (filter_ne_all (seq 0 i)) by (rewrite elem_of_seq; lia).
    replace (n - S i) with ((n - S i - 1) + 1) by lia.
    rewrite seq_app, filter_app.
    rewrite (filter_ne_all (seq (S i) _)) by (rewrite elem_of_seq; lia).
    replace (S i + (n - S i - 1)) with (n - 1) by lia.
    cbn [seq]. rewrite !filter_cons, filter_nil.
    rewrite !decide_False by (intros H; now apply H).
    rewrite !length_app, !length_seq. simpl. lia.
Qed.

Lemma custom_ids_collide_witness :
  let s := Nat.iter 2 add_custom_pattern
             (new_ComponentSection "Drive End Bearing" BEARING_WEAR_PATTERNS) in
  custom_ids (add_custom_pattern (delete_custom_pattern s 0)) = [1; 1] /\
  custom_patterns
    (delete_custom_pattern (add_custom_pattern (delete_custom_pattern s 0)) 1) = [].
Proof.
  intros s.
  assert (Hids : custom_ids s = seq 0 2) by (vm_compute; reflexivity).
  assert (Hi : 0 + 1 < 2) by lia.
  destruct (custom_ids_collide s 2 0 Hids Hi) as (H1 & _ & H2).
  split; [exact H1|].
  apply length_zero_iff_nil. exact H2.
Defined.

End SectionFacts.

(* ===================================================================== *)
(** * The update check: comparing versions (UpdateChecker) *)
(* ===================================================================== *)

Module Update.
Import Text.

(** [s.split('.')] on the characters of [s]: there is always at least one
    part. *)
Fixpoint split_dot (l : list ascii) : list (list ascii) :=
  match l with
  | [] => [[]]
  | c :: l' =>
      if is_dot c then [] :: split_dot l'
      else match split_dot l' with
           | part :: parts => (c :: part) :: parts
           | [] => [[c]]
           end
  end.

Definition split (s : string) : list string := map text (split_dot (chars s)).

(** The digits of [int(x)], where single underscores may stand between
    digits. *)
Fixpoint int_digits (l : list ascii) (acc : Z) (after_digit : bool) : option Z :=
  match l with
  | [] => if after_digit then Some acc else None
  | c :: l' =>
      if is_digit c then int_digits l' (10 * acc + Numeric.digit_value c) true
      else if ascii_dec c "_" then
        if after_digit then
          match l' with
          | d :: _ => if is_digit d then int_digits l' acc false else None
          | [] => None
          end
        else None
      else None
  end.

(** [int(x)] for a text of ASCII characters: white space around, a sign,
    decimal digits. [None] stands for [ValueError]. *)
Definition py_int (x : string) : option Z :=
  match chars (strip x) with
  | [] => None
  | c :: l =>
      if ascii_dec c "-" then option_map Z.opp (int_digits l 0 false)
      else if ascii_dec c "+" then int_digits l 0 false
      else int_digits (c :: l) 0 false
  end.

(** [a > b] on lists of integers. *)
Fixpoint list_gt (a b : list Z) : bool :=
  match a, b with
  | x :: a', y :: b' => if Z.eqb x y then list_gt a' b' else Z.ltb y x
  | _ :: _, [] => true
  | [], _ => false
  end.

(** [while len(parts) < 3: parts.append(0)] *)
Definition pad (parts : list Z) : list Z := parts ++ repeat 0%Z (3 - length parts).

Section Compare.

(** The conversion [int]. The comparison is written for any conversion;
    [py_int] is the one of the interpreter on ASCII text. *)
Variable int : string -> option Z.

(** [[int(x) for x in s.split('.')]]: the first failure ends it. *)
Definition int_parts (s : string) : option (list Z) := mapM int (split s).

(** [_is_newer_version(latest, current)]: any exception gives [False]. *)
Definition _is_newer_version (latest current : string) : bool :=
  match int_parts latest with
  | Some latest_parts =>
      match int_parts current with
      | Some current_parts => list_gt (pad latest_parts) (pad current_parts)
      | None => false
      end
  | None => false
  end.

End Compare.

End Update.

Module UpdateFacts.
Import Text Update TextFacts PathFacts.

Lemma list_gt_irrefl a : list_gt a a = false.
Proof. induction a as [|x a IH]; [reflexivity|]. simpl. now rewrite Z.eqb_refl. Qed.

Lemma list_gt_asym a b : list_gt a b = true -> list_gt b a = false.
Proof.
  revert b. induction a as [|x a IH]; intros [|y b]; simpl; try congruence.
  rewrite (Z.eqb_sym y x). destruct (Z.eqb_spec x y) as [->|Hne]; [apply IH|].
  rewrite !Z.ltb_lt, Z.ltb_ge. lia.
Qed.

Lemma list_gt_trans a b c :
  list_gt a b = true -> list_gt b c = true -> list_gt a c = true.
Proof.
  revert b c. induction a as [|x a IH]; intros [|y b] [|z c]; simpl; try congruence.
  destruct (Z.eqb_spec x y) as [->|Hxy].
  - destruct (Z.eqb_spec y z) as [->|Hyz]; [apply IH | auto].
  - destruct (Z.eqb_spec y z) as [->|Hyz].
    + rewrite (proj2 (Z.eqb_neq x z)) by exact Hxy. auto.
    + rewrite !Z.ltb_lt. intros H1 H2.
      destruct (Z.eqb_spec x z) as [->|Hxz]; [lia|]. rewrite Z.ltb_lt. lia.
Qed.

Lemma list_gt_total a b : list_gt a b = false -> list_gt b a = false -> a = b.
Proof.
  revert b. induction a as [|x a IH]; intros [|y b]; simpl; try congruence.
  rewrite (Z.eqb_sym y x). destruct (Z.eqb_spec x y) as [->|Hne].
  - intros H1 H2. f_equal. now apply IH.
  - rewrite !Z.ltb_ge. lia.
Qed.

Lemma list_gt_longer a x r : list_gt (a ++ x :: r) a = true.
Proof. induction a as [|y a IH]; [reflexivity|]. simpl. now rewrite Z.eqb_refl. Qed.

Lemma pad_inj a b : 3 <= length a -> 3 <= length b -> pad a = pad b -> a = b.
Proof.
  unfold pad. intros Ha Hb.
  replace (3 - length a) with 0 by lia. replace (3 - length b) with 0 by lia.
  simpl. now rewrite !app_nil_r.
Qed.

Section Compare.
Variable int : string -> option Z.

(** X4: the version comparison is a strict order: no version is newer
    than itself, of two versions at most one is newer than the other, and
    newer than newer is newer. A version with a part that is no integer is
    newer than nothing, and nothing is newer than it. *)
Theorem is_newer_version_strict_order (a b c : string) :
  _is_newer_version int a a = false /\
  (_is_newer_version int a b = true -> _is_newer_version int b a = false) /\
  (_is_newer_version int a b = true -> _is_newer_version int b c = true ->
   _is_newer_version int a c = true) /\
  (int_parts int a = None ->
   _is_newer_version int a b = false /\ _is_newer_version int b a = false).
Proof.
  unfold _is_newer_version.
  destruct (int_parts int a) as [pa|], (int_parts int b) as [pb|],
    (int_parts int c) as [pc|]; repeat split; try congruence;
    try apply list_gt_irrefl; try apply list_gt_asym; try apply list_gt_trans.
Qed.

(** ** A trailing zero *)

Lemma split_dot_nonempty l : split_dot l <> [].
Proof.
  destruct l as [|c l]; simpl; [discriminate|].
  destruct (is_dot c); [discriminate|]. destruct (split_dot l); discriminate.
Qed.

Lemma split_dot_app a b :
  split_dot (a ++ "."%char :: b) = split_dot a ++ split_dot b.
Proof.
  induction a as [|c a IH]; [reflexivity|]. simpl. rewrite IH.
  destruct (is_dot c); [reflexivity|].
  pose proof (split_dot_nonempty a) as Hne.
  destruct (split_dot a) as [|part parts]; [congruence|reflexivity].
Qed.

Lemma split_trailing_zero v : split (v +:+ ".0") = split v ++ ["0"].
Proof.
  unfold split. rewrite chars_app.
  change (chars ".0") with ("."%char :: chars "0").
  rewrite split_dot_app, map_app. reflexivity.
Qed.

Lemma mapM_snoc {A B} (f : A -> option B) l x :
  mapM f (l ++ [x]) =
  match mapM f l, f x with
  | Some k, Some y => Some (k ++ [y])
  | _, _ => None
  end.
Proof.
  induction l as [|a l IH]; simpl.
  - destruct (f x); reflexivity.
  - destruct (f a) as [b|]; simpl; [|reflexivity]. rewrite IH.
    destruct (mapM f l), (f x); reflexivity.
Qed.

Lemma int_parts_length s parts : int_parts int s = Some parts ->
  length parts = length (split s).
Proof.
  unfold int_parts. intros H. apply mapM_Some in H.
  symmetry. eapply Forall2_length, H.
Qed.

Lemma pad_trailing_zero parts : length parts < 3 -> pad (parts ++ [0%Z]) = pad parts.
Proof.
  unfold pad. intros H. rewrite length_app, <- app_assoc. simpl. f_equal.
  replace (3 - length parts) with (S (3 - (length parts + 1))) by lia.
  reflexivity.
Qed.

(** X5: with fewer than three parts a trailing ".0" changes nothing, as
    the parts are filled with zeros up to three: "1.2" and "1.2.0" are the
    same version. From three parts on the lists are compared as they are,
    so a version with ".0" appended is newer than the version itself. *)
Theorem trailing_zero_part (v : string) :
  int "0" = Some 0%Z ->
  (length (split v) < 3 ->
   forall c, _is_newer_version int (v +:+ ".0") c = _is_newer_version int v c /\
             _is_newer_version int c (v +:+ ".0") = _is_newer_version int c v) /\
  (3 <= length (split v) -> is_Some (int_parts int v) ->
   _is_newer_version int (v +:+ ".0") v = true /\
   _is_newer_version int v (v +:+ ".0") = false).
Proof.
  intros Hzero.
  assert (Hparts : int_parts int (v +:+ ".0") =
                   match int_parts int v with
                   | Some k => Some (k ++ [0%Z])
                   | None => None
                   end).
  { unfold int_parts. rewrite split_trailing_zero, mapM_snoc, Hzero.
    now destruct (mapM int (split v)). }
  split.
  - intros Hlen c. unfold _is_newer_version. rewrite Hparts.
    destruct (int_parts int v) as [k|] eqn:Hk.
    + rewrite pad_trailing_zero by (rewrite (int_parts_length v k Hk); exact Hlen).
      split; reflexivity.
    + split; [reflexivity|]. now destruct (int_parts int c).
  - intros Hlen [k Hk]. unfold _is_newer_version. rewrite Hparts, Hk.
    pose proof (int_parts_length v k Hk) as Hl.
    assert (Hpad : pad k = k).
    { unfold pad. replace (3 - length k) with 0 by lia. apply app_nil_r. }
    assert (Hpad' : pad (k ++ [0%Z]) = k ++ [0%Z]).
    { unfold pad. rewrite length_app. replace (3 - _) with 0 by (simpl; lia).
      apply app_nil_r. }
    rewrite Hpad, Hpad'. split; [apply list_gt_longer|].
    apply list_gt_asym, list_gt_longer.
Qed.

End Compare.

Lemma trailing_zero_part_witness :
  _is_newer_version py_int "1.2.0" "1.2" = false /\
  _is_newer_version py_int "1.2" "1.2.0" = false /\
  _is_newer_version py_int "1.2.0.0" "1.2.0" = true.
Proof.
  assert (Hzero : py_int "0" = Some 0%Z) by reflexivity.
  destruct (trailing_zero_part py_int "1.2" Hzero) as [Hshort _].
  destruct (trailing_zero_part py_int "1.2.0" Hzero) as [_ Hlong].
  assert (H2 : length (split "1.2") < 3) by (vm_compute; lia).
  assert (H3 : 3 <= length (split "1.2.0")) by (vm_compute; lia).
  assert (Hs : is_Some (int_parts py_int "1.2.0")) by (vm_compute; eauto).
  destruct (Hshort H2 "1.2") as [Ha Hb].
  destruct (Hlong H3 Hs) as [Hc _].
  split; [|split].
  - change ("1.2.0") with ("1.2" +:+ ".0"). rewrite Ha. reflexivity.
  - change ("1.2.0") with ("1.2" +:+ ".0"). rewrite Hb. reflexivity.
  - exact Hc.
Defined.

End UpdateFacts.

(* ===================================================================== *)
(** * The image upload widget (ImageUploadWidget) *)
(* ===================================================================== *)

Module ImageWidget.
Import Text Widgets ImageStore Persistence.

(** [upload_images]: the files chosen in the dialog, each added when new. *)
Definition upload_images (w : ImageUploadWidget) (files : list string)
  : ImageUploadWidget :=
  fold_left upload_image files w.

(** [l.remove(x)]: the first occurrence goes. *)
Fixpoint remove_first (x : string) (l : list string) : list string :=
  match l with
  | [] => []
  | y :: l' => if String.eqb y x then l' else y :: remove_first x l'
  end.

(** [remove_image(img_path, thumb_widget)] *)
Definition remove_image (w : ImageUploadWidget) (img_path : string) : ImageUploadWidget :=
  if Dict.mem img_path (image_paths w)
  then {| image_paths := remove_first img_path (image_paths w) |}
  else w.

(** [clear_images] *)
Definition clear_images (w : ImageUploadWidget) : ImageUploadWidget := no_images.

(** [c.lower()] for an ASCII character. *)
Definition lower (c : ascii) : ascii :=
  let n := nat_of_ascii c in
  if (65 <=? n) && (n <=? 90) then ascii_of_nat (n + 32) else c.

(** [s.endswith(suffix)] on characters. *)
Definition ends_with (l suffix : list ascii) : bool :=
  bool_decide (drop (length l - length suffix) l = suffix).

Definition image_suffixes : list string := [".png"; ".jpg"; ".jpeg"; ".bmp"; ".gif"].

(** [file_path.lower().endswith(('.png', '.jpg', '.jpeg', '.bmp', '.gif'))] *)
Definition is_image_file (file_path : string) : bool :=
  existsb (fun suffix => ends_with (map lower (chars file_path)) (chars suffix))
    image_suffixes.

(** [dropEvent], for the local files of the dropped urls: an image file
    that is new and exists is added. Without urls the event is ignored. *)
Definition dropEvent (fs : files) (w : ImageUploadWidget) (urls : list string)
  : ImageUploadWidget :=
  fold_left (fun w file_path =>
               if is_image_file file_path then
                 if negb (Dict.mem file_path (image_paths w)) && path_exists fs file_path
                 then {| image_paths := image_paths w ++ [file_path] |}
                 else w
               else w)
    urls w.

(** What happens to a widget. *)
Inductive image_event : Type :=
| UploadImages (files : list string)
| AddImage (fs : files) (img_path : string)
| RemoveImage (img_path : string)
| ClearImages
| Drop (fs : files) (urls : list string).

Definition apply_image_event (w : ImageUploadWidget) (e : image_event)
  : ImageUploadWidget :=
  match e with
  | UploadImages files => upload_images w files
  | AddImage fs img_path => add_image (path_exists fs) w img_path
  | RemoveImage img_path => remove_image w img_path
  | ClearImages => clear_images w
  | Drop fs urls => dropEvent fs w urls
  end.

End ImageWidget.

Module ImageWidgetFacts.
Import Text Widgets ImageStore Persistence ImageWidget.

Lemma mem_elem_of x l : Dict.mem x l = true <-> x ∈ l.
Proof.
  unfold Dict.mem. rewrite existsb_exists. split.
  - intros (y & Hy & E). apply String.eqb_eq in E. subst. now apply list_elem_of_In.
  - intros H. exists x. split; [now apply list_elem_of_In | apply String.eqb_refl].
Qed.

Lemma mem_not_elem_of x l : Dict.mem x l = false <-> x ∉ l.
Proof. rewrite <- mem_elem_of. now destruct (Dict.mem x l). Qed.

Lemma NoDup_snoc (l : list string) x : NoDup l -> x ∉ l -> NoDup (l ++ [x]).
Proof.
  intros Hl Hx. apply NoDup_app. split; [exact Hl|]. split.
  - intros y Hy Hin. apply list_elem_of_singleton in Hin. now subst.
  - apply NoDup_singleton.
Qed.

Lemma upload_image_nodup w p : NoDup (image_paths w) -> NoDup (image_paths (upload_image w p)).
Proof.
  intros H. unfold upload_image. destruct (Dict.mem p (image_paths w)) eqn:E; [exact H|].
  simpl. apply NoDup_snoc; [exact H | now apply mem_not_elem_of].
Qed.

Lemma add_image_nodup ex w p : NoDup (image_paths w) -> NoDup (image_paths (add_image ex w p)).
Proof.
  intros H. unfold add_image. destruct (Dict.mem p (image_paths w)) eqn:E; [exact H|].
  simpl. destruct (ex p); [|exact H].
  simpl. apply NoDup_snoc; [exact H | now apply mem_not_elem_of].
Qed.

Lemma remove_first_elem_of x y l : y ∈ remove_first x l -> y ∈ l.
Proof.
  induction l as [|z l IH]; [easy|]. simpl.
  destruct (String.eqb z x); rewrite ?elem_of_cons; [now right|].
  intros [->|H]; [now left | right; now apply IH].
Qed.

Lemma remove_first_nodup x l : NoDup l -> NoDup (remove_first x l) /\ x ∉ remove_first x l.
Proof.
  induction 1 as [|z l Hz Hl [IH1 IH2]]; simpl.
  - split; [constructor | apply not_elem_of_nil].
  - destruct (String.eqb_spec z x) as [->|Hne]; [now split|].
    split.
    + constructor; [|exact IH1]. intros Hin. apply Hz. eapply remove_first_elem_of, Hin.
    + rewrite not_elem_of_cons. split; [congruence | exact IH2].
Qed.

Lemma fold_nodup {A} (f : ImageUploadWidget -> A -> ImageUploadWidget) l :
  (forall w a, NoDup (image_paths w) -> NoDup (image_paths (f w a))) ->
  forall w, NoDup (image_paths w) -> NoDup (image_paths (fold_left f l w)).
Proof.
  intros Hf. induction l as [|a l IH]; intros w Hw; [exact Hw|].
  simpl. apply IH, Hf, Hw.
Qed.

Lemma apply_image_event_nodup w e :
  NoDup (image_paths w) -> NoDup (image_paths (apply_image_event w e)).
Proof.
  intros H. destruct e as [files|fs p|p| |fs urls]; cbn [apply_image_event].
  - apply fold_nodup; [apply upload_image_nodup | exact H].
  - now apply add_image_nodup.
  - unfold remove_image. destruct (Dict.mem _ _); [|exact H].
    simpl. now apply remove_first_nodup.
  - constructor.
  - apply fold_nodup; [|exact H]. intros w' p Hw'.
    destruct (is_image_file p); [|exact Hw'].
    destruct (Dict.mem p (image_paths w')) eqn:E; [exact Hw'|]. simpl.
    destruct (path_exists fs p); [|exact Hw']. simpl.
    apply NoDup_snoc; [exact Hw' | now apply mem_not_elem_of].
Qed.

(** X6: whatever is uploaded, dropped, added, removed or cleared, in any
    order, the widget never holds a path twice; and once a path is removed
    it is no longer held. *)
Theorem image_paths_never_repeat (evs : list image_event) (p : string) :
  let w := fold_left apply_image_event evs no_images in
  NoDup (image_paths w) /\ p ∉ image_paths (remove_image w p).
Proof.
  intros w.
  assert (H : NoDup (image_paths w)).
  { unfold w. generalize (NoDup_nil_2 (A := string)).
    change [] with (image_paths no_images). generalize no_images.
    induction evs as [|e evs IH]; intros w0 H0; [exact H0|].
    simpl. apply IH, apply_image_event_nodup, H0. }
  split; [exact H|]. unfold remove_image.
  destruct (Dict.mem p (image_paths w)) eqn:E.
  - simpl. now apply remove_first_nodup.
  - now apply mem_not_elem_of.
Qed.

(** X7: after a drop the widget holds what it held and, of the dropped
    files, those with an image suffix (in any letter case) that exist;
    nothing else is added, and no such file is left out. *)
Theorem drop_adds_existing_images (fs : files) (w : ImageUploadWidget)
  (urls : list string) (p : string) :
  p ∈ image_paths (dropEvent fs w urls) <->
  p ∈ image_paths w \/
  (p ∈ urls /\ is_image_file p = true /\ path_exists fs p = true).
Proof.
  unfold dropEvent. revert w. induction urls as [|u urls IH]; intros w.
  - simpl. split; [now left|]. intros [H|(H & _)]; [exact H|]. now apply elem_of_nil in H.
  - cbn [fold_left]. rewrite IH. rewrite elem_of_cons.
    destruct (is_image_file u) eqn:Ei.
    + destruct (Dict.mem u (image_paths w)) eqn:Em; simpl.
      * apply mem_elem_of in Em. split.
        -- intros [H|(H & Hi & He)]; [now left | right; auto].
        -- intros [H|([->|H] & Hi & He)]; [now left | now left | right; auto].
      * destruct (path_exists fs u) eqn:Ee; simpl.
        -- rewrite elem_of_app, list_elem_of_singleton. split.
           ++ intros [[H| ->]|(H & Hi & He)]; [now left | right; auto | right; auto].
           ++ intros [H|([->|H] & Hi & He)]; [left; now left | left; now right | right; auto].
        -- split.
           ++ intros [H|(H & Hi & He)]; [now left | right; auto].
           ++ intros [H|([->|H] & Hi & He)]; [now left | congruence | right; auto].
    + split.
      * intros [H|(H & Hi & He)]; [now left | right; auto].
      * intros [H|([->|H] & Hi & He)]; [now left | congruence | right; auto].
Qed.

End ImageWidgetFacts.

(* ===================================================================== *)
(** * Coils: pressure testing, saving and loading (CoilTab) *)
(* ===================================================================== *)

Module Coil.
Import Catalog Widgets ImageStore Paths Exn Exn.Notations Persistence.

Definition COIL_VISUAL_INSPECTION_PATTERNS : catalog :=
  [ ("Status: OK", plain
      [ "Evaporator coil inspected and found to be in acceptable condition with no significant issues observed." ]);
    ("Status: NOT OK", issues
      [ "Corrosion visible on fins or tubes.";
        "Corrosion visible on sheet metal.";
        "Bent or damaged fins observed.";
        "Heavy dirt and debris accumulation present.";
        "Evidence of refrigerant leak detected.";
        "Ice formation observed on coil surfaces.";
        "Blocked airflow passages evident.";
        "Coil casing damage visible.";
        "Insulation deterioration noted.";
        "Fin spacing irregular or compressed.";
        "Tube damage or deformation observed.";
        "Biological growth (mold/mildew) present.";
        "Excessive oil residue on coil surfaces." ]) ].

(** ** PressureTestingSection *)

(** The check boxes, the two containers of the leak locations and the two
    image widgets with their visibility, the notes and the images of the
    section ([image_widget] in the source). *)
Record PressureTestingSection : Type := {
  psi_250_leak_cb : bool;
  psi_250_leak_face_cb : bool;
  psi_250_leak_ubends_cb : bool;
  psi_250_no_leak_cb : bool;
  psi_250_leak_location_container : bool;
  psi_250_image_widget_visible : bool;
  psi_250_image_widget : ImageUploadWidget;
  psi_500_leak_cb : bool;
  psi_500_leak_face_cb : bool;
  psi_500_leak_ubends_cb : bool;
  psi_500_no_leak_cb : bool;
  psi_500_not_performed_cb : bool;
  psi_500_leak_location_container : bool;
  psi_500_image_widget_visible : bool;
  psi_500_image_widget : ImageUploadWidget;
  notes_field : string;
  general_image_widget : ImageUploadWidget
}.

(** [PressureTestingSection()] *)
Definition new_PressureTestingSection : PressureTestingSection :=
  {| psi_250_leak_cb := false; psi_250_leak_face_cb := false;
     psi_250_leak_ubends_cb := false; psi_250_no_leak_cb := false;
     psi_250_leak_location_container := false;
     psi_250_image_widget_visible := false; psi_250_image_widget := no_images;
     psi_500_leak_cb := false; psi_500_leak_face_cb := false;
     psi_500_leak_ubends_cb := false; psi_500_no_leak_cb := false;
     psi_500_not_performed_cb := false;
     psi_500_leak_location_container := false;
     psi_500_image_widget_visible := false; psi_500_image_widget := no_images;
     notes_field := ""; general_image_widget := no_images |}.

Inductive pressure_box : Type :=
| psi_250_leak
| psi_250_leak_face
| psi_250_leak_ubends
| psi_250_no_leak
| psi_500_leak
| psi_500_leak_face
| psi_500_leak_ubends
| psi_500_no_leak
| psi_500_not_performed.

Definition isChecked (s : PressureTestingSection) (box : pressure_box) : bool :=
  match box with
  | psi_250_leak => psi_250_leak_cb s
  | psi_250_leak_face => psi_250_leak_face_cb s
  | psi_250_leak_ubends => psi_250_leak_ubends_cb s
  | psi_250_no_leak => psi_250_no_leak_cb s
  | psi_500_leak => psi_500_leak_cb s
  | psi_500_leak_face => psi_500_leak_face_cb s
  | psi_500_leak_ubends => psi_500_leak_ubends_cb s
  | psi_500_no_leak => psi_500_no_leak_cb s
  | psi_500_not_performed => psi_500_not_performed_cb s
  end.

(** The state of a box is written, with no signal. *)
Definition set_box (s : PressureTestingSection) (box : pressure_box) (b : bool)
  : PressureTestingSection :=
  match box with
  | psi_250_leak =>
      {| psi_250_leak_cb := b; psi_250_leak_face_cb := psi_250_leak_face_cb s;
         psi_250_leak_ubends_cb := psi_250_leak_ubends_cb s;
         psi_250_no_leak_cb := psi_250_no_leak_cb s;
         psi_250_leak_location_container := psi_250_leak_location_container s;
         psi_250_image_widget_visible := psi_250_image_widget_visible s;
         psi_250_image_widget := psi_250_image_widget s;
         psi_500_leak_cb := psi_500_leak_cb s;
         psi_500_leak_face_cb := psi_500_leak_face_cb s;
         psi_500_leak_ubends_cb := psi_500_leak_ubends_cb s;
         psi_500_no_leak_cb := psi_500_no_leak_cb s;
         psi_500_not_performed_cb := psi_500_not_performed_cb s;
         psi_500_leak_location_container := psi_500_leak_location_container s;
         psi_500_image_widget_visible := psi_500_image_widget_visible s;
         psi_500_image_widget := psi_500_image_widget s;
         notes_field := notes_field s;
         general_image_widget := general_image_widget s |}
  | psi_250_leak_face =>
      {| psi_250_leak_cb := psi_250_leak_cb s; psi_250_leak_face_cb := b;
         psi_250_leak_ubends_cb := psi_250_leak_ubends_cb s;
         psi_250_no_leak_cb := psi_250_no_leak_cb s;
         psi_250_leak_location_container := psi_250_leak_location_container s;
         psi_250_image_widget_visible := psi_250_image_widget_visible s;
         psi_250_image_widget := psi_250_image_widget s;
         psi_500_leak_cb := psi_500_leak_cb s;
         psi_500_leak_face_cb := psi_500_leak_face_cb s;
         psi_500_leak_ubends_cb := psi_500_leak_ubends_cb s;
         psi_500_no_leak_cb := psi_500_no_leak_cb s;
         psi_500_not_performed_cb := psi_500_not_performed_cb s;
         psi_500_leak_location_container := psi_500_leak_location_container s;
         psi_500_image_widget_visible := psi_500_image_widget_visible s;
         psi_500_image_widget := psi_500_image_widget s;
         notes_field := notes_field s;
         general_image_widget := general_image_widget s |}
  | psi_250_leak_ubends =>
      {| psi_250_leak_cb := psi_250_leak_cb s;
         psi_250_leak_face_cb := psi_250_leak_face_cb s;
         psi_250_leak_ubends_cb := b; psi_250_no_leak_cb := psi_250_no_leak_cb s;
         psi_250_leak_location_container := psi_250_leak_location_container s;
         psi_250_image_widget_visible := psi_250_image_widget_visible s;
         psi_250_image_widget := psi_250_image_widget s;
         psi_500_leak_cb := psi_500_leak_cb s;
         psi_500_leak_face_cb := psi_500_leak_face_cb s;
         psi_500_leak_ubends_cb := psi_500_leak_ubends_cb s;
         psi_500_no_leak_cb := psi_500_no_leak_cb s;
         psi_500_not_performed_cb := psi_500_not_performed_cb s;
         psi_500_leak_location_container := psi_500_leak_location_container s;
         psi_500_image_widget_visible := psi_500_image_widget_visible s;
         psi_500_image_widget := psi_500_image_widget s;
         notes_field := notes_field s;
         general_image_widget := general_image_widget s |}
  | psi_250_no_leak =>
      {| psi_250_leak_cb := psi_250_leak_cb s;
         psi_250_leak_face_cb := psi_250_leak_face_cb s;
         psi_250_leak_ubends_cb := psi_250_leak_ubends_cb s;
         psi_250_no_leak_cb := b;
         psi_250_leak_location_container := psi_250_leak_location_container s;
         psi_250_image_widget_visible := psi_250_image_widget_visible s;
         psi_250_image_widget := psi_250_image_widget s;
         psi_500_leak_cb := psi_500_leak_cb s;
         psi_500_leak_face_cb := psi_500_leak_face_cb s;
         psi_500_leak_ubends_cb := psi_500_leak_ubends_cb s;
         psi_500_no_leak_cb := psi_500_no_leak_cb s;
         psi_500_not_performed_cb := psi_500_not_performed_cb s;
         psi_500_leak_location_container := psi_500_leak_location_container s;
         psi_500_image_widget_visible := psi_500_image_widget_visible s;
         psi_500_image_widget := psi_500_image_widget s;
         notes_field := notes_field s;
         general_image_widget := general_image_widget s |}
  | psi_500_leak =>
      {| psi_250_leak_cb := psi_250_leak_cb s;
         psi_250_leak_face_cb := psi_250_leak_face_cb s;
         psi_250_leak_ubends_cb := psi_250_leak_ubends_cb s;
         psi_250_no_leak_cb := psi_250_no_leak_cb s;
         psi_250_leak_location_container := psi_250_leak_location_container s;
         psi_250_image_widget_visible := psi_250_image_widget_visible s;
         psi_250_image_widget := psi_250_image_widget s; psi_500_leak_cb := b;
         psi_500_leak_face_cb := psi_500_leak_face_cb s;
         psi_500_leak_ubends_cb := psi_500_leak_ubends_cb s;
         psi_500_no_leak_cb := psi_500_no_leak_cb s;
         psi_500_not_performed_cb := psi_500_not_performed_cb s;
         psi_500_leak_location_container := psi_500_leak_location_container s;
         psi_500_image_widget_visible := psi_500_image_widget_visible s;
         psi_500_image_widget := psi_500_image_widget s;
         notes_field := notes_field s;
         general_image_widget := general_image_widget s |}
  | psi_500_leak_face =>
      {| psi_250_leak_cb := psi_250_leak_cb s;
         psi_250_leak_face_cb := psi_250_leak_face_cb s;
         psi_250_leak_ubends_cb := psi_250_leak_ubends_cb s;
         psi_250_no_leak_cb := psi_250_no_leak_cb s;
         psi_250_leak_location_container := psi_250_leak_location_container s;
         psi_250_image_widget_visible := psi_250_image_widget_visible s;
         psi_250_image_widget := psi_250_image_widget s;
         psi_500_leak_cb := psi_500_leak_cb s; psi_500_leak_face_cb := b;
         psi_500_leak_ubends_cb := psi_500_leak_ubends_cb s;
         psi_500_no_leak_cb := psi_500_no_leak_cb s;
         psi_500_not_performed_cb := psi_500_not_performed_cb s;
         psi_500_leak_location_container := psi_500_leak_location_container s;
         psi_500_image_widget_visible := psi_500_image_widget_visible s;
         psi_500_image_widget := psi_500_image_widget s;
         notes_field := notes_field s;
         general_image_widget := general_image_widget s |}
  | psi_500_leak_ubends =>
      {| psi_250_leak_cb := psi_250_leak_cb s;
         psi_250_leak_face_cb := psi_250_leak_face_cb s;
         psi_250_leak_ubends_cb := psi_250_leak_ubends_cb s;
         psi_250_no_leak_cb := psi_250_no_leak_cb s;
         psi_250_leak_location_container := psi_250_leak_location_container s;
         psi_250_image_widget_visible := psi_250_image_widget_visible s;
         psi_250_image_widget := psi_250_image_widget s;
         psi_500_leak_cb := psi_500_leak_cb s;
         psi_500_leak_face_cb := psi_500_leak_face_cb s;
         psi_500_leak_ubends_cb := b; psi_500_no_leak_cb := psi_500_no_leak_cb s;
         psi_500_not_performed_cb := psi_500_not_performed_cb s;
         psi_500_leak_location_container := psi_500_leak_location_container s;
         psi_500_image_widget_visible := psi_500_image_widget_visible s;
         psi_500_image_widget := psi_500_image_widget s;
         notes_field := notes_field s;
         general_image_widget := general_image_widget s |}
  | psi_500_no_leak =>
      {| psi_250_leak_cb := psi_250_leak_cb s;
         psi_250_leak_face_cb := psi_250_leak_face_cb s;
         psi_250_leak_ubends_cb := psi_250_leak_ubends_cb s;
         psi_250_no_leak_cb := psi_250_no_leak_cb s;
         psi_250_leak_location_container := psi_250_leak_location_container s;
         psi_250_image_widget_visible := psi_250_image_widget_visible s;
         psi_250_image_widget := psi_250_image_widget s;
         psi_500_leak_cb := psi_500_leak_cb s;
         psi_500_leak_face_cb := psi_500_leak_face_cb s;
         psi_500_leak_ubends_cb := psi_500_leak_ubends_cb s;
         psi_500_no_leak_cb := b;
         psi_500_not_performed_cb := psi_500_not_performed_cb s;
         psi_500_leak_location_container := psi_500_leak_location_container s;
         psi_500_image_widget_visible := psi_500_image_widget_visible s;
         psi_500_image_widget := psi_500_image_widget s;
         notes_field := notes_field s;
         general_image_widget := general_image_widget s |}
  | psi_500_not_performed =>
      {| psi_250_leak_cb := psi_250_leak_cb s;
         psi_250_leak_face_cb := psi_250_leak_face_cb s;
         psi_250_leak_ubends_cb := psi_250_leak_ubends_cb s;
         psi_250_no_leak_cb := psi_250_no_leak_cb s;
         psi_250_leak_location_container := psi_250_leak_location_container s;
         psi_250_image_widget_visible := psi_250_image_widget_visible s;
         psi_250_image_widget := psi_250_image_widget s;
         psi_500_leak_cb := psi_500_leak_cb s;
         psi_500_leak_face_cb := psi_500_leak_face_cb s;
         psi_500_leak_ubends_cb := psi_500_leak_ubends_cb s;
         psi_500_no_leak_cb := psi_500_no_leak_cb s; psi_500_not_performed_cb := b;
         psi_500_leak_location_container := psi_500_leak_location_container s;
         psi_500_image_widget_visible := psi_500_image_widget_visible s;
         psi_500_image_widget := psi_500_image_widget s;
         notes_field := notes_field s;
         general_image_widget := general_image_widget s |}
  end.

(** The end of [toggle_250_checkbox]: what is shown follows the boxes. *)
Definition show_250 (s : PressureTestingSection) : PressureTestingSection :=
  {| psi_250_leak_cb := psi_250_leak_cb s;
     psi_250_leak_face_cb := psi_250_leak_face_cb s;
     psi_250_leak_ubends_cb := psi_250_leak_ubends_cb s;
     psi_250_no_leak_cb := psi_250_no_leak_cb s;
     psi_250_leak_location_container := psi_250_leak_cb s;
     psi_250_image_widget_visible := psi_250_leak_cb s || psi_250_no_leak_cb s;
     psi_250_image_widget := psi_250_image_widget s;
     psi_500_leak_cb := psi_500_leak_cb s;
     psi_500_leak_face_cb := psi_500_leak_face_cb s;
     psi_500_leak_ubends_cb := psi_500_leak_ubends_cb s;
     psi_500_no_leak_cb := psi_500_no_leak_cb s;
     psi_500_not_performed_cb := psi_500_not_performed_cb s;
     psi_500_leak_location_container := psi_500_leak_location_container s;
     psi_500_image_widget_visible := psi_500_image_widget_visible s;
     psi_500_image_widget := psi_500_image_widget s;
     notes_field := notes_field s;
     general_image_widget := general_image_widget s |}.

(** The end of [toggle_500_checkbox]. *)
Definition show_500 (s : PressureTestingSection) : PressureTestingSection :=
  {| psi_250_leak_cb := psi_250_leak_cb s;
     psi_250_leak_face_cb := psi_250_leak_face_cb s;
     psi_250_leak_ubends_cb := psi_250_leak_ubends_cb s;
     psi_250_no_leak_cb := psi_250_no_leak_cb s;
     psi_250_leak_location_container := psi_250_leak_location_container s;
     psi_250_image_widget_visible := psi_250_image_widget_visible s;
     psi_250_image_widget := psi_250_image_widget s;
     psi_500_leak_cb := psi_500_leak_cb s;
     psi_500_leak_face_cb := psi_500_leak_face_cb s;
     psi_500_leak_ubends_cb := psi_500_leak_ubends_cb s;
     psi_500_no_leak_cb := psi_500_no_leak_cb s;
     psi_500_not_performed_cb := psi_500_not_performed_cb s;
     psi_500_leak_location_container := psi_500_leak_cb s;
     psi_500_image_widget_visible := psi_500_leak_cb s || psi_500_no_leak_cb s;
     psi_500_image_widget := psi_500_image_widget s;
     notes_field := notes_field s;
     general_image_widget := general_image_widget s |}.

Definition set_notes_field (s : PressureTestingSection) (t : string)
  : PressureTestingSection :=
  {| psi_250_leak_cb := psi_250_leak_cb s;
     psi_250_leak_face_cb := psi_250_leak_face_cb s;
     psi_250_leak_ubends_cb := psi_250_leak_ubends_cb s;
     psi_250_no_leak_cb := psi_250_no_leak_cb s;
     psi_250_leak_location_container := psi_250_leak_location_container s;
     psi_250_image_widget_visible := psi_250_image_widget_visible s;
     psi_250_image_widget := psi_250_image_widget s;
     psi_500_leak_cb := psi_500_leak_cb s;
     psi_500_leak_face_cb := psi_500_leak_face_cb s;
     psi_500_leak_ubends_cb := psi_500_leak_ubends_cb s;
     psi_500_no_leak_cb := psi_500_no_leak_cb s;
     psi_500_not_performed_cb := psi_500_not_performed_cb s;
     psi_500_leak_location_container := psi_500_leak_location_container s;
     psi_500_image_widget_visible := psi_500_image_widget_visible s;
     psi_500_image_widget := psi_500_image_widget s; notes_field := t;
     general_image_widget := general_image_widget s |}.

Definition set_psi_250_image_widget (s : PressureTestingSection) (w : ImageUploadWidget)
  : PressureTestingSection :=
  {| psi_250_leak_cb := psi_250_leak_cb s;
     psi_250_leak_face_cb := psi_250_leak_face_cb s;
     psi_250_leak_ubends_cb := psi_250_leak_ubends_cb s;
     psi_250_no_leak_cb := psi_250_no_leak_cb s;
     psi_250_leak_location_container := psi_250_leak_location_container s;
     psi_250_image_widget_visible := psi_250_image_widget_visible s;
     psi_250_image_widget := w; psi_500_leak_cb := psi_500_leak_cb s;
     psi_500_leak_face_cb := psi_500_leak_face_cb s;
     psi_500_leak_ubends_cb := psi_500_leak_ubends_cb s;
     psi_500_no_leak_cb := psi_500_no_leak_cb s;
     psi_500_not_performed_cb := psi_500_not_performed_cb s;
     psi_500_leak_location_container := psi_500_leak_location_container s;
     psi_500_image_widget_visible := psi_500_image_widget_visible s;
     psi_500_image_widget := psi_500_image_widget s;
     notes_field := notes_field s;
     general_image_widget := general_image_widget s |}.

Definition set_psi_500_image_widget (s : PressureTestingSection) (w : ImageUploadWidget)
  : PressureTestingSection :=
  {| psi_250_leak_cb := psi_250_leak_cb s;
     psi_250_leak_face_cb := psi_250_leak_face_cb s;
     psi_250_leak_ubends_cb := psi_250_leak_ubends_cb s;
     psi_250_no_leak_cb := psi_250_no_leak_cb s;
     psi_250_leak_location_container := psi_250_leak_location_container s;
     psi_250_image_widget_visible := psi_250_image_widget_visible s;
     psi_250_image_widget := psi_250_image_widget s;
     psi_500_leak_cb := psi_500_leak_cb s;
     psi_500_leak_face_cb := psi_500_leak_face_cb s;
     psi_500_leak_ubends_cb := psi_500_leak_ubends_cb s;
     psi_500_no_leak_cb := psi_500_no_leak_cb s;
     psi_500_not_performed_cb := psi_500_not_performed_cb s;
     psi_500_leak_location_container := psi_500_leak_location_container s;
     psi_500_image_widget_visible := psi_500_image_widget_visible s;
     psi_500_image_widget := w; notes_field := notes_field s;
     general_image_widget := general_image_widget s |}.

Definition set_general_image_widget (s : PressureTestingSection) (w : ImageUploadWidget)
  : PressureTestingSection :=
  {| psi_250_leak_cb := psi_250_leak_cb s;
     psi_250_leak_face_cb := psi_250_leak_face_cb s;
     psi_250_leak_ubends_cb := psi_250_leak_ubends_cb s;
     psi_250_no_leak_cb := psi_250_no_leak_cb s;
     psi_250_leak_location_container := psi_250_leak_location_container s;
     psi_250_image_widget_visible := psi_250_image_widget_visible s;
     psi_250_image_widget := psi_250_image_widget s;
     psi_500_leak_cb := psi_500_leak_cb s;
     psi_500_leak_face_cb := psi_500_leak_face_cb s;
     psi_500_leak_ubends_cb := psi_500_leak_ubends_cb s;
     psi_500_no_leak_cb := psi_500_no_leak_cb s;
     psi_500_not_performed_cb := psi_500_not_performed_cb s;
     psi_500_leak_location_container := psi_500_leak_location_container s;
     psi_500_image_widget_visible := psi_500_image_widget_visible s;
     psi_500_image_widget := psi_500_image_widget s;
     notes_field := notes_field s; general_image_widget := w |}.
(** [box.setChecked(False)] called inside a slot: a box that was checked
    is cleared and its own [stateChanged(0)] runs the slot once more,
    which with state 0 only updates what is shown. *)
Definition uncheck_250 (s : PressureTestingSection) (box : pressure_box)
  : PressureTestingSection :=
  if isChecked s box then show_250 (set_box s box false) else s.

Definition uncheck_500 (s : PressureTestingSection) (box : pressure_box)
  : PressureTestingSection :=
  if isChecked s box then show_500 (set_box s box false) else s.

(** [toggle_250_checkbox(state)], [sender] being the box that sent the
    signal. *)
Definition toggle_250_checkbox (s : PressureTestingSection) (state : nat)
  (sender : pressure_box) : PressureTestingSection :=
  let s :=
    if negb (state =? 0) then
      match sender with
      | psi_250_leak => uncheck_250 s psi_250_no_leak
      | _ => uncheck_250 s psi_250_leak
      end
    else s in
  show_250 s.

(** [toggle_500_checkbox(state)] *)
Definition toggle_500_checkbox (s : PressureTestingSection) (state : nat)
  (sender : pressure_box) : PressureTestingSection :=
  let s :=
    if negb (state =? 0) then
      match sender with
      | psi_500_leak =>
          uncheck_500 (uncheck_500 s psi_500_no_leak) psi_500_not_performed
      | psi_500_no_leak =>
          uncheck_500 (uncheck_500 s psi_500_leak) psi_500_not_performed
      | _ => uncheck_500 (uncheck_500 s psi_500_leak) psi_500_no_leak
      end
    else s in
  show_500 s.

(** [box.setChecked(b)]: nothing happens when the box is in that state;
    otherwise the state changes and [stateChanged] reaches the slot
    connected in [init_ui]. The boxes of the leak locations have none. *)
Definition setChecked (s : PressureTestingSection) (box : pressure_box) (b : bool)
  : PressureTestingSection :=
  if Bool.eqb (isChecked s box) b then s
  else
    let s := set_box s box b in
    let state := if b then 2 else 0 in
    match box with
    | psi_250_leak | psi_250_no_leak => toggle_250_checkbox s state box
    | psi_500_leak | psi_500_no_leak | psi_500_not_performed =>
        toggle_500_checkbox s state box
    | _ => s
    end.

(** The dictionary [get_pressure_data] returns; the keys of the source
    begin with the pressure (['250psi_leak'], ...). *)
Record pressure_data : Type := {
  psi250_leak : bool; psi250_leak_face : bool; psi250_leak_ubends : bool;
  psi250_no_leak : bool; psi250_images : list string;
  psi500_leak : bool; psi500_leak_face : bool; psi500_leak_ubends : bool;
  psi500_no_leak : bool; psi500_not_performed : bool; psi500_images : list string;
  pressure_images : list string;                       (* 'images' *)
  pressure_notes : string                              (* 'notes' *)
}.

(** [get_pressure_data] *)
Definition get_pressure_data (s : PressureTestingSection) : pressure_data :=
  {| psi250_leak := psi_250_leak_cb s;
     psi250_leak_face := psi_250_leak_face_cb s;
     psi250_leak_ubends := psi_250_leak_ubends_cb s;
     psi250_no_leak := psi_250_no_leak_cb s;
     psi250_images := image_paths (psi_250_image_widget s);
     psi500_leak := psi_500_leak_cb s;
     psi500_leak_face := psi_500_leak_face_cb s;
     psi500_leak_ubends := psi_500_leak_ubends_cb s;
     psi500_no_leak := psi_500_no_leak_cb s;
     psi500_not_performed := psi_500_not_performed_cb s;
     psi500_images := image_paths (psi_500_image_widget s);
     pressure_images := image_paths (general_image_widget s);
     pressure_notes := notes_field s |}.

Definition get_notes (s : PressureTestingSection) : string := notes_field s.
Definition get_images (s : PressureTestingSection) : list string :=
  image_paths (general_image_widget s).

(** What the user does in the section. *)
Inductive pressure_event : Type :=
| SetBox (box : pressure_box) (b : bool)
| EditNotes (t : string)
| Upload250 (p : string)
| Upload500 (p : string)
| UploadGeneral (p : string).

Definition apply_pressure_event (s : PressureTestingSection) (e : pressure_event)
  : PressureTestingSection :=
  match e with
  | SetBox box b => setChecked s box b
  | EditNotes t => set_notes_field s t
  | Upload250 p => set_psi_250_image_widget s (upload_image (psi_250_image_widget s) p)
  | Upload500 p => set_psi_500_image_widget s (upload_image (psi_500_image_widget s) p)
  | UploadGeneral p =>
      set_general_image_widget s (upload_image (general_image_widget s) p)
  end.

End Coil.

Module CoilFacts.
Import Catalog Widgets ImageStore Paths Exn Persistence Coil.

(** At most one result per pressure, and what is shown follows the
    boxes. *)
Definition pressure_consistent (s : PressureTestingSection) : Prop :=
  psi_250_leak_cb s && psi_250_no_leak_cb s = false /\
  psi_500_leak_cb s && psi_500_no_leak_cb s = false /\
  psi_500_leak_cb s && psi_500_not_performed_cb s = false /\
  psi_500_no_leak_cb s && psi_500_not_performed_cb s = false /\
  psi_250_leak_location_container s = psi_250_leak_cb s /\
  psi_250_image_widget_visible s = psi_250_leak_cb s || psi_250_no_leak_cb s /\
  psi_500_leak_location_container s = psi_500_leak_cb s /\
  psi_500_image_widget_visible s = psi_500_leak_cb s || psi_500_no_leak_cb s.

Lemma setChecked_consistent s box b :
  pressure_consistent s -> pressure_consistent (setChecked s box b).
Proof.
  destruct s as [l2 f2 u2 n2 c2 v2 w2 l5 f5 u5 n5 p5 c5 v5 w5 notes g].
  unfold pressure_consistent. simpl.
  intros (H1 & H2 & H3 & H4 & -> & -> & -> & ->).
  destruct box;
    try (unfold setChecked; simpl; destruct (Bool.eqb _ b); simpl; now auto 10);
    destruct l2, n2, l5, n5, p5; simpl in *; try discriminate;
    destruct b; repeat split; reflexivity.
Qed.

Lemma apply_pressure_event_consistent s e :
  pressure_consistent s -> pressure_consistent (apply_pressure_event s e).
Proof.
  intros H. destruct e; simpl; try exact H. now apply setChecked_consistent.
Qed.

(** X8: in every state the pressure section reaches, at most one of
    "Leak" and "No Leak" is checked at 250 PSI and at most one of "Leak",
    "No Leak" and "Not Performed" at 500 PSI; the leak locations are shown
    exactly when "Leak" is checked, and the images of a pressure exactly
    when "Leak" or "No Leak" is. Checking a result clears the others. *)
Theorem pressure_results_exclusive (evs : list pressure_event) :
  let s := fold_left apply_pressure_event evs new_PressureTestingSection in
  pressure_consistent s /\
  (forall box, isChecked (setChecked s box true) box = true) /\
  isChecked (setChecked s psi_250_leak true) psi_250_no_leak = false /\
  isChecked (setChecked s psi_250_no_leak true) psi_250_leak = false /\
  (forall box other,
     box ∈ [psi_500_leak; psi_500_no_leak; psi_500_not_performed] ->
     other ∈ [psi_500_leak; psi_500_no_leak; psi_500_not_performed] ->
     box <> other -> isChecked (setChecked s box true) other = false).
Proof.
  intros s.
  assert (H : pressure_consistent s).
  { unfold s. assert (H0 : pressure_consistent new_PressureTestingSection).
    { repeat split. }
    revert H0. generalize new_PressureTestingSection.
    induction evs as [|e evs IH]; intros s0 H0; [exact H0|].
    simpl. apply IH, apply_pressure_event_consistent, H0. }
  split; [exact H|].
  pose proof (fun box => setChecked_consistent s box true H) as Hset.
  assert (Hself : forall box, isChecked (setChecked s box true) box = true).
  { intros box. clear Hset. destruct s as [l2 f2 u2 n2 c2 v2 w2 l5 f5 u5 n5 p5 c5 v5 w5 notes g].
    destruct box; unfold setChecked; simpl;
      try (now destruct f2); try (now destruct u2); try (now destruct f5);
      try (now destruct u5); destruct l2, n2, l5, n5, p5; reflexivity. }
  split; [exact Hself|].
  split; [|split].
  - destruct (Hset psi_250_leak) as (E & _). specialize (Hself psi_250_leak).
    simpl in *. rewrite Hself in E. exact E.
  - destruct (Hset psi_250_no_leak) as (E & _). specialize (Hself psi_250_no_leak).
    simpl in *. rewrite Hself, andb_true_r in E. exact E.
  - intros box other Hb Ho Hne.
    destruct (Hset box) as (_ & E1 & E2 & E3 & _). specialize (Hself box).
    rewrite !elem_of_cons in Hb, Ho.
    destruct Hb as [->|[->|[->|Hb]]]; [| | |now apply elem_of_nil in Hb];
      destruct Ho as [->|[->|[->|Ho]]]; try congruence;
      try (now apply elem_of_nil in Ho); simpl in *; rewrite Hself in *;
      rewrite ?andb_true_r in *; simpl in *; assumption.
Qed.

End CoilFacts.

(* ===================================================================== *)
(** * Saving and loading a coil tab *)
(* ===================================================================== *)

Module CoilPersistence.
Import Catalog Widgets ImageStore Paths Exn Exn.Notations Persistence Coil.

(** ** CoilTab *)

Record CoilTab : Type := {
  coil_number : nat;
  visual_inspection_section : ComponentSection;
  pressure_testing_section : PressureTestingSection
}.

(** [CoilTab(coil_number)] *)
Definition new_CoilTab (coil_number : nat) : CoilTab :=
  {| coil_number := coil_number;
     visual_inspection_section :=
       new_ComponentSection "Visual Inspection" COIL_VISUAL_INSPECTION_PATTERNS;
     pressure_testing_section := new_PressureTestingSection |}.

Inductive coil_ref : Type := visual_inspection | pressure_testing.

Inductive coil_widget : Type :=
| VisualWidget (s : ComponentSection)
| PressureWidget (s : PressureTestingSection).

Definition coil_section_at (t : CoilTab) (r : coil_ref) : coil_widget :=
  match r with
  | visual_inspection => VisualWidget (visual_inspection_section t)
  | pressure_testing => PressureWidget (pressure_testing_section t)
  end.

Definition set_coil_section (t : CoilTab) (r : coil_ref) (w : coil_widget) : CoilTab :=
  match r, w with
  | visual_inspection, VisualWidget s =>
      {| coil_number := coil_number t; visual_inspection_section := s;
         pressure_testing_section := pressure_testing_section t |}
  | pressure_testing, PressureWidget s =>
      {| coil_number := coil_number t;
         visual_inspection_section := visual_inspection_section t;
         pressure_testing_section := s |}
  | _, _ => t
  end.

(** [CoilTab.get_all_sections]: the sections in order, each with its
    type. *)
Definition coil_sections : list (coil_ref * string) :=
  [ (visual_inspection, "component"); (pressure_testing, "coil_pressure") ].

Definition coil_widget_title (w : coil_widget) : string :=
  match w with
  | VisualWidget s => title s
  | PressureWidget _ => "Pressure Testing"
  end.

(** ** The saved data *)

(** An entry of the [sections_data] of a coil; a key that is absent is
    [None]. The value of ['pressure_data'] is the dictionary
    [get_pressure_data] returns, with its image lists replaced. *)
Record coil_section_info : Type := {
  coil_title : string;                                            (* 'title' *)
  coil_type : string;                                             (* 'type' *)
  coil_notes : option string;                                     (* 'notes' *)
  coil_images : option (list string);                             (* 'images' *)
  coil_pressure_data : option pressure_data;                      (* 'pressure_data' *)
  coil_selected_patterns : option (list string);
  coil_observations : option (list (string * observation_info));
  coil_custom_patterns : option (list custom_entry)
}.

(** ** [_save_coil_tab] *)

(** The body of the loop over the selected patterns: the observations and,
    when there are any, the copied images of the pattern. *)
Definition save_coil_pattern (section : ComponentSection) (images_folder : string)
  (pattern : string) : @M files (string * observation_info) :=
  let obs_list := get_selected_observations section pattern in
  let pattern_images := get_pattern_images section pattern in
  let* copied_pattern_images :=
    match pattern_images with
    | [] => ret None
    | _ => let* copied := _copy_images pattern_images images_folder in ret (Some copied)
    end in
  ret (pattern, {| selected := obs_list; observation_images := [];
                   pattern_images := copied_pattern_images |}).

Definition save_coil_component (section : ComponentSection) (section_type : string)
  (images_folder : string) : @M files coil_section_info :=
  let notes := Widgets.get_notes section in
  let* images := _copy_images (Widgets.get_images section) images_folder in
  let selected_patterns := get_selected_patterns section in
  let custom_patterns := get_custom_patterns section in
  let* observations :=
    fold_left (fun acc pattern =>
                 let* d := acc in
                 let* entry := save_coil_pattern section images_folder pattern in
                 ret (Dict.set d entry.1 entry.2))
      (get_selected_patterns section) (ret []) in
  ret {| coil_title := title section; coil_type := section_type;
         coil_notes := Some notes; coil_images := Some images;
         coil_pressure_data := None;
         coil_selected_patterns := Some selected_patterns;
         coil_observations := Some observations;
         coil_custom_patterns := Some custom_patterns |}.

(** The pressure section: the images of the section are copied for the
    entry and once more for [pressure_data], and the entry's own list is
    then emptied. *)
Definition save_coil_pressure (section : PressureTestingSection) (section_type : string)
  (images_folder : string) : @M files coil_section_info :=
  let notes := Coil.get_notes section in
  let* images := _copy_images (Coil.get_images section) images_folder in
  let pressure_data := get_pressure_data section in
  let* images_250 := _copy_images (psi250_images pressure_data) images_folder in
  let* images_500 := _copy_images (psi500_images pressure_data) images_folder in
  let* images_general := _copy_images (pressure_images pressure_data) images_folder in
  let pressure_data_copy :=
    {| psi250_leak := psi250_leak pressure_data;
       psi250_leak_face := psi250_leak_face pressure_data;
       psi250_leak_ubends := psi250_leak_ubends pressure_data;
       psi250_no_leak := psi250_no_leak pressure_data;
       psi250_images := images_250;
       psi500_leak := psi500_leak pressure_data;
       psi500_leak_face := psi500_leak_face pressure_data;
       psi500_leak_ubends := psi500_leak_ubends pressure_data;
       psi500_no_leak := psi500_no_leak pressure_data;
       psi500_not_performed := psi500_not_performed pressure_data;
       psi500_images := images_500;
       pressure_images := images_general;
       pressure_notes := pressure_notes pressure_data |} in
  ret {| coil_title := "Pressure Testing"; coil_type := section_type;
         coil_notes := Some notes; coil_images := Some [];
         coil_pressure_data := Some pressure_data_copy;
         coil_selected_patterns := None; coil_observations := None;
         coil_custom_patterns := None |}.

(** [_save_coil_tab(coil_tab, images_folder)]: the branch on
    [section_type == 'coil_pressure'] is the branch on the kind of section. *)
Definition _save_coil_tab (coil_tab : CoilTab) (images_folder : string)
  : @M files (list coil_section_info) :=
  fold_left (fun acc section_data =>
               let* sections_data := acc in
               let '(r, section_type) := section_data in
               let* section_info :=
                 match coil_section_at coil_tab r with
                 | VisualWidget s => save_coil_component s section_type images_folder
                 | PressureWidget s => save_coil_pressure s section_type images_folder
                 end in
               ret (sections_data ++ [section_info]))
    coil_sections (ret []).

(** ** [_load_coil_tab] *)

(** The branch for ['coil_pressure'] on the pressure section. *)
Definition load_pressure (fs : files) (images_folder : string) (d : pressure_data)
  (section : PressureTestingSection) : PressureTestingSection :=
  let s := setChecked section psi_250_leak (psi250_leak d) in
  let s := setChecked s psi_250_no_leak (psi250_no_leak d) in
  let s := setChecked s psi_500_leak (psi500_leak d) in
  let s := setChecked s psi_500_no_leak (psi500_no_leak d) in
  let s := setChecked s psi_500_not_performed (psi500_not_performed d) in
  let s := setChecked s psi_250_leak_face (psi250_leak_face d) in
  let s := setChecked s psi_250_leak_ubends (psi250_leak_ubends d) in
  let s := setChecked s psi_500_leak_face (psi500_leak_face d) in
  let s := setChecked s psi_500_leak_ubends (psi500_leak_ubends d) in
  let s := set_notes_field s (pressure_notes d) in
  let s := set_psi_250_image_widget s
             (load_images fs images_folder (psi_250_image_widget s) (psi250_images d)) in
  let s := set_psi_500_image_widget s
             (load_images fs images_folder (psi_500_image_widget s) (psi500_images d)) in
  set_general_image_widget s
    (load_images fs images_folder (general_image_widget s) (pressure_images d)).

Definition some_exists (fs : files) (images_folder : string) (names : list string) : bool :=
  existsb (fun img_name => path_exists fs (path_join images_folder img_name)) names.

(** The same branch on a component section, which has none of the boxes
    and no [notes_field]: an image of a pressure that exists raises, the
    images of the section are added. *)
Definition load_pressure_on_component (fs : files) (images_folder : string)
  (d : pressure_data) : @M ComponentSection unit :=
  if some_exists fs images_folder (psi250_images d) then raise
  else if some_exists fs images_folder (psi500_images d) then raise
  else modify (fun s =>
         set_image_widget s
           (load_images fs images_folder (image_widget s) (pressure_images d))).

(** The observation boxes of a pattern whose text is [obs] are checked. *)
Definition check_observations (pattern obs : string) (s : ComponentSection)
  : ComponentSection :=
  match Dict.get (observation_checkboxes s) pattern with
  | Some boxes =>
      fold_left (fun s i =>
                   match Dict.get (observation_checkboxes s) pattern with
                   | Some boxes =>
                       match boxes !! i with
                       | Some obs_cb =>
                           if String.eqb (cb_text obs_cb) obs
                           then set_observation s pattern i true else s
                       | None => s
                       end
                   | None => s
                   end)
        (seq 0 (length boxes)) s
  | None => s
  end.

(** The body of [for pattern in section_info.get('selected_patterns', [])]. *)
Definition load_coil_pattern (info : coil_section_info) (pattern : string)
  (s : ComponentSection) : ComponentSection :=
  if Dict.has (checkboxes s) pattern then
    let s := Widgets.setChecked s pattern true in
    match Dict.get (default [] (coil_observations info)) pattern with
    | Some obs_data =>
        fold_left (fun s obs => check_observations pattern obs s) (selected obs_data) s
    | None => s
    end
  else s.

(** The body of [for custom in section_info.get('custom_patterns', [])]. *)
Definition load_coil_custom (custom : custom_entry) (s : ComponentSection)
  : ComponentSection :=
  let s := add_custom_pattern s in
  match custom with
  | TextEntry text _ =>
      let i := length (custom_patterns s) - 1 in
      match custom_patterns s !! i with
      | Some last_custom =>
          set_custom_patterns s
            (<[i := {| custom_id := custom_id last_custom;
                       text_input := match text_input last_custom with
                                     | Some _ => Some text
                                     | None => None
                                     end;
                       name_input := name_input last_custom;
                       obs_inputs := obs_inputs last_custom;
                       custom_image_widget := custom_image_widget last_custom;
                       obs_count := obs_count last_custom |}]> (custom_patterns s))
      | None => s
      end
  | NameEntry _ _ _ => s
  end.

(** The other branch on a component section. It has no [notes_field], so
    the notes are passed over. *)
Definition load_coil_component (fs : files) (images_folder : string)
  (info : coil_section_info) (s : ComponentSection) : ComponentSection :=
  let s := fold_left (fun s pattern => load_coil_pattern info pattern s)
             (default [] (coil_selected_patterns info)) s in
  let s := fold_left (fun s custom => load_coil_custom custom s)
             (default [] (coil_custom_patterns info)) s in
  set_image_widget s
    (load_images fs images_folder (image_widget s) (default [] (coil_images info))).

(** The other branch on the pressure section, which has no [checkboxes]
    and no [add_custom_pattern], but has [notes_field] and
    [image_widget]. *)
Definition load_component_on_pressure (fs : files) (images_folder : string)
  (info : coil_section_info) : @M PressureTestingSection unit :=
  match default [] (coil_selected_patterns info) with
  | _ :: _ => raise
  | [] =>
      match default [] (coil_custom_patterns info) with
      | _ :: _ => raise
      | [] =>
          modify (fun s =>
            let s := set_notes_field s (default "" (coil_notes info)) in
            set_general_image_widget s
              (load_images fs images_folder (general_image_widget s)
                 (default [] (coil_images info))))
      end
  end.

(** [section_info.get('pressure_data', {})] with the defaults the loader
    gives to its keys. *)
Definition no_pressure_data : pressure_data :=
  {| psi250_leak := false; psi250_leak_face := false; psi250_leak_ubends := false;
     psi250_no_leak := false; psi250_images := [];
     psi500_leak := false; psi500_leak_face := false; psi500_leak_ubends := false;
     psi500_no_leak := false; psi500_not_performed := false; psi500_images := [];
     pressure_images := []; pressure_notes := "" |}.

(** The body of [for section_info in sections_data], once the section is
    found. *)
Definition load_coil_section (fs : files) (images_folder : string)
  (info : coil_section_info) : @M coil_widget unit :=
  fun w =>
    if String.eqb (coil_type info) "coil_pressure" then
      let d := default no_pressure_data (coil_pressure_data info) in
      match w with
      | PressureWidget s =>
          (PressureWidget (load_pressure fs images_folder d s), Some tt)
      | VisualWidget s =>
          let '(s', r) := load_pressure_on_component fs images_folder d s in
          (VisualWidget s', r)
      end
    else
      match w with
      | VisualWidget s =>
          (VisualWidget (load_coil_component fs images_folder info s), Some tt)
      | PressureWidget s =>
          let '(s', r) := load_component_on_pressure fs images_folder info s in
          (PressureWidget s', r)
      end.

(** [section_map = {s.title: s for s, _, _ in coil_tab.get_all_sections()}] *)
Definition coil_section_map (coil_tab : CoilTab) : list (string * coil_ref) :=
  fold_left (fun d entry =>
               Dict.set d (coil_widget_title (coil_section_at coil_tab entry.1)) entry.1)
    coil_sections [].

(** [_load_coil_tab(coil_tab, sections_data, images_folder)] *)
Definition _load_coil_tab (fs : files) (sections_data : list coil_section_info)
  (images_folder : string) : @M CoilTab unit :=
  let* coil_tab := get in
  let section_map := coil_section_map coil_tab in
  for_each sections_data (fun section_info =>
    match Dict.get section_map (coil_title section_info) with
    | Some r =>
        zoom (fun t => coil_section_at t r) (fun t w => set_coil_section t r w)
          (load_coil_section fs images_folder section_info)
    | None => ret tt
    end).

End CoilPersistence.

Module CoilPersistenceFacts.
Import Catalog Widgets ImageStore Paths Exn Exn.Notations Persistence Coil.
Import CoilPersistence SaveFacts.

(** The code returns, from every state, with a result of a given kind. *)
Definition returns_with {S A : Type} (P : A -> Prop) (m : @M S A) : Prop :=
  forall s, exists s' a, m s = (s', Some a) /\ P a.

Lemma returns_with_ret {S A : Type} (P : A -> Prop) (a : A) :
  P a -> returns_with P (@ret S A a).
Proof. intros H s. exists s, a. now split. Qed.

Lemma returns_with_bind {S A B : Type} (Q : A -> Prop) (P : B -> Prop)
  (m : @M S A) (f : A -> @M S B) :
  returns_with Q m -> (forall a, Q a -> returns_with P (f a)) ->
  returns_with P (bind m f).
Proof.
  intros Hm Hf s. destruct (Hm s) as (s1 & a & E & Ha). unfold bind. rewrite E.
  now apply Hf.
Qed.

Lemma returns_any {S A : Type} (m : @M S A) :
  returns m -> returns_with (fun _ => True) m.
Proof. intros H s. destruct (H s) as (s' & a & E). exists s', a. now split. Qed.

(** The boxes and the notes of the pressure data. *)
Definition pressure_flags (d : pressure_data) :=
  (psi250_leak d, psi250_leak_face d, psi250_leak_ubends d, psi250_no_leak d,
   psi500_leak d, psi500_leak_face d, psi500_leak_ubends d, psi500_no_leak d,
   psi500_not_performed d, pressure_notes d).

(** At most one result per pressure. *)
Definition one_result (d : pressure_data) : Prop :=
  psi250_leak d && psi250_no_leak d = false /\
  psi500_leak d && psi500_no_leak d = false /\
  psi500_leak d && psi500_not_performed d = false /\
  psi500_no_leak d && psi500_not_performed d = false.

Lemma load_pressure_flags fs images_folder d :
  one_result d ->
  pressure_flags (get_pressure_data
                    (load_pressure fs images_folder d new_PressureTestingSection))
  = pressure_flags d.
Proof.
  destruct d as [l2 f2 u2 n2 i2 l5 f5 u5 n5 p5 i5 ig notes].
  unfold one_result. simpl. intros (H1 & H2 & H3 & H4).
  destruct l2, n2; try discriminate; destruct l5, n5, p5; try discriminate;
    destruct f2, u2, f5, u5; reflexivity.
Qed.

Lemma save_coil_pattern_returns section images_folder pattern :
  returns (save_coil_pattern section images_folder pattern).
Proof.
  unfold save_coil_pattern. apply returns_bind; [|intros; apply returns_ret].
  destruct (get_pattern_images _ _); [apply returns_ret|].
  apply returns_bind; [apply _copy_images_returns|]. intros; apply returns_ret.
Qed.

(** What [_save_coil_tab] writes for the visual inspection. *)
Lemma save_coil_component_result section section_type images_folder :
  returns_with (fun info => coil_title info = title section /\
                            coil_type info = section_type)
    (save_coil_component section section_type images_folder).
Proof.
  unfold save_coil_component.
  eapply returns_with_bind; [apply returns_any, _copy_images_returns|]. intros images _.
  eapply returns_with_bind.
  - apply returns_any. apply returns_fold_left; [|apply returns_ret].
    intros acc pattern Hacc. apply returns_bind; [exact Hacc|]. intros d.
    apply returns_bind; [apply save_coil_pattern_returns|]. intros; apply returns_ret.
  - intros observations _. apply returns_with_ret. split; reflexivity.
Qed.

(** What it writes for the pressure testing. *)
Lemma save_coil_pressure_result section section_type images_folder :
  returns_with (fun info => coil_title info = "Pressure Testing" /\
                            coil_type info = section_type /\
                            exists d, coil_pressure_data info = Some d /\
                              pressure_flags d = pressure_flags (get_pressure_data section))
    (save_coil_pressure section section_type images_folder).
Proof.
  unfold save_coil_pressure.
  eapply returns_with_bind; [apply returns_any, _copy_images_returns|]. intros i0 _.
  eapply returns_with_bind; [apply returns_any, _copy_images_returns|]. intros i1 _.
  eapply returns_with_bind; [apply returns_any, _copy_images_returns|]. intros i2 _.
  eapply returns_with_bind; [apply returns_any, _copy_images_returns|]. intros i3 _.
  apply returns_with_ret. split; [reflexivity|]. split; [reflexivity|].
  eexists. split; reflexivity.
Qed.

Lemma save_coil_tab_result coil_tab images_folder :
  returns_with (fun infos => exists vi pi d,
                  infos = [vi; pi] /\
                  coil_title vi = title (visual_inspection_section coil_tab) /\
                  coil_type vi = "component" /\
                  coil_title pi = "Pressure Testing" /\
                  coil_type pi = "coil_pressure" /\
                  coil_pressure_data pi = Some d /\
                  pressure_flags d =
                  pressure_flags (get_pressure_data (pressure_testing_section coil_tab)))
    (_save_coil_tab coil_tab images_folder).
Proof.
  unfold _save_coil_tab, coil_sections. cbn [fold_left coil_section_at].
  apply (returns_with_bind
           (fun infos => exists vi, infos = [vi] /\
              coil_title vi = title (visual_inspection_section coil_tab) /\
              coil_type vi = "component")).
  - apply (returns_with_bind (fun done => done = [])); [now apply returns_with_ret|].
    intros done ->.
    eapply returns_with_bind; [apply save_coil_component_result|].
    intros vi Hvi. apply returns_with_ret. now exists vi.
  - intros infos (vi & -> & Hvt & Hvty).
    eapply returns_with_bind; [apply save_coil_pressure_result|].
    intros pi (Ht & Hty & d & Hd & Hflags). apply returns_with_ret.
    exists vi, pi, d. auto 10.
Qed.

Lemma coil_section_map_titles t0 :
  title (visual_inspection_section t0) = "Visual Inspection" ->
  coil_section_map t0 =
  [("Visual Inspection", visual_inspection); ("Pressure Testing", pressure_testing)].
Proof.
  intros Ht. unfold coil_section_map, coil_sections.
  cbn [fold_left coil_section_at coil_widget_title fst]. rewrite Ht. reflexivity.
Qed.

(** Loading what was saved into a tab with a new pressure section. *)
Lemma load_coil_tab_pressure fs images_folder vi pi d n v0 :
  title v0 = "Visual Inspection" ->
  coil_title vi = "Visual Inspection" -> coil_type vi = "component" ->
  coil_title pi = "Pressure Testing" -> coil_type pi = "coil_pressure" ->
  coil_pressure_data pi = Some d ->
  _load_coil_tab fs [vi; pi] images_folder
    {| coil_number := n; visual_inspection_section := v0;
       pressure_testing_section := new_PressureTestingSection |}
  = ({| coil_number := n;
        visual_inspection_section := load_coil_component fs images_folder vi v0;
        pressure_testing_section :=
          load_pressure fs images_folder d new_PressureTestingSection |}, Some tt).
Proof.
  intros Hv0 Hvt Hvty Hpt Hpty Hd.
  unfold _load_coil_tab, bind, get. rewrite coil_section_map_titles by exact Hv0.
  cbn [for_each]. unfold bind. rewrite Hvt, Hpt.
  change (Dict.get _ "Visual Inspection") with (Some visual_inspection).
  change (Dict.get _ "Pressure Testing") with (Some pressure_testing).
  unfold zoom, load_coil_section. rewrite Hvty, Hpty.
  change (String.eqb "component" "coil_pressure") with false.
  change (String.eqb "coil_pressure" "coil_pressure") with true.
  cbn [coil_section_at set_coil_section visual_inspection_section
       pressure_testing_section coil_number ret].
  rewrite Hd. reflexivity.
Qed.

(** X9: the results of the pressure tests come back. A coil tab is saved
    and the saved sections are loaded into a new coil tab: saving and
    loading both end without an error, and the nine boxes and the notes of
    the pressure section are as they were. *)
Theorem coil_pressure_round_trip (coil_tab : CoilTab) (fs : files)
  (images_folder : string) (n : nat) :
  title (visual_inspection_section coil_tab) = "Visual Inspection" ->
  one_result (get_pressure_data (pressure_testing_section coil_tab)) ->
  exists fs' sections_data loaded,
    _save_coil_tab coil_tab images_folder fs = (fs', Some sections_data) /\
    _load_coil_tab fs' sections_data images_folder (new_CoilTab n)
    = (loaded, Some tt) /\
    pressure_flags (get_pressure_data (pressure_testing_section loaded))
    = pressure_flags (get_pressure_data (pressure_testing_section coil_tab)).
Proof.
  intros Htitle Hone.
  destruct (save_coil_tab_result coil_tab images_folder fs)
    as (fs' & infos & Esave & vi & pi & d & -> & Hvt & Hvty & Hpt & Hpty & Hd & Hflags).
  rewrite Htitle in Hvt.
  eexists fs', [vi; pi], _. split; [exact Esave|]. split.
  - unfold new_CoilTab.
    apply (load_coil_tab_pressure fs' images_folder vi pi d n); try assumption.
    apply WidgetFacts.title_new_section.
  - cbn [pressure_testing_section]. rewrite load_pressure_flags; [exact Hflags|].
    revert Hone Hflags.
    generalize (get_pressure_data (pressure_testing_section coil_tab)).
    intros d0 Hone Hflags. destruct d, d0. unfold one_result, pressure_flags in *.
    cbn in *. injection Hflags as -> -> -> -> -> -> -> -> -> ->. exact Hone.
Qed.

Lemma coil_pressure_round_trip_witness :
  let coil_tab :=
    {| coil_number := 1;
       visual_inspection_section :=
         new_ComponentSection "Visual Inspection" COIL_VISUAL_INSPECTION_PATTERNS;
       pressure_testing_section :=
         fold_left apply_pressure_event
           [ SetBox psi_250_leak true; SetBox psi_250_leak_face true;
             SetBox psi_500_no_leak true; EditNotes "Leak at the header." ]
           new_PressureTestingSection |} in
  exists fs' sections_data loaded,
    _save_coil_tab coil_tab "/proj/images" ∅ = (fs', Some sections_data) /\
    _load_coil_tab fs' sections_data "/proj/images" (new_CoilTab 1)
    = (loaded, Some tt) /\
    pressure_flags (get_pressure_data (pressure_testing_section loaded))
    = pressure_flags (get_pressure_data (pressure_testing_section coil_tab)).
Proof.
  intros coil_tab. apply (coil_pressure_round_trip coil_tab ∅ "/proj/images" 1).
  - apply WidgetFacts.title_new_section.
  - repeat split.
Defined.

(** ** What loading leaves alone *)

(** The notes and the image widgets of the patterns. *)
Definition kept (s0 s : ComponentSection) : Prop :=
  notes_text s = notes_text s0 /\ pattern_image_widgets s = pattern_image_widgets s0.

Lemma kept_fold {A} (f : ComponentSection -> A -> ComponentSection) l s0 :
  (forall s a, kept s0 s -> kept s0 (f s a)) ->
  forall s, kept s0 s -> kept s0 (fold_left f l s).
Proof.
  intros Hf. induction l as [|a l IH]; intros s Hs; [exact Hs|].
  simpl. apply IH, Hf, Hs.
Qed.

Lemma kept_setChecked s0 s p b : kept s0 s -> kept s0 (Widgets.setChecked s p b).
Proof.
  intros [H1 H2]. destruct (WidgetFacts.setChecked_keeps s p b) as (_ & _ & E2 & _ & E1 & _).
  split; congruence.
Qed.

Lemma kept_set_observation s0 s p i b : kept s0 s -> kept s0 (set_observation s p i b).
Proof.
  intros H. unfold set_observation. destruct (Dict.get _ _) as [boxes|]; [|exact H].
  destruct (boxes !! i); exact H.
Qed.

Lemma kept_check_observations s0 s p obs :
  kept s0 s -> kept s0 (check_observations p obs s).
Proof.
  intros H. unfold check_observations.
  destruct (Dict.get (observation_checkboxes s) p) as [boxes|]; [|exact H].
  apply kept_fold; [|exact H]. intros s1 i H1.
  destruct (Dict.get _ _) as [boxes1|]; [|exact H1].
  destruct (boxes1 !! i) as [cb|]; [|exact H1].
  destruct (String.eqb _ _); [now apply kept_set_observation | exact H1].
Qed.

Lemma kept_load_coil_pattern s0 s info pattern :
  kept s0 s -> kept s0 (load_coil_pattern info pattern s).
Proof.
  intros H. unfold load_coil_pattern. destruct (Dict.has _ _); [|exact H].
  destruct (Dict.get _ _) as [obs_data|]; [|now apply kept_setChecked].
  apply kept_fold; [|now apply kept_setChecked].
  intros s1 obs H1. now apply kept_check_observations.
Qed.

Lemma kept_add_custom_pattern s0 s : kept s0 s -> kept s0 (add_custom_pattern s).
Proof. intros H. unfold add_custom_pattern. destruct (Dict.mem _ _); exact H. Qed.

Lemma kept_load_coil_custom s0 s custom : kept s0 s -> kept s0 (load_coil_custom custom s).
Proof.
  intros H. apply kept_add_custom_pattern in H. unfold load_coil_custom.
  destruct custom; [|exact H]. destruct (_ !! _); exact H.
Qed.

Lemma kept_load_coil_component fs images_folder info s0 s :
  kept s0 s -> kept s0 (load_coil_component fs images_folder info s).
Proof.
  intros H. unfold load_coil_component.
  assert (H1 : kept s0 (fold_left (fun s pattern => load_coil_pattern info pattern s)
                          (default [] (coil_selected_patterns info)) s)).
  { apply kept_fold; [|exact H]. intros; now apply kept_load_coil_pattern. }
  assert (H2 : kept s0 (fold_left (fun s custom => load_coil_custom custom s)
                          (default [] (coil_custom_patterns info))
                          (fold_left (fun s pattern => load_coil_pattern info pattern s)
                             (default [] (coil_selected_patterns info)) s))).
  { apply kept_fold; [|exact H1]. intros; now apply kept_load_coil_custom. }
  exact H2.
Qed.

(** X10: loading a coil tab never changes the notes of its visual
    inspection, nor the image widgets of its patterns, whatever the saved
    data hold: the notes and the photos of the patterns that
    [_save_coil_tab] writes for the section are not read back. *)
Theorem load_coil_tab_keeps_visual_notes (fs : files)
  (sections_data : list coil_section_info) (images_folder : string)
  (coil_tab : CoilTab) :
  let loaded := (_load_coil_tab fs sections_data images_folder coil_tab).1 in
  Widgets.get_notes (visual_inspection_section loaded)
  = Widgets.get_notes (visual_inspection_section coil_tab) /\
  forall pattern,
    get_pattern_images (visual_inspection_section loaded) pattern
    = get_pattern_images (visual_inspection_section coil_tab) pattern.
Proof.
  intros loaded.
  assert (H : kept (visual_inspection_section coil_tab)
                (visual_inspection_section loaded)).
  { unfold loaded, _load_coil_tab, bind, get.
    apply (AppFacts.for_each_state
             (fun t => kept (visual_inspection_section coil_tab)
                         (visual_inspection_section t))); [|now split].
    intros info t Ht. destruct (Dict.get _ _) as [r|]; [|exact Ht].
    unfold zoom. destruct r; cbn [coil_section_at].
    - unfold load_coil_section.
      destruct (String.eqb _ _).
      + unfold load_pressure_on_component.
        destruct (some_exists _ _ _); [exact Ht|].
        destruct (some_exists _ _ _); exact Ht.
      + cbn [fst set_coil_section visual_inspection_section].
        now apply kept_load_coil_component.
    - destruct (load_coil_section _ _ _ _) as [[s|s] res]; exact Ht. }
  destruct H as [H1 H2]. split; [exact H1|].
  intros pattern. unfold get_pattern_images. now rewrite H2.
Qed.

End CoilPersistenceFacts.

Module TestResultsFacts.
Import Text TextFacts Widgets TestResults Persistence.

(** ** Stripping twice *)

Lemma lstrip_head l c r : lstrip l = c :: r -> is_space c = false.
Proof.
  induction l as [|x l IH]; simpl; [discriminate|].
  destruct (is_space x) eqn:E; [exact IH|]. intros H. injection H as -> _. exact E.
Qed.

Lemma lstrip_fixed l :
  match l with c :: _ => is_space c = false | [] => True end -> lstrip l = l.
Proof. destruct l as [|c r]; [reflexivity|]. simpl. now intros ->. Qed.

Lemma lstrip_idem l : lstrip (lstrip l) = lstrip l.
Proof.
  apply lstrip_fixed. destruct (lstrip l) as [|c r] eqn:E; [exact I|].
  eapply lstrip_head, E.
Qed.

Lemma rstrip_idem l : rstrip (rstrip l) = rstrip l.
Proof. unfold rstrip. now rewrite rev_involutive, lstrip_idem. Qed.

Lemma lstrip_rstrip l : lstrip l = l -> lstrip (rstrip l) = rstrip l.
Proof.
  intros Hl. destruct (rstrip_split l) as (ws & E & Hws).
  apply lstrip_fixed. destruct (rstrip l) as [|c r] eqn:Er; [exact I|].
  rewrite E in Hl. simpl in Hl. destruct (is_space c); [|reflexivity].
  exfalso. assert (Hlen : length (lstrip (r ++ ws)) <= length (r ++ ws)).
  { clear. induction (r ++ ws) as [|x l IH]; simpl; [lia|].
    destruct (is_space x); simpl; lia. }
  rewrite Hl in Hlen. simpl in Hlen. lia.
Qed.

Lemma strip_idem s : strip (strip s) = strip s.
Proof.
  apply PathFacts.chars_inj. rewrite !chars_strip.
  rewrite lstrip_rstrip by apply lstrip_idem. apply rstrip_idem.
Qed.

(** ** The values of the tests come back, the photos do not *)

(** The dictionary of [get_test_data] with its four image lists emptied. *)
Definition without_images (d : test_data) : test_data :=
  {| audio := {| audio_ok := audio_ok (audio d); audio_raw := audio_raw (audio d);
                 audio_numeric := audio_numeric (audio d);
                 audio_limit := audio_limit (audio d); audio_image_paths := [] |};
     vibration := {| vibration_ok := vibration_ok (vibration d);
                     vibration_rpm_raw := vibration_rpm_raw (vibration d);
                     vibration_raw := vibration_raw (vibration d);
                     vibration_rpm_numeric := vibration_rpm_numeric (vibration d);
                     vibration_numeric := vibration_numeric (vibration d);
                     vibration_classification := vibration_classification (vibration d);
                     vibration_image_paths := [] |};
     temperature := {| temperature_ok := temperature_ok (temperature d);
                       temperature_raw := temperature_raw (temperature d);
                       temperature_numeric := temperature_numeric (temperature d);
                       temperature_limit := temperature_limit (temperature d);
                       temperature_image_paths := [] |};
     resistance := {| resistance_ok := resistance_ok (resistance d);
                      black_red := black_red (resistance d);
                      black_white := black_white (resistance d);
                      black_yellow := black_yellow (resistance d);
                      black_blue := black_blue (resistance d);
                      is_five_wire := is_five_wire (resistance d);
                      resistance_image_paths := [] |} |}.

Lemma test_data_eta (d : test_data) :
  d = {| audio := audio d; vibration := vibration d; temperature := temperature d;
         resistance := resistance d |}.
Proof. now destruct d. Qed.

Ltac open_test_data :=
  unfold get_test_data;
  destruct (Numeric.truthy _ && Numeric.truthy _);
  [destruct (Numeric.get_vibration_classification _ _)|]; reflexivity.

Lemma get_test_data_audio s :
  audio (get_test_data s) =
  {| audio_ok := Numeric.audio_ok (Numeric.extract_numeric_value (strip (audio_value s)));
     audio_raw := strip (audio_value s);
     audio_numeric := Numeric.extract_numeric_value (strip (audio_value s));
     audio_limit := 72; audio_image_paths := image_paths (audio_images s) |}.
Proof. open_test_data. Qed.

Lemma get_test_data_temperature s :
  temperature (get_test_data s) =
  {| temperature_ok :=
       Numeric.temp_ok (Numeric.extract_numeric_value (strip (temperature_value s)));
     temperature_raw := strip (temperature_value s);
     temperature_numeric := Numeric.extract_numeric_value (strip (temperature_value s));
     temperature_limit := 95;
     temperature_image_paths := image_paths (temperature_images s) |}.
Proof. open_test_data. Qed.

Lemma get_test_data_resistance s :
  resistance (get_test_data s) =
  {| resistance_ok := resistance_ok_cb s;
     black_red := strip (res_black_red s);
     black_white := strip (res_black_white s);
     black_yellow := if five_wire_cb s then strip (res_black_yellow s) else "";
     black_blue := if five_wire_cb s then strip (res_black_blue s) else "";
     is_five_wire := five_wire_cb s;
     resistance_image_paths := image_paths (resistance_images s) |}.
Proof. open_test_data. Qed.

(** The vibration entry depends on the two texts and the images only. *)
Definition vibration_of (rpm value : string) (images : list string) : vibration_data :=
  let rpm_numeric := Numeric.extract_numeric_value rpm in
  let value_numeric := Numeric.extract_numeric_value value in
  let '(classification, ok) :=
    if Numeric.truthy rpm_numeric && Numeric.truthy value_numeric then
      let '(c, ok) := Numeric.get_vibration_classification rpm_numeric value_numeric in
      (c, Some ok)
    else ("Not measured", None) in
  {| vibration_ok := ok; vibration_rpm_raw := rpm; vibration_raw := value;
     vibration_rpm_numeric := rpm_numeric; vibration_numeric := value_numeric;
     vibration_classification := classification; vibration_image_paths := images |}.

Lemma get_test_data_vibration s :
  vibration (get_test_data s) =
  vibration_of (strip (vibration_rpm s)) (strip (vibration_value s))
    (image_paths (vibration_images s)).
Proof. unfold vibration_of. open_test_data. Qed.

Lemma vibration_of_fields rpm value images :
  vibration_rpm_raw (vibration_of rpm value images) = rpm /\
  vibration_raw (vibration_of rpm value images) = value.
Proof.
  unfold vibration_of. destruct (Numeric.truthy _ && Numeric.truthy _);
    [destruct (Numeric.get_vibration_classification _ _)|]; now split.
Qed.

Lemma vibration_of_no_images rpm value images :
  {| vibration_ok := vibration_ok (vibration_of rpm value images);
     vibration_rpm_raw := vibration_rpm_raw (vibration_of rpm value images);
     vibration_raw := vibration_raw (vibration_of rpm value images);
     vibration_rpm_numeric := vibration_rpm_numeric (vibration_of rpm value images);
     vibration_numeric := vibration_numeric (vibration_of rpm value images);
     vibration_classification :=
       vibration_classification (vibration_of rpm value images);
     vibration_image_paths := [] |} = vibration_of rpm value [].
Proof.
  unfold vibration_of. destruct (Numeric.truthy _ && Numeric.truthy _);
    [destruct (Numeric.get_vibration_classification _ _)|]; reflexivity.
Qed.

(** X11: the test results of a motor come back but for their photos.
    The section is saved and the saved entry is loaded into a new section:
    the load ends without an error, and [get_test_data] then gives what it
    gave before (the texts, stripped of white space, the numbers, the
    verdicts and the classification) with the four image lists empty. *)
Theorem test_values_round_trip (fs : ImageStore.files) (images_folder : string)
  (section : TestResultsSection) :
  exists loaded,
    load_section fs images_folder (save_test_section section "test")
      (TestWidget new_TestResultsSection) = (TestWidget loaded, Some tt) /\
    get_test_data loaded = without_images (get_test_data section).
Proof.
  eexists. split; [reflexivity|].
  unfold load_test_section, save_test_section. cbn [info_test_data].
  set (d := get_test_data section).
  rewrite (test_data_eta (get_test_data _)).
  rewrite get_test_data_audio, get_test_data_vibration, get_test_data_temperature,
    get_test_data_resistance.
  unfold load_test_data, without_images.
  cbn [audio_value vibration_rpm vibration_value temperature_value
       resistance_ok_cb res_black_red res_black_white five_wire_cb res_black_yellow
       res_black_blue audio_images vibration_images temperature_images
       resistance_images new_TestResultsSection image_paths no_images].
  unfold d.
  rewrite get_test_data_audio, get_test_data_vibration, get_test_data_temperature,
    get_test_data_resistance.
  cbn [audio_ok audio_raw audio_numeric audio_limit temperature_ok temperature_raw
       temperature_numeric temperature_limit resistance_ok black_red black_white
       black_yellow black_blue is_five_wire].
  rewrite vibration_of_no_images.
  destruct (vibration_of_fields (strip (vibration_rpm section))
              (strip (vibration_value section))
              (image_paths (vibration_images section))) as [-> ->].
  rewrite !strip_idem.
  destruct (five_wire_cb section); rewrite ?strip_idem; reflexivity.
Qed.

End TestResultsFacts.
